(** * Diagnostic-trace generator: session state, termination policy,
      exploration planner and batch decision

    A shallow embedding of the Python sources
    - [state_manager.py]       (class [StateManager]),
    - [structured_output.py]   (class [StructuredOutputGenerator], the two
                                module functions, class [ToolManager]),
    - [batch_processor.py]     (class [EnhancedPlanner], third version),
    - [agent_generator_new.py] (class [AgentGenerator], the loop of
                                [generate]),
    and the properties of the specification checked against them. *)

From Stdlib Require Import ZArith NArith QArith List Ascii String Lia.
From Stdlib Require Import Lqa Qround Qpower.
From stdpp Require Import base option list gmap.

Close Scope Q_scope.
Open Scope nat_scope.

(* ===================================================================== *)
(** ** Python strings *)
(* ===================================================================== *)

(** A Python [str] is a sequence of Unicode code points: [len], slicing and
    [in] all count code points, not bytes. *)
Abbreviation pystr := (list N).

Module PyStr.

(** String literals of this file are written as UTF-8 byte strings and
    decoded here into code points. *)
Fixpoint utf8_decode (bs : list N) : pystr :=
  match bs with
  | [] => []
  | b :: r =>
      if (b <? 128)%N then b :: utf8_decode r
      else if (b <? 224)%N then
        match r with
        | c1 :: r' => ((b - 192) * 64 + (c1 - 128))%N :: utf8_decode r'
        | _ => []
        end
      else if (b <? 240)%N then
        match r with
        | c1 :: c2 :: r' =>
            ((b - 224) * 4096 + (c1 - 128) * 64 + (c2 - 128))%N
              :: utf8_decode r'
        | _ => []
        end
      else
        match r with
        | c1 :: c2 :: c3 :: r' =>
            ((b - 240) * 262144 + (c1 - 128) * 4096
             + (c2 - 128) * 64 + (c3 - 128))%N :: utf8_decode r'
        | _ => []
        end
  end.

Definition u (s : string) : pystr :=
  utf8_decode (map N_of_ascii (list_ascii_of_string s)).

(** [str.lower()], on the ASCII letters.  (Python also maps the cased
    letters outside ASCII; CJK text, digits and punctuation have no case
    and are left alone by both.)  On a string for which [isascii] holds
    this is what [str.lower()] returns. *)
Definition lower_cp (c : N) : N :=
  if ((65 <=? c) && (c <=? 90))%N then (c + 32)%N else c.

(** [str.isascii()] *)
Definition isascii (s : pystr) : bool := forallb (fun c => (c <? 128)%N) s.

Definition lower (s : pystr) : pystr := map lower_cp s.

(** The code points for which [str.isspace()] holds. *)
Definition is_space (c : N) : bool :=
  (((9 <=? c) && (c <=? 13)) || ((28 <=? c) && (c <=? 32))
   || (c =? 133) || (c =? 160) || (c =? 5760)
   || ((8192 <=? c) && (c <=? 8202)) || (c =? 8232) || (c =? 8233)
   || (c =? 8239) || (c =? 8287) || (c =? 12288))%N.

Fixpoint lstrip (s : pystr) : pystr :=
  match s with
  | c :: r => if is_space c then lstrip r else s
  | [] => []
  end.

(** [str.strip()] *)
Definition strip (s : pystr) : pystr := rev (lstrip (rev (lstrip s))).

(** [s.startswith(p)] *)
Fixpoint startswith (p s : pystr) : bool :=
  match p, s with
  | [], _ => true
  | a :: p', b :: s' => (a =? b)%N && startswith p' s'
  | _ :: _, [] => false
  end.

(** [needle in hay] on strings: substring containment. *)
Fixpoint contains (needle hay : pystr) : bool :=
  startswith needle hay
  || match hay with
     | [] => false
     | _ :: hay' => contains needle hay'
     end.

Definition eqb (s t : pystr) : bool := bool_decide (s = t).

(** [c in s] for a single character [c] of a string. *)
Definition has_char (c : N) (s : pystr) : bool := existsb (N.eqb c) s.

(** [str(n)] for a non-negative integer. *)
Fixpoint digits_of_uint (d : Decimal.uint) : pystr :=
  match d with
  | Decimal.Nil => []
  | Decimal.D0 r => 48%N :: digits_of_uint r
  | Decimal.D1 r => 49%N :: digits_of_uint r
  | Decimal.D2 r => 50%N :: digits_of_uint r
  | Decimal.D3 r => 51%N :: digits_of_uint r
  | Decimal.D4 r => 52%N :: digits_of_uint r
  | Decimal.D5 r => 53%N :: digits_of_uint r
  | Decimal.D6 r => 54%N :: digits_of_uint r
  | Decimal.D7 r => 55%N :: digits_of_uint r
  | Decimal.D8 r => 56%N :: digits_of_uint r
  | Decimal.D9 r => 57%N :: digits_of_uint r
  end.

Definition of_nat (n : nat) : pystr := digits_of_uint (Nat.to_uint n).

(** [sep.join(parts)] *)
Definition join (sep : pystr) (parts : list pystr) : pystr :=
  match parts with
  | [] => []
  | p :: r => foldl (fun acc x => acc ++ sep ++ x) p r
  end.

(** [l[-n:]] for an integer [n]: the last [n] elements when [n] is
    positive, the whole list when [n] is 0 (the slice starts at index
    [-0 = 0]), and the list without its first [-n] elements when [n] is
    negative. *)
Definition slice_last {A} (n : Z) (l : list A) : list A :=
  if (0 <? n)%Z then drop (length l - Z.to_nat n) l
  else drop (Z.to_nat (- n)) l.

End PyStr.

Abbreviation u := PyStr.u.

(* ===================================================================== *)
(** ** Python values, ordered dictionaries, exceptions *)
(* ===================================================================== *)

(** A [dict] keeps its keys in insertion order; the planner and the state
    manager iterate over dictionaries and take first elements, so a
    dictionary with [str] keys is an association list in insertion order,
    each key at most once. *)
Abbreviation odict V := (list (pystr * V)).

Module ODict.
Section Ops.
Context {V : Type}.

Fixpoint get (k : pystr) (d : odict V) : option V :=
  match d with
  | [] => None
  | (k', v) :: d' => if PyStr.eqb k k' then Some v else get k d'
  end.

(** [k in d] *)
Definition mem (k : pystr) (d : odict V) : bool :=
  match get k d with Some _ => true | None => false end.

(** [d[k] = v]: the value is replaced in place, a new key goes last. *)
Fixpoint set (k : pystr) (v : V) (d : odict V) : odict V :=
  match d with
  | [] => [(k, v)]
  | (k', v') :: d' =>
      if PyStr.eqb k k' then (k', v) :: d' else (k', v') :: set k v d'
  end.

Definition keys (d : odict V) : list pystr := map fst d.
Definition values (d : odict V) : list V := map snd d.

(** [{**a, **b}] *)
Definition merge (a b : odict V) : odict V :=
  foldl (fun acc kv => set kv.1 kv.2 acc) a b.
End Ops.
End ODict.

(** The values [json.loads] produces, and that the collaborators exchange:
    JSON objects have string keys.  A Python [float] is modelled by the
    rational it denotes; the arithmetic on floats, with its rounding, is
    in [Py] below. *)
#[warnings="-register-all"]
Inductive pyval : Type :=
| PNone
| PBool (b : bool)
| PInt (z : Z)
| PFloat (q : Q)
| PStr (s : pystr)
| PList (l : list pyval)
| PDict (d : odict pyval).

Abbreviation pydict := (odict pyval).

Module Py.

(** Truth value of an object ([if v:], [not v], [a or b]). *)
Definition truthy (v : pyval) : bool :=
  match v with
  | PNone => false
  | PBool b => b
  | PInt z => negb (z =? 0)%Z
  | PFloat q => negb (Qeq_bool q 0)
  | PStr s => match s with [] => false | _ => true end
  | PList l => match l with [] => false | _ => true end
  | PDict d => match d with [] => false | _ => true end
  end.

Definition num (v : pyval) : option Q :=
  match v with
  | PBool b => Some (if b then 1%Q else 0%Q)
  | PInt z => Some (inject_Z z)
  | PFloat q => Some q
  | _ => None
  end.

(** [a == b]: numbers (booleans included) compare by value, lists
    element by element, dictionaries as sets of items. *)
Fixpoint eq (a b : pyval) {struct a} : bool :=
  match a, b with
  | PNone, PNone => true
  | PStr s, PStr t => PyStr.eqb s t
  | PList l, PList m =>
      (fix go (l m : list pyval) {struct l} : bool :=
         match l, m with
         | [], [] => true
         | x :: l', y :: m' => eq x y && go l' m'
         | _, _ => false
         end) l m
  | PDict d, PDict e =>
      (length d =? length e)%nat
      && (fix go (d : pydict) {struct d} : bool :=
            match d with
            | [] => true
            | kv :: d' =>
                match ODict.get kv.1 e with
                | Some w => eq kv.2 w
                | None => false
                end && go d'
            end) d
  | PBool x, _ =>
      match num b with
      | Some q => Qeq_bool (if x then 1%Q else 0%Q) q
      | None => false
      end
  | PInt x, _ =>
      match num b with Some q => Qeq_bool (inject_Z x) q | None => false end
  | PFloat x, _ =>
      match num b with Some q => Qeq_bool x q | None => false end
  | _, _ => false
  end.

(** [l.index(x)]: position of the first element equal to [x]. *)
Fixpoint index (x : pyval) (l : list pyval) : option nat :=
  match l with
  | [] => None
  | y :: l' => if eq y x then Some 0 else S <$> index x l'
  end.

(** *** Arithmetic on floats

    A [float] is a binary64 number.  An operation on floats returns the
    exact result rounded to the nearest number whose significand has 53
    bits, a tie going to the even significand; so does the conversion of
    an [int] and the reading of a decimal literal.  The exponent range
    is not bounded here: overflow starts at 2^1024 and gradual underflow
    below 2^-1022, and the quantities computed in these sources (2.0
    divided by a usage counter plus one, a rank added to it, a ratio of
    two string lengths) stay far inside for every counter a session can
    reach. *)

Definition pow2 (e : Z) : Q := (2 ^ e)%Q.

(** The integer part of the binary logarithm of a positive rational. *)
Definition ilog2 (q : Q) : Z :=
  let d := (Z.log2 (Qnum q) - Z.log2 (Zpos (Qden q)))%Z in
  if Qle_bool (pow2 d) q then d else (d - 1)%Z.

(** The nearest integer, the even one of two equally near. *)
Definition rne (x : Q) : Z :=
  let f := Qfloor x in
  match (x - inject_Z f ?= 1 # 2)%Q with
  | Lt => f
  | Gt => (f + 1)%Z
  | Eq => if Z.even f then f else (f + 1)%Z
  end.

(** A positive rational rounded to 53 significant bits: with
    [2^k <= q < 2^(k+1)] the result is a multiple of [2^(k-52)]. *)
Definition round_pos (q : Q) : Q :=
  let e := (ilog2 q - 52)%Z in
  (inject_Z (rne (q / pow2 e)) * pow2 e)%Q.

(** The float nearest to a rational. *)
Definition fl (q : Q) : Q :=
  match (q ?= 0)%Q with
  | Eq => 0%Q
  | Gt => round_pos q
  | Lt => (- round_pos (- q))%Q
  end.

(** [float(z)], as in [x + z] and [x / z] for a float [x] and an int
    [z]. *)
Definition of_int (z : Z) : Q := fl (inject_Z z).

(** [x / y] and [x + y] on floats ([y] not zero). *)
Definition fdiv (x y : Q) : Q := fl (x / y).
Definition fadd (x y : Q) : Q := fl (x + y).

(** [a / b] on ints: the quotient, correctly rounded. *)
Definition truediv (a b : Z) : Q := fl (inject_Z a / inject_Z b).

End Py.

(** Exceptions the modelled code can raise. *)
Inductive exn : Type :=
| AttributeError | TypeError | KeyError | ValueError | ExternalFailure.

Inductive result (A : Type) : Type :=
| Ok (a : A)
| Raise (e : exn).
Arguments Ok {A} a.
Arguments Raise {A} e.

(** Sequencing: the first exception ends the computation. *)
#[global] Instance result_ret : MRet result := fun A a => Ok a.
#[global] Instance result_bind : MBind result := fun A B k r =>
  match r with
  | Ok a => k a
  | Raise e => Raise e
  end.
#[global] Instance result_fmap : FMap result := fun A B f r =>
  match r with
  | Ok a => Ok (f a)
  | Raise e => Raise e
  end.

(** [try: body except Exception: handler] *)
Definition try_except {A} (body : result A) (handler : A) : A :=
  match body with
  | Ok a => a
  | Raise _ => handler
  end.

(* ===================================================================== *)
(** ** state_manager.py: class StateManager *)
(* ===================================================================== *)

Module State.

(** One entry of [executed_tools]. *)
Record execution : Type := {
  ex_step : nat;
  ex_tool_name : pystr;
  ex_tool_request : pydict;
  ex_tool_response : pyval;
  ex_reasoning : pystr
}.

(** One entry of [findings]. *)
Record finding : Type := {
  f_finding : pystr;
  f_severity : pystr;
  f_step : nat
}.

(** One entry of [diagnostic_chain]; the key [next_focus] is only present
    when a truthy focus was given. *)
Record chain_item : Type := {
  c_step : nat;
  c_action : pystr;
  c_result : pystr;
  c_conclusion : pystr;
  c_next_focus : option pystr
}.

Record t : Type := {
  step_count : nat;
  executed_tools : list execution;
  observations : gmap pystr pyval;
  findings : list finding;
  tool_usage_count : odict nat;
  diagnostic_chain : list chain_item;
  current_focus : option pystr;
  excluded_causes : list pystr
}.

(** [__init__] *)
Definition init : t := {|
  step_count := 0;
  executed_tools := [];
  observations := ∅;
  findings := [];
  tool_usage_count := [];
  diagnostic_chain := [];
  current_focus := None;
  excluded_causes := []
|}.

(** [get_tool_usage_count]: [self.tool_usage_count.get(tool_name, 0)] *)
Definition get_tool_usage_count (st : t) (tool_name : pystr) : nat :=
  default 0 (ODict.get tool_name (tool_usage_count st)).

(** [has_used_tool] *)
Definition has_used_tool (st : t) (tool_name : pystr) : bool :=
  ODict.mem tool_name (tool_usage_count st).

(** [_extract_observations]: [tool_response.items()] exists on a dict
    only; every key not starting with an underscore is stored under
    [f"{tool_name}_{key}"]. *)
Definition obs_key (tool_name key : pystr) : pystr :=
  tool_name ++ u "_" ++ key.

Definition store_observation (tool_name : pystr)
    (obs : gmap pystr pyval) (kv : pystr * pyval) : gmap pystr pyval :=
  if negb (PyStr.startswith (u "_") kv.1)
  then <[obs_key tool_name kv.1 := kv.2]> obs
  else obs.

Definition _extract_observations (st : t) (tool_name : pystr)
    (tool_response : pyval) : t * result unit :=
  match tool_response with
  | PDict d =>
      ({| step_count := step_count st;
          executed_tools := executed_tools st;
          observations :=
            foldl (store_observation tool_name) (observations st) d;
          findings := findings st;
          tool_usage_count := tool_usage_count st;
          diagnostic_chain := diagnostic_chain st;
          current_focus := current_focus st;
          excluded_causes := excluded_causes st |}, Ok tt)
  | _ => (st, Raise AttributeError)
  end.

(** [add_execution].  The counter, the record and the usage count are
    updated before [_extract_observations] runs, so they stay updated
    when it raises. *)
Definition add_execution (st : t) (tool_name : pystr)
    (tool_request : pydict) (tool_response : pyval) (reasoning : pystr)
  : t * result unit :=
  let n := S (step_count st) in
  let record := {| ex_step := n;
                   ex_tool_name := tool_name;
                   ex_tool_request := tool_request;
                   ex_tool_response := tool_response;
                   ex_reasoning := reasoning |} in
  let st1 := {| step_count := n;
                executed_tools := executed_tools st ++ [record];
                observations := observations st;
                findings := findings st;
                tool_usage_count :=
                  ODict.set tool_name
                    (S (get_tool_usage_count st tool_name))
                    (tool_usage_count st);
                diagnostic_chain := diagnostic_chain st;
                current_focus := current_focus st;
                excluded_causes := excluded_causes st |} in
  _extract_observations st1 tool_name tool_response.

(** [add_finding] *)
Definition add_finding (st : t) (finding_text severity : pystr) : t :=
  {| step_count := step_count st;
     executed_tools := executed_tools st;
     observations := observations st;
     findings := findings st ++ [{| f_finding := finding_text;
                                    f_severity := severity;
                                    f_step := step_count st |}];
     tool_usage_count := tool_usage_count st;
     diagnostic_chain := diagnostic_chain st;
     current_focus := current_focus st;
     excluded_causes := excluded_causes st |}.

(** [update_diagnostic_chain]; [next_focus] is [None] or a string, and
    only a non-empty string is truthy. *)
Definition focus_given (next_focus : option pystr) : option pystr :=
  match next_focus with
  | Some (c :: s) => Some (c :: s)
  | _ => None
  end.

Definition update_diagnostic_chain (st : t)
    (action result_text conclusion : pystr) (next_focus : option pystr) : t :=
  let item := {| c_step := step_count st;
                 c_action := action;
                 c_result := result_text;
                 c_conclusion := conclusion;
                 c_next_focus := focus_given next_focus |} in
  {| step_count := step_count st;
     executed_tools := executed_tools st;
     observations := observations st;
     findings := findings st;
     tool_usage_count := tool_usage_count st;
     diagnostic_chain := diagnostic_chain st ++ [item];
     current_focus :=
       match focus_given next_focus with
       | Some f => Some f
       | None => current_focus st
       end;
     excluded_causes := excluded_causes st |}.

(** [_has_critical_finding] *)
Definition _has_critical_finding (st : t) : bool :=
  existsb (fun f => PyStr.eqb (f_severity f) (u "high")) (findings st).

(** [_no_new_findings_recently]: no finding whose step lies in
    [range(step_count - window + 1, step_count + 1)]. *)
Definition in_range (lo hi x : Z) : bool := ((lo <=? x) && (x <? hi))%Z.

Definition _no_new_findings_recently (st : t) (window : nat) : bool :=
  if step_count st <? window then false
  else
    let sc := Z.of_nat (step_count st) in
    let recent_findings :=
      filter (fun f => in_range (sc - Z.of_nat window + 1) (sc + 1)
                         (Z.of_nat (f_step f)) = true)
             (findings st) in
    length recent_findings =? 0.

(** [_sufficient_coverage] *)
Definition _sufficient_coverage (st : t) : bool :=
  8 <=? length (tool_usage_count st).

Definition reason_step_limit : pystr := u "达到最大步数限制".
Definition reason_critical : pystr := u "找到关键问题".
Definition reason_stagnation : pystr := u "连续多步无新发现".
Definition reason_coverage : pystr := u "已完成全面检查".
Definition reason_in_progress : pystr := u "继续诊断".

(** [should_continue] *)
Definition should_continue (st : t) (max_steps : Z) : bool * pystr :=
  if (max_steps <=? Z.of_nat (step_count st))%Z then
    (false, reason_step_limit)
  else if _has_critical_finding st then
    (false, reason_critical)
  else if _no_new_findings_recently st 3 && (3 <=? step_count st) then
    (false, reason_stagnation)
  else if _sufficient_coverage st then
    (false, reason_coverage)
  else
    (true, reason_in_progress).

(** The two state-changing calls of the session surface, for sequences
    of calls. *)
Inductive call : Type :=
| RecordAction (tool_name : pystr) (tool_request : pydict)
               (tool_response : pyval) (reasoning : pystr)
| UpdateChain (action result_text conclusion : pystr)
              (next_focus : option pystr).

Definition is_record (c : call) : bool :=
  match c with RecordAction _ _ _ _ => true | UpdateChain _ _ _ _ => false end.

(** The state a call leaves behind, whether it returned or raised. *)
Definition run_call (st : t) (c : call) : t :=
  match c with
  | RecordAction n rq rs r => (add_execution st n rq rs r).1
  | UpdateChain a r c f => update_diagnostic_chain st a r c f
  end.

Definition run_calls (st : t) (cs : list call) : t := foldl run_call st cs.

Definition n_record (cs : list call) : nat :=
  length (filter (fun c => is_record c = true) cs).
Definition n_update (cs : list call) : nat :=
  length (filter (fun c => is_record c = false) cs).

(** [add_excluded_cause] *)
Definition add_excluded_cause (st : t) (cause : pystr) : t :=
  if bool_decide (cause ∈ excluded_causes st) then st
  else
    {| step_count := step_count st;
       executed_tools := executed_tools st;
       observations := observations st;
       findings := findings st;
       tool_usage_count := tool_usage_count st;
       diagnostic_chain := diagnostic_chain st;
       current_focus := current_focus st;
       excluded_causes := excluded_causes st ++ [cause] |}.

(** [set_current_focus] *)
Definition set_current_focus (st : t) (focus : pystr) : t :=
  {| step_count := step_count st;
     executed_tools := executed_tools st;
     observations := observations st;
     findings := findings st;
     tool_usage_count := tool_usage_count st;
     diagnostic_chain := diagnostic_chain st;
     current_focus := Some focus;
     excluded_causes := excluded_causes st |}.

Definition no_chain : pystr := u "暂无诊断逻辑链".

Definition chain_lines (item : chain_item) : list pystr :=
  [u "【Step " ++ PyStr.of_nat (c_step item) ++ u "】";
   u "  动作: " ++ c_action item;
   u "  结果: " ++ c_result item;
   u "  结论: " ++ c_conclusion item]
  ++ match c_next_focus item with
     | Some f => [u "  → 下一步焦点: " ++ f]
     | None => []
     end
  ++ [[]].

Definition newline : pystr := [10%N].

(** [format_diagnostic_chain] *)
Definition format_diagnostic_chain (st : t) : pystr :=
  match diagnostic_chain st with
  | [] => no_chain
  | chain => PyStr.join newline (concat (map chain_lines chain))
  end.

Definition context_step_line (item : chain_item) : pystr :=
  u "  Step " ++ PyStr.of_nat (c_step item) ++ u ": " ++ c_action item
    ++ u " → " ++ c_conclusion item.

(** The [lines] list of [get_diagnostic_context]; [current_focus] is
    truthy when it is a non-empty string. *)
Definition context_lines (st : t) : list pystr :=
  [match current_focus st with
   | Some (c :: f) => u "当前焦点: " ++ (c :: f)
   | _ => u "当前焦点: 初步诊断"
   end]
  ++ match excluded_causes st with
     | [] => []
     | causes => [u "已排除: " ++ PyStr.join (u ", ") causes]
     end
  ++ match diagnostic_chain st with
     | [] => []
     | chain =>
         (newline ++ u "最近诊断步骤:")
           :: map context_step_line (PyStr.slice_last 3 chain)
     end.

Definition initial_state_text : pystr := u "初始状态".

(** [get_diagnostic_context] *)
Definition get_diagnostic_context (st : t) : pystr :=
  match context_lines st with
  | [] => initial_state_text
  | lines => PyStr.join newline lines
  end.

(** [get_recent_tools] *)
Definition get_recent_tools (st : t) (n : Z) : list pystr :=
  map ex_tool_name (PyStr.slice_last n (executed_tools st)).

(** [get_summary] *)
Record summary : Type := {
  total_steps : nat;
  unique_tools_used : nat;
  total_findings : nat;
  critical_findings : nat
}.

Definition get_summary (st : t) : summary :=
  {| total_steps := step_count st;
     unique_tools_used := length (tool_usage_count st);
     total_findings := length (findings st);
     critical_findings :=
       length (filter (fun f => f_severity f = u "high") (findings st)) |}.

Definition no_history : pystr := u "无执行历史".

Definition history_lines (record : execution) : list pystr :=
  (u "Step " ++ PyStr.of_nat (ex_step record) ++ u ": " ++ ex_tool_name record)
    :: match ex_reasoning record with
       | [] => []
       | r => [u "  理由: " ++ r]
       end.

(** [format_recent_history] *)
Definition format_recent_history (st : t) (n : Z) : pystr :=
  match PyStr.slice_last n (executed_tools st) with
  | [] => no_history
  | recent => PyStr.join newline (concat (map history_lines recent))
  end.

Definition no_findings : pystr := u "暂无发现".

Definition severity_symbol (severity : pystr) : pystr :=
  if PyStr.eqb severity (u "high") then u "🔴"
  else if PyStr.eqb severity (u "medium") then u "🟡"
  else if PyStr.eqb severity (u "low") then u "🟢"
  else u "⚪".

Definition finding_line (i : nat) (f : finding) : pystr :=
  severity_symbol (f_severity f) ++ u " " ++ PyStr.of_nat i ++ u ". "
    ++ f_finding f ++ u " (Step " ++ PyStr.of_nat (f_step f) ++ u ")".

(** [format_findings]; the findings are numbered from 1. *)
Definition format_findings (st : t) : pystr :=
  match findings st with
  | [] => no_findings
  | fs => PyStr.join newline (imap (fun i f => finding_line (S i) f) fs)
  end.

(** The state-changing methods of the class, for sequences of calls. *)
Inductive op : Type :=
| Execution (tool_name : pystr) (tool_request : pydict)
            (tool_response : pyval) (reasoning : pystr)
| Finding (finding_text severity : pystr)
| Chain (action result_text conclusion : pystr) (next_focus : option pystr)
| Exclude (cause : pystr)
| Focus (focus : pystr).

(** The state a call leaves behind, whether it returned or raised. *)
Definition run_op (st : t) (o : op) : t :=
  match o with
  | Execution n rq rs r => (add_execution st n rq rs r).1
  | Finding f s => add_finding st f s
  | Chain a r c f => update_diagnostic_chain st a r c f
  | Exclude c => add_excluded_cause st c
  | Focus f => set_current_focus st f
  end.

Definition run_ops (st : t) (os : list op) : t := foldl run_op st os.

End State.

(* ===================================================================== *)
(** ** structured_output.py: ToolManager, StructuredOutputGenerator *)
(* ===================================================================== *)

Module Tools.

(** [ToolManager]: [tools] maps a tool name to its description. *)
Record t : Type := {
  tools : odict pystr;
  tool_parameters : odict pystr
}.

Definition finish_diagnosis : pystr := u "finish_diagnosis".
Definition finish : pystr := u "finish".

(** [is_valid_tool].  The planner passes whatever the collaborator put
    under ["tool_name"]: a string is looked up, another hashable value
    is simply not found, a list or dict cannot be hashed. *)
Definition is_valid_tool (tm : t) (tool_name : pyval) : result bool :=
  match tool_name with
  | PStr s =>
      if PyStr.eqb s finish_diagnosis || PyStr.eqb s finish then Ok true
      else Ok (ODict.mem s (tools tm))
  | PList _ | PDict _ => Raise TypeError
  | _ => Ok false
  end.

(** Modelled from the spec: [get_all_tool_names] is called by the planner
    but is not defined by the [ToolManager] of the sources.  The catalog
    "holds the set of valid action names"; this returns them, in the
    order they were loaded. *)
Definition get_all_tool_names (tm : t) : list pystr := ODict.keys (tools tm).

End Tools.

Module Output.

(** One action-observation pair of a step's ["coa"] list. *)
Record action_obs : Type := {
  ao_name : pystr;
  ao_args : pydict;
  ao_observation : pyval
}.

(** One element of [steps]: [{f"step{n}": {"cot": ..., "coa": [...]}}]. *)
Record step_data : Type := {
  sd_key : pystr;
  sd_cot : pystr;
  sd_coa : list action_obs
}.

(** [StructuredOutputGenerator] *)
Record t : Type := {
  current_step : nat;
  steps : list step_data;
  known_entities : gmap pystr (list pyval)
}.

Definition init : t :=
  {| current_step := 0; steps := []; known_entities := ∅ |}.

Definition step_key (n : nat) : pystr := u "step" ++ PyStr.of_nat n.

(** [start_step] *)
Definition start_step (g : t) (reasoning : pystr) : t :=
  let n := S (current_step g) in
  {| current_step := n;
     steps := steps g ++ [{| sd_key := step_key n;
                             sd_cot := reasoning;
                             sd_coa := [] |}];
     known_entities := known_entities g |}.

(** [add_action_observation]: appends to the ["coa"] list of the last
    step. *)
Definition add_action_observation (g : t) (tool_name : pystr)
    (tool_args : pydict) (observation : pyval) : result t :=
  match last (steps g) with
  | None => Raise ValueError
  | Some cur =>
      if PyStr.eqb (sd_key cur) (step_key (current_step g)) then
        let cur' := {| sd_key := sd_key cur;
                       sd_cot := sd_cot cur;
                       sd_coa := sd_coa cur
                                 ++ [{| ao_name := tool_name;
                                        ao_args := tool_args;
                                        ao_observation := observation |}] |} in
        Ok {| current_step := current_step g;
              steps := removelast (steps g) ++ [cur'];
              known_entities := known_entities g |}
      else Raise KeyError
  end.

(** [update_known_entities]: [self.known_entities[entity_type] = entities] *)
Definition update_known_entities (g : t) (entity_type : pystr)
    (entities : list pyval) : t :=
  {| current_step := current_step g;
     steps := steps g;
     known_entities := <[entity_type := entities]> (known_entities g) |}.

(** [get_known_entities] *)
Definition get_known_entities (g : t) (entity_type : pystr) : list pyval :=
  default [] (known_entities g !! entity_type).

Definition entity_keys : list pystr :=
  [u "接口"; u "interface"; u "interface_name";
   u "设备"; u "device"; u "device_name"].

(** The inner loop over the key names: the value under the first key the
    item has. *)
Definition first_entity (item : pydict) : option pyval :=
  list_find (fun k => ODict.mem k item = true) entity_keys
    ≫= fun ik => ODict.get ik.2 item.

(** [extract_entities_from_observation]; the [entity_type] argument is
    not consulted by the source. *)
Definition extract_entities_from_observation (observation : pyval)
    (entity_type : pystr) : list pyval :=
  match observation with
  | PList items =>
      omap (fun item =>
              match item with
              | PDict d => first_entity d
              | _ => None
              end) items
  | PDict d =>
      match first_entity d with
      | Some e => [e]
      | None => []
      end
  | _ => []
  end.

Definition batch_keywords : list pystr :=
  [u "逐一"; u "每个"; u "所有"; u "批量"; u "遍历"; u "检查所有"].

(** [should_batch_execute] *)
Definition should_batch_execute (reasoning : pystr) (entities : list pyval)
  : bool :=
  (1 <? length entities)
  && existsb (fun keyword => PyStr.contains keyword reasoning) batch_keywords.

(** [generate_output]: [{"query": query, "response": self.steps}] *)
Record output : Type := {
  query : pystr;
  response : list step_data
}.

Definition generate_output (g : t) (q : pystr) : output :=
  {| query := q; response := steps g |}.

(** The state-changing methods of the generator, for sequences of calls. *)
Inductive op : Type :=
| Start (reasoning : pystr)
| Add (tool_name : pystr) (tool_args : pydict) (observation : pyval)
| Update (entity_type : pystr) (entities : list pyval).

(** The generator a call leaves behind; [add_action_observation] raises
    before it changes anything. *)
Definition run_op (g : t) (o : op) : t :=
  match o with
  | Start r => start_step g r
  | Add n a ob =>
      match add_action_observation g n a ob with
      | Ok g' => g'
      | Raise _ => g
      end
  | Update ty es => update_known_entities g ty es
  end.

Definition run_ops (g : t) (os : list op) : t := foldl run_op g os.

(** The observations of a step of the trace, in order. *)
Definition observations_of (sd : step_data) : list pyval :=
  map ao_observation (sd_coa sd).

End Output.

(* ===================================================================== *)
(** ** batch_processor.py: class EnhancedPlanner (third version) *)
(* ===================================================================== *)

Module Planner.

(** The part of the goal the planner's logic reads:
    [goal.get('entities', {})] and [goal.get('context_params', {})], both
    dicts in the goals the extractor documents. *)
Record goal : Type := {
  entities : pydict;
  context_params : pydict
}.

(** What one call of the candidate-generation collaborator comes to:
    the request raised, or [_parse_json_response] returned a value (the
    parsed JSON, [{}] when the text did not parse). *)
Inductive llm_reply : Type :=
| LlmFails
| LlmJson (v : pyval).

(** The draws one selection takes from [random]: the float
    [random.random()] returns and the position [random.choice] /
    [random.choices] lands on. *)
Record draws : Type := {
  random_unit : Q;
  choice_index : nat
}.

(** The lists [_extract_known_parameters] builds. *)
Record known : Type := {
  device_name : list pystr;
  interface_name : list pystr;
  ip : list pystr;
  vlan : list pystr;
  hostname : list pystr
}.

Definition k_tool_name : pystr := u "tool_name".
Definition k_tool_request : pystr := u "tool_request".
Definition k_reasoning : pystr := u "reasoning".
Definition k_score : pystr := u "score".
Definition k_error : pystr := u "error".

(** ['tool_name' in candidate], by the type of [candidate]. *)
Definition py_in (key : pystr) (v : pyval) : result bool :=
  match v with
  | PDict d => Ok (ODict.mem key d)
  | PList l => Ok (existsb (Py.eq (PStr key)) l)
  | PStr s => Ok (PyStr.contains key s)
  | _ => Raise TypeError
  end.

(** [candidate['tool_name']] *)
Definition py_getitem (v : pyval) (key : pystr) : result pyval :=
  match v with
  | PDict d =>
      match ODict.get key d with
      | Some x => Ok x
      | None => Raise KeyError
      end
  | _ => Raise TypeError
  end.

(** [state.get_tool_usage_count(tool_name)] for the value found under
    ["tool_name"]; the usage counter has string keys only. *)
Definition usage_of (st : State.t) (tool_name : pyval) : result nat :=
  match tool_name with
  | PStr s => Ok (State.get_tool_usage_count st s)
  | PList _ | PDict _ => Raise TypeError
  | _ => Ok 0
  end.

(** *** _is_valid_parameter_value *)

Definition invalid_patterns : list pystr :=
  [u "设备"; u "接口"; u "所在"; u "某个"; u "这个"; u "那个";
   u "device"; u "interface"; u "ip"; u "port"; u "vlan";
   u "未知"; u "待定"; u "unknown"; u "tbd";
   u "..."; u "xxx"; u "yyy"].

Definition slash : N := 47%N.
Definition dot : N := 46%N.

Definition pattern_rejects (value value_lower pattern : pystr) : bool :=
  PyStr.eqb value_lower pattern
  || ((length value <? 15)
      && PyStr.contains pattern value_lower
      && negb (PyStr.has_char slash value)
      && negb (PyStr.has_char dot value)).

Definition valid_str (value : pystr) : bool :=
  match value with
  | [] => false
  | _ =>
      let value_lower := PyStr.strip (PyStr.lower value) in
      negb (existsb (pattern_rejects value value_lower) invalid_patterns)
  end.

Definition _is_valid_parameter_value (value : pyval) : bool :=
  match value with
  | PStr s => valid_str s
  | _ => false
  end.

(** *** _fuzzy_match_tool_name *)

Definition simple_similarity (s1 s2 : pystr) : Q :=
  let a := PyStr.lower s1 in
  let b := PyStr.lower s2 in
  let (a, b) := if length b <? length a then (b, a) else (a, b) in
  let common := length (filter (fun c => PyStr.has_char c b = true) a) in
  Py.truediv (Z.of_nat common) (Z.of_nat (Nat.max (length a) (length b))).

Definition Qlt_bool (x y : Q) : bool := negb (Qle_bool y x).

(** The literal [0.6]. *)
Definition threshold : Q := Py.fl (6 # 10).

Definition best_similar (invalid_name : pystr) (valid_tools : list pystr)
  : option pystr :=
  (foldl (fun (best : option pystr * Q) tool =>
            let score := simple_similarity invalid_name tool in
            if Qlt_bool best.2 score && Qlt_bool threshold score
            then (Some tool, score) else best)
         (None, 0%Q) valid_tools).1.

Definition fuzzy_str (invalid_name : pystr) (valid_tools : list pystr)
  : option pystr :=
  let invalid_lower := PyStr.strip (PyStr.lower invalid_name) in
  match list_find (fun tool => PyStr.lower tool = invalid_lower) valid_tools with
  | Some it => Some it.2
  | None =>
      match list_find
              (fun tool =>
                 PyStr.contains invalid_lower (PyStr.lower tool)
                 || PyStr.contains (PyStr.lower tool) invalid_lower = true)
              valid_tools with
      | Some it => Some it.2
      | None => best_similar invalid_name valid_tools
      end
  end.

(** [not invalid_name or not valid_tools] gives [None]; a truthy value
    that is not a string has no [lower]. *)
Definition _fuzzy_match_tool_name (invalid_name : pyval)
    (valid_tools : list pystr) : result (option pystr) :=
  if negb (Py.truthy invalid_name) then Ok None
  else match valid_tools with
       | [] => Ok None
       | _ =>
           match invalid_name with
           | PStr s => Ok (fuzzy_str s valid_tools)
           | _ => Raise AttributeError
           end
       end.

(** *** _find_valid_parameter *)

Definition first_or_empty (l : list pystr) : pystr := default [] (head l).

Definition _find_valid_parameter (param_name : pystr) (kp : known) : pystr :=
  let n := PyStr.lower param_name in
  if PyStr.contains (u "device") n then first_or_empty (device_name kp)
  else if PyStr.contains (u "interface") n then
    first_or_empty (interface_name kp)
  else if PyStr.contains (u "ip") n then first_or_empty (ip kp)
  else if PyStr.contains (u "vlan") n then first_or_empty (vlan kp)
  else if PyStr.contains (u "hostname") n then first_or_empty (hostname kp)
  else [].

Section Collaborators.

(** [str(v)] of a value that is not a string ([repr] of a number, a
    list, a dict, ...) is left to the interpreter; of a string it is
    the string itself. *)
Variable py_repr : pyval -> pystr.

(** [list(set(l))]: the elements of [l], each once, in the order the
    interpreter's hashing puts them. *)
Variable set_order : list pystr -> list pystr.

Definition py_str (v : pyval) : pystr :=
  match v with
  | PStr s => s
  | _ => py_repr v
  end.

(** *** _extract_known_parameters *)

Inductive slot : Type := SDevice | SInterface | SIp.

Definition add_known (s : slot) (v : pystr) (kp : known) : known :=
  match s with
  | SDevice =>
      {| device_name := device_name kp ++ [v];
         interface_name := interface_name kp;
         ip := ip kp; vlan := vlan kp; hostname := hostname kp |}
  | SInterface =>
      {| device_name := device_name kp;
         interface_name := interface_name kp ++ [v];
         ip := ip kp; vlan := vlan kp; hostname := hostname kp |}
  | SIp =>
      {| device_name := device_name kp;
         interface_name := interface_name kp;
         ip := ip kp ++ [v]; vlan := vlan kp; hostname := hostname kp |}
  end.

(** Keys of the goal and of earlier requests are classified by
    containment in the lower-cased key. *)
Definition slot_of_name (key : pystr) : option slot :=
  let n := PyStr.lower key in
  if PyStr.contains (u "device") n then Some SDevice
  else if PyStr.contains (u "interface") n then Some SInterface
  else if PyStr.contains (u "ip") n then Some SIp
  else None.

(** Keys of an observation are classified by exact match. *)
Definition mem_str (k : pystr) (l : list pystr) : bool :=
  existsb (PyStr.eqb k) l.

Definition slot_of_response_key (key : pystr) : option slot :=
  if mem_str key [u "设备"; u "device"; u "device_name"] then Some SDevice
  else if mem_str key [u "接口"; u "interface"; u "interface_name"]
  then Some SInterface
  else if mem_str key [u "IP"; u "IP地址"; u "ip"] then Some SIp
  else None.

Definition usable (value : pyval) : bool :=
  Py.truthy value && valid_str (py_str value).

Definition collect_named (kp : known) (kv : pystr * pyval) : known :=
  match slot_of_name kv.1 with
  | Some s => if usable kv.2 then add_known s (py_str kv.2) kp else kp
  | None => kp
  end.

Definition collect_response (kp : known) (kv : pystr * pyval) : known :=
  if usable kv.2 then
    match slot_of_response_key kv.1 with
    | Some s => add_known s (py_str kv.2) kp
    | None => kp
    end
  else kp.

(** [s.split('/')[0]] *)
Fixpoint before_slash (s : pystr) : pystr :=
  match s with
  | [] => []
  | c :: r => if (c =? slash)%N then [] else c :: before_slash r
  end.

(** Items of a list observation: the IP keys also accept
    ["IP地址/掩码"], and the mask is cut off. *)
Definition collect_item (kp : known) (kv : pystr * pyval) : known :=
  if usable kv.2 then
    if mem_str kv.1 [u "设备"; u "device"; u "device_name"] then
      add_known SDevice (py_str kv.2) kp
    else if mem_str kv.1 [u "接口"; u "interface"; u "interface_name"] then
      add_known SInterface (py_str kv.2) kp
    else if mem_str kv.1 [u "IP"; u "IP地址"; u "ip"; u "IP地址/掩码"] then
      let ip_value := before_slash (py_str kv.2) in
      if valid_str ip_value then add_known SIp ip_value kp else kp
    else kp
  else kp.

Definition collect_execution (kp : known) (e : State.execution) : known :=
  let kp1 := foldl collect_named kp (State.ex_tool_request e) in
  match State.ex_tool_response e with
  | PDict d => foldl collect_response kp1 d
  | PList items =>
      foldl (fun acc item =>
               match item with
               | PDict d => foldl collect_item acc d
               | _ => acc
               end) kp1 items
  | _ => kp1
  end.

Definition no_known : known :=
  {| device_name := []; interface_name := []; ip := [];
     vlan := []; hostname := [] |}.

(** The values gathered before the final de-duplication. *)
Definition gather_known (st : State.t) (g : goal) : known :=
  let merged := ODict.merge (entities g) (context_params g) in
  foldl collect_execution (foldl collect_named no_known merged)
        (State.executed_tools st).

Definition _extract_known_parameters (st : State.t) (g : goal) : known :=
  let kp := gather_known st g in
  {| device_name := set_order (device_name kp);
     interface_name := set_order (interface_name kp);
     ip := set_order (ip kp);
     vlan := set_order (vlan kp);
     hostname := set_order (hostname kp) |}.

(** *** _validate_and_fix_parameters *)

Definition fix_one (kp : known) (request : pydict) (kv : pystr * pyval)
  : pydict :=
  match _find_valid_parameter kv.1 kp with
  | [] => request
  | c :: s => ODict.set kv.1 (PStr (c :: s)) request
  end.

(** [tool_request.items()] needs a dict under ["tool_request"]. *)
Definition _validate_and_fix_parameters (plan : pydict) (st : State.t)
    (g : goal) : result pydict :=
  let tool_request := default (PDict []) (ODict.get k_tool_request plan) in
  let known_params := _extract_known_parameters st g in
  match tool_request with
  | PDict d =>
      let invalid_params :=
        filter (fun kv => _is_valid_parameter_value kv.2 = false) d in
      let d' := foldl (fix_one known_params) d invalid_params in
      Ok (ODict.set k_tool_request (PDict d') plan)
  | _ => Raise AttributeError
  end.

(** *** _get_tool_candidates *)

Definition as_dict (v : pyval) : result pydict :=
  match v with
  | PDict d => Ok d
  | _ => Raise TypeError
  end.

(** The test [candidate and 'tool_name' in candidate] followed by the
    catalog check on [candidate['tool_name']]. *)
Definition named_candidate (candidate : pyval) : result (option pyval) :=
  if Py.truthy candidate then
    has ← py_in k_tool_name candidate;
    if (has : bool) then Some <$> py_getitem candidate k_tool_name
    else Ok None
  else Ok None.

Fixpoint candidates_loop (tm : Tools.t) (replies : list llm_reply)
    (candidates : list pyval) : result (list pyval) :=
  match replies with
  | [] => Ok candidates
  | LlmFails :: _ => Raise ExternalFailure
  | LlmJson candidate :: rest =>
      name ← named_candidate candidate;
      match name with
      | Some tool_name =>
          valid ← Tools.is_valid_tool tm tool_name;
          candidates_loop tm rest
            (if (valid : bool) then candidates ++ [candidate]
             else candidates)
      | None => candidates_loop tm rest candidates
      end
  end.

(** [llm i] is the outcome of the [i]-th request of this round; any
    exception inside the [try] discards the round. *)
Definition _get_tool_candidates (tm : Tools.t) (llm : nat -> llm_reply)
    (top_k : nat) : list pyval :=
  try_except (candidates_loop tm (map llm (seq 0 top_k)) []) [].

(** *** _apply_exploration_strategy *)

(** [2.0 / (usage_count + 1)] *)
Definition exploration_bonus (usage_count : nat) : Q :=
  Py.fdiv 2 (Py.of_int (Z.of_nat (usage_count + 1))).

(** [candidates.index(candidate)] for the element at position [i]: the
    first earlier position holding an equal value, and position [i]
    itself otherwise (there the comparison succeeds by identity). *)
Definition index_at (i : nat) (candidate : pyval)
    (candidates : list pyval) : nat :=
  default i (Py.index candidate (take i candidates)).

(** The scoring loop visits the positions in order; [candidate['score']]
    is assigned on the object in the list, so later calls of
    [candidates.index] compare against the already scored elements. *)
Fixpoint score_loop (st : State.t) (todo : nat) (i : nat)
    (candidates : list pyval) : result (list pyval) :=
  match todo with
  | 0 => Ok candidates
  | S todo' =>
      match candidates !! i with
      | None => Ok candidates
      | Some candidate =>
          tool_name ← py_getitem candidate k_tool_name;
          d ← as_dict candidate;
          let base_score :=
            (Z.of_nat (length candidates)
             - Z.of_nat (index_at i candidate candidates))%Z in
          usage_count ← usage_of st tool_name;
          let score :=
            Py.fadd (Py.of_int base_score)
                    (exploration_bonus usage_count) in
          score_loop st todo' (S i)
            (<[i := PDict (ODict.set k_score (PFloat score) d)]>
               candidates)
      end
  end.

Definition scored (st : State.t) (candidates : list pyval)
  : result (list pyval) :=
  score_loop st (length candidates) 0 candidates.

Definition score_of (candidate : pyval) : Q :=
  match candidate with
  | PDict d => default 0%Q (ODict.get k_score d ≫= Py.num)
  | _ => 0%Q
  end.

(** [candidates.sort(key=lambda x: x['score'], reverse=True)]: stable,
    highest score first. *)
Fixpoint insert_desc (x : pyval) (l : list pyval) : list pyval :=
  match l with
  | [] => [x]
  | y :: l' =>
      if Qlt_bool (score_of y) (score_of x) then x :: y :: l'
      else y :: insert_desc x l'
  end.

Definition sort_desc (l : list pyval) : list pyval :=
  foldl (fun acc x => insert_desc x acc) [] l.

Definition greedy : pystr := u "greedy".
Definition balanced : pystr := u "balanced".

Definition pick (d : draws) (l : list pyval) : option pyval :=
  l !! (choice_index d mod length l).

Definition select_by_mode (mode : pystr) (d : draws)
    (sorted : list pyval) : option pyval :=
  if PyStr.eqb mode greedy then head sorted
  else if PyStr.eqb mode balanced then
    if Qlt_bool (random_unit d) (Py.fl (7 # 10)) then head sorted
    else match tail sorted with
         | [] => head sorted
         | rest => pick d rest
         end
  else pick d sorted.

Definition no_candidates : pydict := [(k_error, PStr (u "无候选工具"))].

Definition _apply_exploration_strategy (mode : pystr) (d : draws)
    (candidates : list pyval) (st : State.t) : result pyval :=
  match candidates with
  | [] => Ok (PDict no_candidates)
  | _ =>
      cs ← scored st candidates;
      match select_by_mode mode d (sort_desc cs) with
      | Some selected => Ok selected
      | None => Raise ValueError
      end
  end.

(** *** _try_tool_name_correction *)

(** The body of the [try]: the strict re-query, the catalog check and
    the fuzzy correction of the name. *)
Definition correction_body (tm : Tools.t) (reply : llm_reply)
  : result (option pydict) :=
  let all_tools := Tools.get_all_tool_names tm in
  match reply with
  | LlmFails => Raise ExternalFailure
  | LlmJson candidate =>
      name ← named_candidate candidate;
      match name with
      | None => Ok None
      | Some tool_name =>
          valid ← Tools.is_valid_tool tm tool_name;
          if (valid : bool) then Some <$> as_dict candidate
          else
            corrected_name ← _fuzzy_match_tool_name tool_name all_tools;
            match corrected_name with
            | Some (c :: n) =>
                d ← as_dict candidate;
                Ok (Some (ODict.set k_tool_name (PStr (c :: n)) d))
            | _ => Ok None
            end
      end
  end.

Definition _try_tool_name_correction (tm : Tools.t) (reply : llm_reply)
  : option pydict :=
  try_except (correction_body tm reply) None.

(** *** _select_fallback_tool *)

Definition is_query_tool (t : pystr) : bool :=
  let n := PyStr.lower t in
  PyStr.contains (u "query") n || PyStr.contains (u "get") n
  || PyStr.contains (u "show") n.

Definition py_or (a b : pyval) : pyval := if Py.truthy a then a else b.

Definition get_or_none (k : pystr) (d : pydict) : pyval :=
  default PNone (ODict.get k d).

Definition fallback_request (g : goal) : pydict :=
  let all_params := ODict.merge (context_params g) (entities g) in
  let r1 :=
    if ODict.mem (u "device") all_params
       || ODict.mem (u "device_name") all_params
    then [(u "device_name",
           py_or (get_or_none (u "device_name") all_params)
                 (get_or_none (u "device") all_params))]
    else [] in
  if ODict.mem (u "interface") all_params
     || ODict.mem (u "interface_name") all_params
  then ODict.set (u "interface_name")
         (py_or (get_or_none (u "interface_name") all_params)
                (get_or_none (u "interface") all_params)) r1
  else r1.

Definition min_list (l : list nat) : option nat :=
  match l with
  | [] => None
  | x :: r => Some (foldl Nat.min x r)
  end.

(** The tool the last resort lands on, for a non-empty catalog. *)
Definition fallback_choice (all_tools : list pystr) (st : State.t)
  : result pystr :=
  if State.step_count st =? 0 then
    match filter (fun t => is_query_tool t = true) all_tools with
    | q :: _ => Ok q
    | [] => match all_tools with
            | t :: _ => Ok t
            | [] => Raise ValueError
            end
    end
  else
    let usage := State.tool_usage_count st in
    match filter (fun t => ODict.mem t usage = false) all_tools with
    | t :: _ => Ok t
    | [] =>
        match min_list (ODict.values usage) with
        | None => Raise ValueError
        | Some min_usage =>
            match filter (fun kv : pystr * nat => kv.2 = min_usage)
                         usage with
            | kv :: _ => Ok kv.1
            | [] => Raise ValueError
            end
        end
    end.

Definition no_tools : pydict := [(k_error, PStr (u "没有可用工具"))].

Definition fallback_reasoning (st : State.t) : pystr :=
  u "备用工具选择（前" ++ PyStr.of_nat (State.step_count st)
    ++ u "步选择遇到问题）".

Definition _select_fallback_tool (tm : Tools.t) (st : State.t) (g : goal)
  : result pydict :=
  let all_tools := Tools.get_all_tool_names tm in
  match all_tools with
  | [] => Ok no_tools
  | _ =>
      selected_tool ← fallback_choice all_tools st;
      Ok [(k_tool_name, PStr selected_tool);
          (k_tool_request, PDict (fallback_request g));
          (k_reasoning, PStr (fallback_reasoning st));
          (u "expected_outcome", PStr (u "获取基础信息"));
          (u "next_focus", PStr (u "根据结果决定下一步"))]
  end.

(** *** select_next_tool *)

(** What one selection takes from outside the planner's logic: the
    outcome of [_generate_planning_prompt] (text assembly over state,
    goal and known entities; a [join] over a value that is not a
    string raises there), the replies to the candidate requests of
    each round, the reply to the strict re-query, and the random draws
    of each round. *)
Record world : Type := {
  planning_prompt : result pystr;
  llm : nat -> nat -> llm_reply;
  strict_reply : llm_reply;
  rand : nat -> draws
}.

(** One pass of the [for retry in range(max_retries)] loop per element
    of [rounds]; [None] when the loop runs out. *)
Fixpoint retry_loop (tm : Tools.t) (mode : pystr) (w : world)
    (st : State.t) (g : goal) (rounds : list nat)
  : result (option pydict) :=
  match rounds with
  | [] => Ok None
  | retry :: rest =>
      match _get_tool_candidates tm (llm w retry) 3 with
      | [] => retry_loop tm mode w st g rest
      | candidates =>
          selected ←
            _apply_exploration_strategy mode (rand w retry) candidates st;
          has ← py_in k_tool_name selected;
          valid ← (if (has : bool)
                   then py_getitem selected k_tool_name
                          ≫= Tools.is_valid_tool tm
                   else Ok false);
          if (valid : bool) then
            plan ← as_dict selected;
            Some <$> _validate_and_fix_parameters plan st g
          else retry_loop tm mode w st g rest
      end
  end.

(** [select_next_tool]; the prompt is built first and then only
    handed to the collaborator. *)
Definition select_next_tool (tm : Tools.t) (mode : pystr) (w : world)
    (st : State.t) (g : goal) : result pydict :=
  prompt ← planning_prompt w;
  found ← retry_loop tm mode w st g (seq 0 3);
  match found with
  | Some selected => Ok selected
  | None =>
      match _try_tool_name_correction tm (strict_reply w) with
      | Some (kv :: corrected_tool) =>
          _validate_and_fix_parameters (kv :: corrected_tool) st g
      | _ =>
          fallback ← _select_fallback_tool tm st g;
          _validate_and_fix_parameters fallback st g
      end
  end.

(** The orchestrator's test ['error' in plan]. *)
Definition is_failure (plan : pydict) : bool := ODict.mem k_error plan.

End Collaborators.

End Planner.

(* ===================================================================== *)
(** ** agent_generator_new.py: the loop of AgentGenerator.generate *)
(* ===================================================================== *)

Module Agent.

(** The fields the iteration reads from the selected plan:
    [plan['tool_name']], [plan['tool_request']],
    [plan.get('reasoning', '')] and [plan.get('next_focus', '')]. *)
Record plan : Type := {
  tool_name : pystr;
  tool_request : pydict;
  reasoning : pystr;
  next_focus : pystr
}.

(** What [_analyze_tool_response] returns. *)
Record analysis : Type := {
  a_type : pystr;
  a_content : pystr
}.

(** What one iteration leaves behind: the session state, the output
    generator, and the requests sent to the action executor, in order. *)
Record outcome : Type := {
  o_state : State.t;
  o_output : Output.t;
  o_executed : list (pystr * pydict)
}.

Definition interfaces : pystr := u "interfaces".
Definition devices : pystr := u "devices".

(** [_get_relevant_entities] *)
Definition _get_relevant_entities (g : Output.t) (name : pystr)
  : list pyval :=
  let tool_name_lower := PyStr.lower name in
  if PyStr.contains (u "interface") tool_name_lower then
    Output.get_known_entities g interfaces
  else if PyStr.contains (u "device") tool_name_lower then
    Output.get_known_entities g devices
  else [].

(** [_update_tool_request_for_entity] *)
Definition _update_tool_request_for_entity (request : pydict)
    (entity : pyval) (name : pystr) : pydict :=
  let tool_name_lower := PyStr.lower name in
  if PyStr.contains (u "interface") tool_name_lower then
    ODict.set (u "interface_name") entity request
  else if PyStr.contains (u "device") tool_name_lower then
    ODict.set (u "device_name") entity request
  else request.

Definition take_str (n : nat) (s : pystr) : pystr := take n s.

Definition join (sep : pystr) (parts : list pystr) : pystr :=
  match parts with
  | [] => []
  | p :: r => foldl (fun acc x => acc ++ sep ++ x) p r
  end.

(** What the loop makes of the plan the planner returned, a dict taken
    from the collaborator's JSON.  On a plan with the key "error" the
    loop ends ([break]).  [plan.get('reasoning', '')] is sliced
    and measured at once ([reasoning[:100]], [len(reasoning)]): [None], a
    number or a boolean raises TypeError there.  [plan['tool_name']]
    raises KeyError when the key is missing, and [tool_name.lower()]
    raises AttributeError on anything but a string.
    [plan['tool_request']] raises KeyError when the key is missing.
    [plan.get('next_focus', '')] is only tested for truth and stored.

    The records above hold a rationale and a focus that are strings and
    arguments that are a dict.  A plan with a list as rationale, with
    arguments that are not a dict or with a truthy focus that is not a
    string travels on through the iteration as it is, and a dict as
    rationale raises at the slice (TypeError or KeyError, by the version
    of the interpreter); these plans are [Unfollowed]: nothing is stated
    about them. *)
Inductive reading : Type :=
| Read (p : plan)
| Stops
| Fails (e : exn)
| Unfollowed.

Definition k_next_focus : pystr := u "next_focus".

Definition read_focus (d : pydict) : option pystr :=
  match default (PStr []) (ODict.get k_next_focus d) with
  | PStr focus => Some focus
  | v => if Py.truthy v then None else Some []
  end.

Definition read_plan (d : pydict) : reading :=
  if Planner.is_failure d then Stops else
  match default (PStr []) (ODict.get Planner.k_reasoning d) with
  | PStr reasoning_text =>
      match ODict.get Planner.k_tool_name d with
      | None => Fails KeyError
      | Some (PStr name) =>
          match ODict.get Planner.k_tool_request d with
          | None => Fails KeyError
          | Some (PDict request) =>
              match read_focus d with
              | Some focus =>
                  Read {| tool_name := name;
                          tool_request := request;
                          reasoning := reasoning_text;
                          next_focus := focus |}
              | None => Unfollowed
              end
          | Some _ => Unfollowed
          end
      | Some _ => Fails AttributeError
      end
  | PNone | PBool _ | PInt _ | PFloat _ => Fails TypeError
  | PList _ | PDict _ => Unfollowed
  end.

Section Collaborators.

Variable py_repr : pyval -> pystr.

(** The action executor: [execute_tool n name request] is the
    observation returned to the [n]-th request of the iteration. *)
Variable execute_tool : nat -> pystr -> pydict -> pyval.

Definition is_down (v : option pyval) : bool :=
  match v with
  | Some x => Py.eq x (PStr (u "down"))
  | None => false
  end.

(** [_analyze_tool_response] *)
Definition _analyze_tool_response (name : pystr) (response : pyval)
  : option analysis :=
  if negb (Py.truthy response) then None
  else
    match response with
    | PDict d =>
        if is_down (ODict.get (u "status") d)
           || is_down (ODict.get (u "状态") d)
        then Some {| a_type := u "anomaly";
                     a_content := u "发现异常: 接口状态为down" |}
        else if ODict.mem (u "errors") d
                || PyStr.contains (u "错包") (py_repr response)
        then Some {| a_type := u "anomaly";
                     a_content := u "发现错包或错误统计异常" |}
        else Some {| a_type := u "normal";
                     a_content := u "数据获取成功，未发现明显异常" |}
    | PList l =>
        Some {| a_type := u "info";
                a_content := u "成功获取" ++ PyStr.of_nat (length l)
                               ++ u "条记录" |}
    | _ => None
    end.

(** [_summarize_tool_result] *)
Definition _summarize_tool_result (r : pyval) : pystr :=
  match r with
  | PList l => u "返回" ++ PyStr.of_nat (length l) ++ u "条记录"
  | PDict d =>
      let key_fields :=
        omap (fun key =>
                (fun v => key ++ u "=" ++ Planner.py_str py_repr v)
                  <$> ODict.get key d)
             [u "status"; u "状态"; u "errors"; u "错包";
              u "interface"; u "接口"] in
      match key_fields with
      | [] => u "数据获取成功"
      | _ => join (u ", ") (take 3 key_fields)
      end
  | _ => take_str 50 (Planner.py_str py_repr r)
  end.

(** [_generate_conclusion] *)
Definition _generate_conclusion (response : pyval)
    (finding : option analysis) : pystr :=
  match finding with
  | Some f =>
      if PyStr.eqb (a_type f) (u "anomaly") then
        u "发现异常: " ++ a_content f
      else if PyStr.eqb (a_type f) (u "normal") then u "正常，无异常"
      else a_content f
  | None => u "已执行"
  end.

(** The batch branch: the loop over [relevant_entities].  The executor
    is asked once per entity, every observation goes to the output,
    and the state records the executions whose entity equals the first
    one.  The observation of the last request is what the rest of the
    iteration analyses. *)
Fixpoint batch_loop (p : plan) (first : pyval) (todo : list pyval)
    (o : outcome) (last_response : pyval) : result (outcome * pyval) :=
  match todo with
  | [] => Ok (o, last_response)
  | entity :: rest =>
      let request :=
        _update_tool_request_for_entity (tool_request p) entity
          (tool_name p) in
      let tool_response :=
        execute_tool (length (o_executed o)) (tool_name p) request in
      g ← Output.add_action_observation (o_output o) (tool_name p)
            request tool_response;
      st ← (if Py.eq entity first then
              let r := State.add_execution (o_state o) (tool_name p)
                         request tool_response (reasoning p) in
              r.2 ≫= fun _ => Ok r.1
            else Ok (o_state o));
      batch_loop p first rest
        {| o_state := st; o_output := g;
           o_executed := o_executed o ++ [(tool_name p, request)] |}
        tool_response
  end.

(** The single branch, with the entity extraction that follows it. *)
Definition single (p : plan) (o : outcome) : result (outcome * pyval) :=
  let tool_response :=
    execute_tool (length (o_executed o)) (tool_name p) (tool_request p) in
  g ← Output.add_action_observation (o_output o) (tool_name p)
        (tool_request p) tool_response;
  let r := State.add_execution (o_state o) (tool_name p)
             (tool_request p) tool_response (reasoning p) in
  _ ← r.2;
  let found_interfaces :=
    Output.extract_entities_from_observation tool_response
      (u "interface") in
  let g1 := match found_interfaces with
            | [] => g
            | _ => Output.update_known_entities g interfaces
                     found_interfaces
            end in
  let found_devices :=
    Output.extract_entities_from_observation tool_response (u "device") in
  let g2 := match found_devices with
            | [] => g1
            | _ => Output.update_known_entities g1 devices found_devices
            end in
  Ok ({| o_state := r.1; o_output := g2;
         o_executed := o_executed o ++ [(tool_name p, tool_request p)] |},
      tool_response).

Definition chain_action (p : plan) : pystr :=
  tool_name p ++ u " - " ++ take_str 50 (reasoning p)
    ++ (if 50 <? length (reasoning p) then u "..." else []).

(** The iteration from [start_step] to [update_diagnostic_chain], for a
    plan that passed ['error' in plan] and was read. *)
Definition run_plan (p : plan) (st : State.t) (g : Output.t)
  : result outcome :=
  let g0 := Output.start_step g (reasoning p) in
  let o0 := {| o_state := st; o_output := g0; o_executed := [] |} in
  let relevant_entities := _get_relevant_entities g0 (tool_name p) in
  executed ←
    (match relevant_entities with
     | first :: _ =>
         if (1 <? length relevant_entities)
            && Output.should_batch_execute (reasoning p) relevant_entities
         then batch_loop p first relevant_entities o0 PNone
         else single p o0
     | [] => single p o0
     end);
  let o := executed.1 in
  let tool_response := executed.2 in
  let finding := _analyze_tool_response (tool_name p) tool_response in
  let st1 := match finding with
             | Some f => State.add_finding (o_state o) (a_type f)
                           (a_content f)
             | None => o_state o
             end in
  let st2 := State.update_diagnostic_chain st1 (chain_action p)
               (_summarize_tool_result tool_response)
               (_generate_conclusion tool_response finding)
               (Some (next_focus p)) in
  Ok {| o_state := st2; o_output := o_output o;
        o_executed := o_executed o |}.

(** One pass of the loop for the dict [plan]; [None] when no pass
    takes place: the plan carries the error marker, on which the loop
    ends, or it is not followed.  An exception leaves [generate]:
    nothing of the session is kept. *)
Definition iteration (plan : pydict) (st : State.t) (g : Output.t)
  : option (result outcome) :=
  match read_plan plan with
  | Read p => Some (run_plan p st g)
  | Fails e => Some (Raise e)
  | Stops | Unfollowed => None
  end.

End Collaborators.

(** What one pass of the loop of [generate] gets from outside: the plan
    the planner returned and the observations of the action executor. *)
Record turn : Type := {
  t_plan : pydict;
  t_execute : nat -> pystr -> pydict -> pyval
}.

(** The passes of the loop, one per element of [turns], from the state
    and the generator [generate] creates.  The stop test and the
    planner, which come between two passes, read the state and change
    nothing of it; so the state and the generator of every run of
    [generate], after any number of passes, are those of [run] for the
    plans and observations of that run. *)
Fixpoint run (py_repr : pyval -> pystr) (turns : list turn)
    (st : State.t) (g : Output.t) : option (result (State.t * Output.t)) :=
  match turns with
  | [] => Some (Ok (st, g))
  | t :: rest =>
      match iteration py_repr (t_execute t) (t_plan t) st g with
      | Some (Ok o) => run py_repr rest (o_state o) (o_output o)
      | Some (Raise e) => Some (Raise e)
      | None => None
      end
  end.

End Agent.

(* ===================================================================== *)
(** ** The specification's conditions, on the embedded data *)
(* ===================================================================== *)

Module Spec.

(** The fan-out cue of the batch scenario. *)
Definition cue : pystr := u "逐一检查每个接口".

(** "The selected action takes an interface argument". *)
Definition takes_interface_argument (plan : pydict) : bool :=
  match ODict.get Planner.k_tool_request plan with
  | Some (PDict request) => ODict.mem (u "interface_name") request
  | _ => false
  end.

(** What [list(set(l))] guarantees about its result, whatever the order:
    it holds the elements of [l] and nothing else. *)
Definition set_order_ok (set_order : list pystr -> list pystr) : Prop :=
  ∀ l x, x ∈ set_order l ↔ x ∈ l.

(** The placeholder and the concrete value of the repair scenario. *)
Definition placeholder : pystr := u "设备".
Definition x1 : pystr := u "X1".

(** A reply inside the collaborator's contract: when it is a JSON
    object, it carries no error marker and its arguments, if present,
    are a JSON object.  (Any other JSON value never becomes a
    candidate.) *)
Definition well_formed (v : pyval) : Prop :=
  ∀ d, v = PDict d →
    ODict.mem Planner.k_error d = false
    ∧ ∀ r, ODict.get Planner.k_tool_request d = Some r → ∃ req, r = PDict req.

Definition replies_well_formed (w : Planner.world) : Prop :=
  (∀ retry i v, Planner.llm w retry i = Planner.LlmJson v → well_formed v)
  ∧ (∀ v, Planner.strict_reply w = Planner.LlmJson v → well_formed v).

(** The planning prompt was assembled. *)
Definition prompt_built (w : Planner.world) : Prop :=
  ∃ prompt, Planner.planning_prompt w = Ok prompt.

(** Every name the session has counted is one the catalog accepts, as it
    is when the names came from earlier selections. *)
Definition usage_names_valid (tm : Tools.t) (st : State.t) : Prop :=
  ∀ name, name ∈ ODict.keys (State.tool_usage_count st) →
    Tools.is_valid_tool tm (PStr name) = Ok true.

(** The severities a finding may carry. *)
Definition severities : list pystr := [u "low"; u "medium"; u "high"].

End Spec.

(* ===================================================================== *)
(** ** Concrete sessions and inputs used by the examples below *)
(* ===================================================================== *)

Module Samples.

Definition query_interface_info : pystr := u "query_interface_info".

Definition eth0_request : pydict :=
  [(u "device", PStr (u "device1")); (u "interface", PStr (u "eth0"))].

Definition up_response : pyval :=
  PDict [(u "status", PStr (u "up")); (u "errors", PInt 0)].

(** A list of flat objects, as a list-valued observation. *)
Definition list_response : pyval :=
  PList [PDict [(u "接口", PStr (u "100GE2/1/1"))];
         PDict [(u "接口", PStr (u "40GE2/2/5"))]].

(** One recorded action, no chain entry. *)
Definition one_record : list State.call :=
  [State.RecordAction query_interface_info eth0_request up_response
     (u "检查接口基本信息")].

(** A session at step 0 that already holds a finding of severity high. *)
Definition with_high_finding : State.t :=
  State.add_finding State.init (u "CRC错包数异常偏高") (u "high").


(** Stand-ins used to run the model on concrete inputs.  These inputs
    never ask for the [repr] of a value that is not a string, and
    [plain_order] is one possible outcome of [list(set(l))]: the elements
    of [l], each once. *)
Definition no_repr (v : pyval) : pystr := [].
Definition plain_order (l : list pystr) : list pystr := remove_dups l.

(** The executor of a run whose every observation reports the interface
    as down. *)
Definition down_response : pyval := PDict [(u "status", PStr (u "down"))].
Definition always_down (n : nat) (name : pystr) (request : pydict) : pyval :=
  down_response.

Definition check_interface : Agent.plan :=
  {| Agent.tool_name := query_interface_info;
     Agent.tool_request := eth0_request;
     Agent.reasoning := u "检查接口基本信息";
     Agent.next_focus := [] |}.

(** Two successive observations, each naming one interface. *)
Definition reports (n : nat) (name : pystr) (request : pydict) : pyval :=
  PDict [(u "status", PStr (u "down"));
         (u "interface", PStr (if n =? 0 then u "eth0" else u "eth1"))].

Definition eth0 : pyval := PStr (u "eth0").

(** The batch scenario as a run: the planner returns, pass after pass,
    an action whose name mentions interfaces, with an interface argument
    and the fan-out cue in its rationale; the observations of the first
    three passes name the interfaces "a", "b" and "c". *)
Definition check_each_interface : pydict :=
  [(u "tool_name", PStr (u "query_interface_status"));
   (u "tool_request",
    PDict [(u "device_name", PStr (u "sw1"));
           (u "interface_name", PStr (u "a"))]);
   (u "reasoning", PStr (u "逐一检查每个接口的状态"))].

Definition names_interface (s : string) (n : nat) (name : pystr)
    (request : pydict) : pyval :=
  PDict [(u "status", PStr (u "up")); (u "interface", PStr (u s))].

Definition three_interfaces : list Agent.turn :=
  [{| Agent.t_plan := check_each_interface;
      Agent.t_execute := names_interface "a" |};
   {| Agent.t_plan := check_each_interface;
      Agent.t_execute := names_interface "b" |};
   {| Agent.t_plan := check_each_interface;
      Agent.t_execute := names_interface "c" |}].

(** A plan whose rationale is [null]. *)
Definition null_rationale : pydict :=
  [(u "tool_name", PStr query_interface_info);
   (u "tool_request", PDict eth0_request);
   (u "reasoning", PNone)].

(** A catalog with one tool. *)
Definition one_tool : Tools.t :=
  {| Tools.tools := [(query_interface_info, u "查询接口基本信息")];
     Tools.tool_parameters := [] |}.

Definition good_candidate : pyval :=
  PDict [(u "tool_name", PStr query_interface_info);
         (u "tool_request", PDict eth0_request);
         (u "reasoning", PStr (u "检查接口基本信息"))].

Definition made_up_candidate : pyval :=
  PDict [(u "tool_name", PStr (u "query_interface_information"));
         (u "tool_request", PDict eth0_request);
         (u "reasoning", PStr (u "检查接口基本信息"))].

(** Three requests of a round: the first reply names a tool of the
    catalog, the other two a name the catalog does not hold. *)
Definition one_valid_reply (i : nat) : Planner.llm_reply :=
  Planner.LlmJson (if i =? 0 then good_candidate else made_up_candidate).

(** The repair scenario: the action carries the placeholder, the goal
    declares the device. *)
Definition placeholder_plan : pydict :=
  [(u "tool_name", PStr (u "query_device_info"));
   (u "tool_request", PDict [(u "device_name", PStr Spec.placeholder)]);
   (u "reasoning", PStr (u "检查设备状态"))].

Definition goal_x1 : Planner.goal :=
  {| Planner.entities := [(u "device", PStr Spec.x1)];
     Planner.context_params := [] |}.

(** The same goal with a context parameter under the same key. *)
Definition goal_x1_z9 : Planner.goal :=
  {| Planner.entities := [(u "device", PStr Spec.x1)];
     Planner.context_params := [(u "device", PStr (u "Z9"))] |}.

Definition fixed_draws (retry : nat) : Planner.draws :=
  {| Planner.random_unit := (1 # 2)%Q; Planner.choice_index := 0 |}.

(** The collaborator names a tool of the catalog but sends [null] as its
    arguments. *)
Definition null_request_candidate : pyval :=
  PDict [(u "tool_name", PStr query_interface_info);
         (u "tool_request", PNone);
         (u "reasoning", PStr (u "检查接口基本信息"))].

Definition null_request_world : Planner.world :=
  {| Planner.planning_prompt := Ok (u "你是一个网络故障诊断专家");
     Planner.llm := fun retry i => Planner.LlmJson null_request_candidate;
     Planner.strict_reply := Planner.LlmFails;
     Planner.rand := fixed_draws |}.

(** The collaborator is unreachable in every request. *)
Definition silent_world : Planner.world :=
  {| Planner.planning_prompt := Ok (u "你是一个网络故障诊断专家");
     Planner.llm := fun retry i => Planner.LlmFails;
     Planner.strict_reply := Planner.LlmFails;
     Planner.rand := fixed_draws |}.

Definition empty_catalog : Tools.t :=
  {| Tools.tools := []; Tools.tool_parameters := [] |}.

(** A session at step 1 with a high-severity finding. *)
Definition one_step_high : State.t :=
  State.run_ops State.init
    [State.Execution query_interface_info eth0_request up_response [];
     State.Finding (u "CRC错包数异常偏高") (u "high")].

(** Three recorded actions and no finding. *)
Definition three_quiet_steps : State.t :=
  State.run_ops State.init
    [State.Execution query_interface_info eth0_request up_response [];
     State.Execution (u "query_interface_traffic") eth0_request up_response [];
     State.Execution (u "query_device_logs") eth0_request up_response []].

(** The outcome record at the start of an iteration, after [start_step]. *)
Definition started : Agent.outcome :=
  {| Agent.o_state := State.init;
     Agent.o_output :=
       Output.start_step Output.init (Agent.reasoning check_interface);
     Agent.o_executed := [] |}.

(** The plan of [check_interface] as the planner returns it. *)
Definition check_interface_plan : pydict :=
  [(u "tool_name", PStr query_interface_info);
   (u "tool_request", PDict eth0_request);
   (u "reasoning", PStr (u "检查接口基本信息"))].

(** A round whose second request fails after a valid first reply. *)
Definition second_request_fails (i : nat) : Planner.llm_reply :=
  if i =? 1 then Planner.LlmFails else Planner.LlmJson good_candidate.

(** A catalog with three tools and a round that names each of them. *)
Definition three_tools : Tools.t :=
  {| Tools.tools :=
       [(u "query_interface_info", u "查询接口基本信息");
        (u "query_interface_traffic", u "查询接口流量");
        (u "query_device_logs", u "查询设备日志")];
     Tools.tool_parameters := [] |}.

Definition names_tool (name : pystr) : pydict :=
  [(u "tool_name", PStr name); (u "tool_request", PDict eth0_request);
   (u "reasoning", PStr (u "检查接口基本信息"))].

Definition three_replies (i : nat) : Planner.llm_reply :=
  Planner.LlmJson
    (PDict (names_tool
              (if i =? 0 then u "query_interface_info"
               else if i =? 1 then u "query_interface_traffic"
               else u "query_device_logs"))).

(** A request with one placeholder and one concrete argument. *)
Definition mixed_request : pydict :=
  [(u "device_name", PStr Spec.placeholder);
   (u "interface_name", PStr (u "10GE1/0/24"));
   (u "vlan_id", PStr (u "vlan"))].

Definition mixed_plan : pydict :=
  [(u "tool_name", PStr (u "query_device_info"));
   (u "tool_request", PDict mixed_request);
   (u "reasoning", PStr (u "检查设备状态"))].

End Samples.

(* ===================================================================== *)
(** ** Predicates used by the proofs *)
(* ===================================================================== *)

Module Props.
Import Planner.

(** A candidate that went through the name test: a dict with a string
    under ["tool_name"]. *)
Definition named (c : pyval) : Prop :=
  ∃ d name, c = PDict d ∧ ODict.get k_tool_name d = Some (PStr name).

Definition has_score (c : pyval) : Prop :=
  ∃ d, c = PDict d ∧ ODict.mem k_score d = true.

(** Every survivor of a round is one of the replies of the round, is a
    dict, and carries a name the catalog accepts. *)
Definition survivor (tm : Tools.t) (replies : list llm_reply) (c : pyval)
  : Prop :=
  LlmJson c ∈ replies
  ∧ ∃ d name, c = PDict d ∧ ODict.get k_tool_name d = Some (PStr name)
              ∧ Tools.is_valid_tool tm (PStr name) = Ok true.

(** The score the loop assigns at a position of a list of [n]
    candidates, [j] being what [candidates.index] returned there. *)
Definition score_at (st : State.t) (n j : nat) (name : pystr) : Q :=
  Py.fadd (Py.of_int (Z.of_nat n - Z.of_nat j))
          (exploration_bonus (State.get_tool_usage_count st name)).

(** Gathering only ever appends. *)
Definition grows (kp kp' : known) : Prop :=
  ∀ v, v ∈ device_name kp → v ∈ device_name kp'.

(** A plan the orchestrator accepts: no error marker, a name, and
    arguments that are a dict when present. *)
Definition sound (plan : pydict) : Prop :=
  ODict.mem k_error plan = false
  ∧ (∀ r, ODict.get k_tool_request plan = Some r → ∃ req, r = PDict req).

Definition names (plan : pydict) (name : pystr) : Prop :=
  ODict.get k_tool_name plan = Some (PStr name).

(** A plan with a name the catalog accepts and no error marker. *)
Definition accepted (tm : Tools.t) (plan : pydict) : Prop :=
  is_failure plan = false
  ∧ ∃ name, names plan name ∧ Tools.is_valid_tool tm (PStr name) = Ok true.

(** How many of the recorded executions used the tool [name]. *)
Definition count_name (name : pystr) (l : list State.execution) : nat :=
  length (filter (fun e => State.ex_tool_name e = name) l).

(** What every session built from [State.init] by the methods of the
    class satisfies. *)
Definition consistent (st : State.t) : Prop :=
  State.step_count st = length (State.executed_tools st)
  ∧ (∀ name,
       ODict.get name (State.tool_usage_count st)
       = match count_name name (State.executed_tools st) with
         | 0 => None
         | S n => Some (S n)
         end)
  ∧ map State.ex_step (State.executed_tools st)
    = seq 1 (State.step_count st)
  ∧ NoDup (ODict.keys (State.tool_usage_count st))
  ∧ (∀ f, f ∈ State.findings st → State.f_step f ≤ State.step_count st)
  ∧ NoDup (State.excluded_causes st).

(** The finding carries one of the last three step numbers. *)
Definition in_window (st : State.t) (f : State.finding) : Prop :=
  State.step_count st - 2 ≤ State.f_step f ≤ State.step_count st.

(** What every generator built from [Output.init] by the methods of the
    class satisfies: one step per [start_step], keyed step1, step2, ... *)
Definition well_keyed (g : Output.t) : Prop :=
  map Output.sd_key (Output.steps g)
  = map Output.step_key (seq 1 (Output.current_step g)).

(** No kind of entity has more than one known identifier. *)
Definition at_most_one (g : Output.t) : Prop :=
  ∀ entity_type, length (Output.get_known_entities g entity_type) ≤ 1.

(** Highest score first. *)
Fixpoint descending (l : list pyval) : Prop :=
  match l with
  | [] => True
  | h :: t =>
      (∀ c, c ∈ t → (Planner.score_of c <= Planner.score_of h)%Q)
      ∧ descending t
  end.

(** Every gathered value passes the placeholder check, and nothing was
    gathered for VLANs or host names. *)
Definition tidy (kp : Planner.known) : Prop :=
  (∀ v, v ∈ Planner.device_name kp ++ Planner.interface_name kp
            ++ Planner.ip kp →
        Planner.valid_str v = true)
  ∧ Planner.vlan kp = []
  ∧ Planner.hostname kp = [].

(** The argument name falls in none of the three classes device,
    interface, ip. *)
Definition unclassified (param_name : pystr) : Prop :=
  PyStr.contains (u "device") (PyStr.lower param_name) = false
  ∧ PyStr.contains (u "interface") (PyStr.lower param_name) = false
  ∧ PyStr.contains (u "ip") (PyStr.lower param_name) = false.

(** The JSON value of a reply, when the request returned one. *)
Definition reply_value (r : Planner.llm_reply) : option pyval :=
  match r with
  | Planner.LlmJson v => Some v
  | Planner.LlmFails => None
  end.

(** What justifies correcting the name [name] to the tool [t] of
    [tools]: equality up to letter case and surrounding blanks,
    containment one way or the other, or a similarity above the
    threshold that no tool of the list exceeds. *)
Definition justified (name : pystr) (tools : list pystr) (t : pystr)
  : Prop :=
  let invalid_lower := PyStr.strip (PyStr.lower name) in
  PyStr.lower t = invalid_lower
  ∨ PyStr.contains invalid_lower (PyStr.lower t) = true
  ∨ PyStr.contains (PyStr.lower t) invalid_lower = true
  ∨ ((Planner.threshold < Planner.simple_similarity name t)%Q
     ∧ ∀ t', t' ∈ tools →
         (Planner.simple_similarity name t'
          <= Planner.simple_similarity name t)%Q).


(** Where a selection comes from. *)
Inductive origin : Type :=
| FromRound (retry : nat)
| FromRequery
| LastResort.

(** The tool the last resort lands on: at step 0 the first query-like
    tool of the catalog, or its first tool when none is query-like;
    later the first tool of the catalog the usage counter lacks, or,
    when it has them all, the first entry of the usage counter whose
    count is the minimum. *)
Definition last_resort (all_tools : list pystr) (st : State.t)
    (name : pystr) : Prop :=
  let usage := State.tool_usage_count st in
  if decide (State.step_count st = 0) then
    match filter (fun t => Planner.is_query_tool t = true) all_tools with
    | q :: _ => name = q
    | [] => head all_tools = Some name
    end
  else
    match filter (fun t => ODict.mem t usage = false) all_tools with
    | t :: _ => name = t
    | [] =>
        ∃ m, (∀ kv, kv ∈ usage → m ≤ kv.2)
             ∧ head (filter (fun kv : pystr * nat => kv.2 = m) usage)
               = Some (name, m)
    end.

(** The strict re-query returned the object [reply]; [corrected] is
    that object, with its name replaced by the fuzzy match when the
    catalog does not accept the name. *)
Definition requeried (tm : Tools.t) (reply corrected : pydict) : Prop :=
  ∃ given,
    ODict.get Planner.k_tool_name reply = Some given
    ∧ ((Tools.is_valid_tool tm given = Ok true ∧ corrected = reply)
       ∨ (Tools.is_valid_tool tm given = Ok false
          ∧ ∃ t, Planner._fuzzy_match_tool_name given
                   (Tools.get_all_tool_names tm) = Ok (Some t)
                 ∧ corrected
                   = ODict.set Planner.k_tool_name (PStr t) reply)).

(** The stage that supplied [plan], which names [name]: the first retry
    round with a surviving candidate (the selected candidate, repaired);
    when no round has one, the strict re-query (its reply, corrected and
    repaired); when that yields no plan either, the last resort. *)
Definition supplied (py_repr : pyval -> pystr)
    (set_order : list pystr -> list pystr) (tm : Tools.t) (mode : pystr)
    (w : Planner.world) (st : State.t) (g : Planner.goal)
    (plan : pydict) (name : pystr) (o : origin) : Prop :=
  let round retry :=
    Planner._get_tool_candidates tm (Planner.llm w retry) 3 in
  match o with
  | FromRound retry =>
      retry < 3
      ∧ (∀ r, r < retry → round r = [])
      ∧ round retry ≠ []
      ∧ ∃ selected,
          Planner._apply_exploration_strategy mode (Planner.rand w retry)
            (round retry) st = Ok (PDict selected)
          ∧ Planner._validate_and_fix_parameters py_repr set_order
              selected st g = Ok plan
  | FromRequery =>
      (∀ r, r < 3 → round r = [])
      ∧ ∃ reply corrected,
          Planner.strict_reply w = Planner.LlmJson (PDict reply)
          ∧ requeried tm reply corrected
          ∧ Planner._validate_and_fix_parameters py_repr set_order
              corrected st g = Ok plan
  | LastResort =>
      (∀ r, r < 3 → round r = [])
      ∧ (∀ kv c, Planner._try_tool_name_correction tm
                   (Planner.strict_reply w) ≠ Some (kv :: c))
      ∧ last_resort (Tools.get_all_tool_names tm) st name
  end.

(** The names the fuzzy correction compares are ASCII: those of the
    catalog and the one the strict re-query returns.  ([PyStr.lower]
    is [str.lower()] on such names.) *)
Definition names_ascii (tm : Tools.t) (w : Planner.world) : Prop :=
  (∀ t, t ∈ Tools.get_all_tool_names tm → PyStr.isascii t = true)
  ∧ ∀ reply given,
      Planner.strict_reply w = Planner.LlmJson (PDict reply) →
      ODict.get Planner.k_tool_name reply = Some (PStr given) →
      PyStr.isascii given = true.

End Props.

(* ===================================================================== *)
(** ** Proofs *)
(* ===================================================================== *)

(** Membership of a concrete value in a concrete list, refuted by
    evaluation. *)
Ltac not_in_list :=
  let H := fresh "H" in
  intros H; apply list_elem_of_In in H; vm_compute in H;
  intuition discriminate.


(* ===================================================================== *)
(** ** Ordered dictionaries *)
(* ===================================================================== *)

Lemma pystr_eqb_true (s t : pystr) : PyStr.eqb s t = true ↔ s = t.
Proof. unfold PyStr.eqb. apply bool_decide_eq_true. Qed.

Lemma pystr_eqb_false (s t : pystr) : PyStr.eqb s t = false ↔ s ≠ t.
Proof. unfold PyStr.eqb. apply bool_decide_eq_false. Qed.

Lemma pystr_eqb_refl (s : pystr) : PyStr.eqb s s = true.
Proof. by apply pystr_eqb_true. Qed.

Section ODictFacts.
Context {V : Type}.
Implicit Types (d : odict V) (k : pystr) (v : V).

Lemma odict_get_set_eq k v d : ODict.get k (ODict.set k v d) = Some v.
Proof.
  induction d as [|[k' v'] d IH]; simpl.
  - by rewrite pystr_eqb_refl.
  - destruct (PyStr.eqb k k') eqn:E; simpl; by rewrite E.
Qed.

Lemma odict_get_set_ne k k' v d :
  k ≠ k' → ODict.get k' (ODict.set k v d) = ODict.get k' d.
Proof.
  intros Hne. induction d as [|[k0 v0] d IH]; simpl.
  - by rewrite (proj2 (pystr_eqb_false k' k)).
  - destruct (PyStr.eqb k k0) eqn:E; simpl.
    + apply pystr_eqb_true in E. subst k0.
      by rewrite (proj2 (pystr_eqb_false k' k)).
    + by rewrite IH.
Qed.

Lemma odict_mem_set k k' v d :
  ODict.mem k' (ODict.set k v d) = PyStr.eqb k' k || ODict.mem k' d.
Proof.
  unfold ODict.mem. destruct (PyStr.eqb k' k) eqn:E; simpl.
  - apply pystr_eqb_true in E. subst. by rewrite odict_get_set_eq.
  - apply pystr_eqb_false in E. by rewrite odict_get_set_ne.
Qed.

End ODictFacts.

(* ===================================================================== *)
(** ** Session state *)
(* ===================================================================== *)

Section StateFacts.
Import State.

Lemma extract_observations_frame st name resp :
  let r := _extract_observations st name resp in
  step_count r.1 = step_count st
  ∧ executed_tools r.1 = executed_tools st
  ∧ tool_usage_count r.1 = tool_usage_count st
  ∧ findings r.1 = findings st
  ∧ diagnostic_chain r.1 = diagnostic_chain st
  ∧ current_focus r.1 = current_focus st
  ∧ excluded_causes r.1 = excluded_causes st.
Proof. destruct resp; simpl; auto 10. Qed.

Lemma run_call_counts st c :
  let st' := run_call st c in
  step_count st' = step_count st + (if is_record c then 1 else 0)
  ∧ length (executed_tools st')
    = length (executed_tools st) + (if is_record c then 1 else 0)
  ∧ length (diagnostic_chain st')
    = length (diagnostic_chain st) + (if is_record c then 0 else 1).
Proof.
  destruct c as [n rq rs r | a r c f]; simpl.
  - unfold add_execution.
    destruct (extract_observations_frame
                {| step_count := S (step_count st);
                   executed_tools := executed_tools st
                     ++ [{| ex_step := S (step_count st);
                            ex_tool_name := n; ex_tool_request := rq;
                            ex_tool_response := rs; ex_reasoning := r |}];
                   observations := observations st;
                   findings := findings st;
                   tool_usage_count :=
                     ODict.set n (S (get_tool_usage_count st n))
                       (tool_usage_count st);
                   diagnostic_chain := diagnostic_chain st;
                   current_focus := current_focus st;
                   excluded_causes := excluded_causes st |} n rs)
      as (-> & -> & _ & _ & -> & _); simpl.
    rewrite length_app; simpl. lia.
  - rewrite length_app; simpl. lia.
Qed.

Lemma run_calls_counts cs : ∀ st,
  let st' := run_calls st cs in
  step_count st' = step_count st + n_record cs
  ∧ length (executed_tools st') = length (executed_tools st) + n_record cs
  ∧ length (diagnostic_chain st')
    = length (diagnostic_chain st) + n_update cs.
Proof.
  unfold run_calls, n_record, n_update.
  induction cs as [|c cs IH]; intros st; simpl.
  - lia.
  - destruct (IH (run_call st c)) as (H1 & H2 & H3).
    destruct (run_call_counts st c) as (E1 & E2 & E3).
    rewrite H1, H2, H3, E1, E2, E3.
    rewrite !filter_cons.
    destruct (is_record c); simpl;
      repeat case_decide; try congruence; simpl; lia.
Qed.

End StateFacts.

(** C1 (as stated, refuted): after one recorded action and no chain update
    the step counter and the action log have length 1 while the diagnostic
    chain is still empty, so the three quantities are not all equal. *)
Lemma C1_record_without_chain_update :
  let st := State.run_calls State.init Samples.one_record in
  ¬ (State.step_count st = length (State.executed_tools st)
     ∧ length (State.executed_tools st) = length (State.diagnostic_chain st)).
Proof. vm_compute. intros [_ H]. discriminate H. Qed.

(** C1 (amended): after any sequence of recordAction / updateChain calls on
    a fresh session, the step counter equals the length of the action log
    and the number of recordAction calls, and the diagnostic chain has one
    entry per updateChain call; the three quantities of the claim coincide
    exactly when the sequence holds as many calls of each kind. *)
Theorem C1_counters_follow_calls (cs : list State.call) :
  let st := State.run_calls State.init cs in
  State.step_count st = length (State.executed_tools st)
  ∧ State.step_count st = State.n_record cs
  ∧ length (State.diagnostic_chain st) = State.n_update cs
  ∧ (length (State.executed_tools st) = length (State.diagnostic_chain st)
     ↔ State.n_record cs = State.n_update cs).
Proof.
  destruct (run_calls_counts cs State.init) as (H1 & H2 & H3).
  simpl in *. lia.
Qed.

(** C2: whenever the step counter has reached [max_steps], [should_continue]
    answers (False, "达到最大步数限制"), whatever the findings are. *)
Theorem C2_step_limit_wins (st : State.t) (max_steps : Z) :
  (max_steps <= Z.of_nat (State.step_count st))%Z →
  State.should_continue st max_steps = (false, State.reason_step_limit).
Proof.
  intros H. unfold State.should_continue.
  by rewrite (proj2 (Z.leb_le _ _) H).
Qed.

(** C2 on a session at step 0 that holds a high-severity finding, with
    [max_steps = 0]. *)
Lemma C2_step_limit_wins_witness :
  State._has_critical_finding Samples.with_high_finding = true
  ∧ State.should_continue Samples.with_high_finding 0
    = (false, State.reason_step_limit).
Proof.
  split; [reflexivity|].
  apply (C2_step_limit_wins Samples.with_high_finding 0). simpl. lia.
Defined.

(** C9 (as stated, refuted): an observation that is a list of objects makes
    [add_execution] raise AttributeError, from [tool_response.items()]. *)
Lemma C9_list_observation_raises :
  (State.add_execution State.init Samples.query_interface_info
     Samples.eth0_request Samples.list_response (u "查询所有接口")).2
  = Raise AttributeError.
Proof. reflexivity. Qed.

(** C9 (amended): for every observation that is a dict (an error-tagged
    dict included) [add_execution] returns normally; it increments the step
    counter, appends the record, increments the usage count of the tool
    name and of no other name, stores every field whose key does not start
    with an underscore in [observations], and leaves findings, diagnostic
    chain, focus and excluded causes as they were. *)
Theorem C9_dict_observation_recorded (st : State.t) (name : pystr)
    (req : pydict) (d : pydict) (reasoning : pystr) :
  let r := State.add_execution st name req (PDict d) reasoning in
  r.2 = Ok tt
  ∧ State.step_count r.1 = S (State.step_count st)
  ∧ State.executed_tools r.1
    = State.executed_tools st
      ++ [{| State.ex_step := S (State.step_count st);
             State.ex_tool_name := name;
             State.ex_tool_request := req;
             State.ex_tool_response := PDict d;
             State.ex_reasoning := reasoning |}]
  ∧ State.get_tool_usage_count r.1 name
    = S (State.get_tool_usage_count st name)
  ∧ (∀ other, other ≠ name →
       State.get_tool_usage_count r.1 other
       = State.get_tool_usage_count st other)
  ∧ State.observations r.1
    = foldl (State.store_observation name) (State.observations st) d
  ∧ State.findings r.1 = State.findings st
  ∧ State.diagnostic_chain r.1 = State.diagnostic_chain st
  ∧ State.current_focus r.1 = State.current_focus st
  ∧ State.excluded_causes r.1 = State.excluded_causes st.
Proof.
  simpl. unfold State.get_tool_usage_count; simpl.
  rewrite odict_get_set_eq. repeat split; try done.
  intros other Hne. by rewrite odict_get_set_ne.
Qed.

(** C10: [is_valid_tool] accepts "finish_diagnosis" and "finish" in every
    catalog, the empty one included. *)
Theorem C10_finish_names_always_valid (tm : Tools.t) :
  Tools.is_valid_tool tm (PStr Tools.finish_diagnosis) = Ok true
  ∧ Tools.is_valid_tool tm (PStr Tools.finish) = Ok true.
Proof. split; reflexivity. Qed.

(* ===================================================================== *)
(** ** Findings and the entity registry in the orchestration loop *)
(* ===================================================================== *)

(** C5 (the code departs from it): in an iteration whose observation is
    [{"status": "down"}] the loop calls [add_finding(finding['type'],
    finding['content'])], so the finding it stores has the type as its text
    and the content sentence as its severity, which is none of low, medium,
    high. *)
Theorem C5_loop_stores_content_as_severity (py_repr : pyval -> pystr) :
  ∃ o,
    Agent.run_plan py_repr Samples.always_down Samples.check_interface
      State.init Output.init = Ok o
    ∧ State.findings (Agent.o_state o)
      = [{| State.f_finding := u "anomaly";
            State.f_severity := u "发现异常: 接口状态为down";
            State.f_step := 1 |}]
    ∧ u "发现异常: 接口状态为down" ∉ Spec.severities.
Proof.
  eexists. split; [vm_compute; reflexivity|]. split; [reflexivity|].
  not_in_list.
Qed.

(** Whatever the observation, a finding the analysis step produces never
    carries one of the three severities in its content. *)
Lemma analysis_content_not_a_severity py_repr name response f :
  Agent._analyze_tool_response py_repr name response = Some f →
  Agent.a_content f ∉ Spec.severities.
Proof.
  unfold Agent._analyze_tool_response.
  destruct (negb (Py.truthy response)); [done|].
  destruct response; try done.
  - intros [= <-]. simpl. intros H. apply list_elem_of_In in H.
    destruct H as [H|[H|[H|[]]]]; apply (f_equal (take 1)) in H;
      vm_compute in H; discriminate.
  - repeat case_match; intros [= <-]; not_in_list.
Qed.

(** C7 (as stated, refuted): a first observation makes "eth0" known; after
    a second observation that names only "eth1", "eth0" is no longer among
    the known interfaces. *)
Lemma C7_later_observation_drops_identifier :
  ∃ o1 o2,
    Agent.run_plan Samples.no_repr Samples.reports Samples.check_interface
      State.init Output.init = Ok o1
    ∧ Samples.eth0 ∈ Output.get_known_entities (Agent.o_output o1)
                       Agent.interfaces
    ∧ Agent.run_plan Samples.no_repr (fun n => Samples.reports (S n))
        Samples.check_interface (Agent.o_state o1) (Agent.o_output o1)
      = Ok o2
    ∧ Samples.eth0 ∉ Output.get_known_entities (Agent.o_output o2)
                       Agent.interfaces.
Proof.
  eexists. eexists.
  split; [vm_compute; reflexivity|].
  split; [vm_compute; constructor|].
  split; [vm_compute; reflexivity|].
  not_in_list.
Qed.

(** C7 (amended): an update replaces the identifiers known for the entity
    type by the given list and leaves every other type as it was; an
    identifier known before stays known exactly when the new list holds it
    as well. *)
Theorem C7_update_replaces (g : Output.t) (entity_type : pystr)
    (ids : list pyval) :
  Output.get_known_entities
    (Output.update_known_entities g entity_type ids) entity_type = ids
  ∧ ∀ other, other ≠ entity_type →
      Output.get_known_entities
        (Output.update_known_entities g entity_type ids) other
      = Output.get_known_entities g other.
Proof.
  unfold Output.get_known_entities, Output.update_known_entities; simpl.
  split.
  - by rewrite lookup_insert_eq.
  - intros other Hne. by rewrite lookup_insert_ne.
Qed.

(** In the loop: after a single execution the known interfaces are the
    identifiers extracted from its observation, when there are any, and
    the ones known before otherwise. *)
Lemma single_replaces_known_interfaces execute_tool p o o' response :
  Agent.single execute_tool p o = Ok (o', response) →
  Output.get_known_entities (Agent.o_output o') Agent.interfaces
  = match Output.extract_entities_from_observation response (u "interface")
    with
    | [] => Output.get_known_entities (Agent.o_output o) Agent.interfaces
    | found => found
    end.
Proof.
  unfold Agent.single.
  destruct (Output.add_action_observation _ _ _ _) as [g|] eqn:Hadd;
    cbn [mbind result_bind]; [|done].
  assert (Hg : Output.known_entities g
               = Output.known_entities (Agent.o_output o)).
  { unfold Output.add_action_observation in Hadd.
    destruct (last _); [|done]. destruct (PyStr.eqb _ _); [|done].
    by injection Hadd as <-. }
  destruct (State.add_execution _ _ _ _ _).2; cbn [mbind result_bind]; [|done].
  intros [= <- <-]. cbn [Agent.o_output].
  assert (Hne : Agent.devices ≠ Agent.interfaces)
    by (intros H; vm_compute in H; discriminate H).
  unfold Output.get_known_entities.
  destruct (Output.extract_entities_from_observation _ (u "device"))
    as [|e1 l1];
    destruct (Output.extract_entities_from_observation _ (u "interface"))
      as [|e2 l2];
    cbn [Output.update_known_entities Output.known_entities];
    rewrite ?(lookup_insert_ne _ _ _ _ Hne), ?lookup_insert_eq, ?Hg; done.
Qed.

(* ===================================================================== *)
(** ** Steps of the trace and the batch loop *)
(* ===================================================================== *)

Lemma add_action_observation_snoc (g : Output.t) (sd : Output.step_data)
    (done_steps : list Output.step_data) name args obs :
  Output.steps g = done_steps ++ [sd] →
  Output.sd_key sd = Output.step_key (Output.current_step g) →
  Output.add_action_observation g name args obs
  = Ok {| Output.current_step := Output.current_step g;
          Output.steps :=
            done_steps
            ++ [{| Output.sd_key := Output.sd_key sd;
                   Output.sd_cot := Output.sd_cot sd;
                   Output.sd_coa :=
                     Output.sd_coa sd
                     ++ [{| Output.ao_name := name;
                            Output.ao_args := args;
                            Output.ao_observation := obs |}] |}];
          Output.known_entities := Output.known_entities g |}.
Proof.
  intros Hsteps Hkey. unfold Output.add_action_observation.
  rewrite Hsteps, last_snoc, Hkey, pystr_eqb_refl, removelast_last. done.
Qed.

Lemma batch_loop_cons execute_tool p first entity rest o last_response :
  Agent.batch_loop execute_tool p first (entity :: rest) o
    last_response
  = (let request :=
       Agent._update_tool_request_for_entity (Agent.tool_request p) entity
         (Agent.tool_name p) in
     let tool_response :=
       execute_tool (length (Agent.o_executed o)) (Agent.tool_name p)
         request in
     g ← Output.add_action_observation (Agent.o_output o) (Agent.tool_name p)
           request tool_response;
     st ← (if Py.eq entity first then
             let r := State.add_execution (Agent.o_state o) (Agent.tool_name p)
                        request tool_response (Agent.reasoning p) in
             r.2 ≫= fun _ => Ok r.1
           else Ok (Agent.o_state o));
     Agent.batch_loop execute_tool p first rest
       {| Agent.o_state := st; Agent.o_output := g;
          Agent.o_executed :=
            Agent.o_executed o ++ [(Agent.tool_name p, request)] |}
       tool_response).
Proof. reflexivity. Qed.

(* ===================================================================== *)
(** ** Candidate generation and scoring *)
(* ===================================================================== *)

Section Candidates.
Import Planner Props.

Lemma named_candidate_some c tool_name :
  named_candidate c = Ok (Some tool_name) →
  ∃ d, c = PDict d ∧ ODict.get k_tool_name d = Some tool_name.
Proof.
  unfold named_candidate. destruct (Py.truthy c); [|done].
  destruct c as [| | | | s | l | d]; simpl; try done.
  - by destruct (PyStr.contains k_tool_name s).
  - by destruct (existsb _ l).
  - unfold ODict.mem. destruct (ODict.get k_tool_name d) eqn:E; simpl.
    + intros [= <-]. eauto.
    + done.
Qed.

Lemma is_valid_tool_true tm v :
  Tools.is_valid_tool tm v = Ok true → ∃ name, v = PStr name.
Proof. destruct v; simpl; try done. eauto. Qed.

Lemma candidates_loop_survivors tm replies : ∀ acc cs (P : pyval → Prop),
  candidates_loop tm replies acc = Ok cs →
  (∀ c, c ∈ acc → P c) →
  (∀ c, survivor tm replies c → P c) →
  ∀ c, c ∈ cs → P c.
Proof.
  induction replies as [|r replies IH]; intros acc cs P; simpl.
  - intros [= <-] Hacc _. done.
  - destruct r as [|v]; [done|].
    destruct (named_candidate v) as [[tool_name|]|] eqn:Hn; simpl; [| |done].
    + destruct (Tools.is_valid_tool tm tool_name) as [valid|] eqn:Hv;
        simpl; [|done].
      intros Hloop Hacc Hs. eapply IH; [exact Hloop| |].
      * intros c Hc. destruct valid; [|by apply Hacc].
        apply elem_of_app in Hc as [Hc|Hc]; [by apply Hacc|].
        apply list_elem_of_singleton in Hc. subst c.
        apply Hs. split; [left|].
        apply named_candidate_some in Hn as (d & -> & Hd).
        destruct (is_valid_tool_true _ _ Hv) as [name ->]. eauto.
      * intros c [Hin Hc]. apply Hs. split; [by right | done].
    + intros Hloop Hacc Hs. eapply IH; [exact Hloop| exact Hacc |].
      intros c [Hin Hc]. apply Hs. split; [by right | done].
Qed.

Lemma get_tool_candidates_survivors tm llm top_k c :
  c ∈ _get_tool_candidates tm llm top_k →
  survivor tm (map llm (seq 0 top_k)) c.
Proof.
  unfold _get_tool_candidates, try_except.
  destruct (candidates_loop tm _ []) as [cs|] eqn:E; [|by intros ?%elem_of_nil].
  intros Hc.
  eapply (candidates_loop_survivors _ _ _ _ (survivor tm _) E); [|done|done].
  by intros ? ?%elem_of_nil.
Qed.

Lemma survivor_named tm replies c : survivor tm replies c → named c.
Proof. intros (_ & d & name & -> & H & _). red. eauto. Qed.

(** Dictionaries that differ in having a key are not equal. *)
Lemma dict_eq_key_missing (a b : pydict) k :
  ODict.mem k a = true → ODict.mem k b = false →
  Py.eq (PDict a) (PDict b) = false.
Proof.
  intros Ha Hb. simpl. apply andb_false_iff. right.
  unfold ODict.mem in *.
  induction a as [|[k0 v0] a IH]; simpl in *; [done|].
  destruct (PyStr.eqb k k0) eqn:E.
  - apply pystr_eqb_true in E. subst k0.
    destruct (ODict.get k b); [done|]. done.
  - rewrite IH by done. apply andb_false_r.
Qed.

Lemma index_none_of_unequal (x : pyval) (l : list pyval) :
  (∀ y, y ∈ l → Py.eq y x = false) → Py.index x l = None.
Proof.
  induction l as [|y l IH]; intros H; simpl; [done|].
  rewrite (H y) by left. rewrite IH; [done|].
  intros z Hz. apply H. by right.
Qed.

Lemma index_lt (x : pyval) (l : list pyval) j :
  Py.index x l = Some j → j < length l.
Proof.
  revert j. induction l as [|y l IH]; intros j; simpl; [done|].
  destruct (Py.eq y x).
  - intros [= <-]. lia.
  - destruct (Py.index x l) as [j'|]; simpl; [|done].
    intros [= <-]. specialize (IH j' eq_refl). lia.
Qed.

Lemma index_at_le i c cs : index_at i c cs ≤ i.
Proof.
  unfold index_at. destruct (Py.index c (take i cs)) as [j|] eqn:E; simpl.
  - apply index_lt in E. rewrite length_take in E. lia.
  - lia.
Qed.

Lemma index_at_fresh i d cs :
  (∀ k c, k < i → cs !! k = Some c → has_score c) →
  ODict.mem k_score d = false →
  index_at i (PDict d) cs = i.
Proof.
  intros Hprev Hd. unfold index_at.
  rewrite index_none_of_unequal; [done|].
  intros y Hy. apply list_elem_of_lookup in Hy as [k Hk].
  apply lookup_take_Some in Hk as [Hk Hlt].
  destruct (Hprev k y Hlt Hk) as (e & -> & He).
  by apply (dict_eq_key_missing e d k_score).
Qed.

Lemma score_loop_spec st : ∀ todo i cs,
  (∀ k c, i ≤ k → cs !! k = Some c → named c) →
  (∀ k c, k < i → cs !! k = Some c → has_score c) →
  ∃ cs',
    score_loop st todo i cs = Ok cs'
    ∧ length cs' = length cs
    ∧ (∀ k, k < i ∨ i + todo ≤ k → cs' !! k = cs !! k)
    ∧ (∀ k c, i ≤ k < i + todo → cs !! k = Some c →
         ∃ d name j,
           c = PDict d
           ∧ ODict.get k_tool_name d = Some (PStr name)
           ∧ j ≤ k
           ∧ (ODict.mem k_score d = false → j = k)
           ∧ cs' !! k
             = Some (PDict (ODict.set k_score
                              (PFloat (score_at st (length cs) j name)) d))).
Proof.
  induction todo as [|todo IH]; intros i cs Hnamed Hprev; simpl.
  - exists cs. split; [done|]. split; [done|]. split; [done|]. intros; lia.
  - destruct (cs !! i) as [c|] eqn:Hi.
    + destruct (Hnamed i c (le_n _) Hi) as (d & name & -> & Hname).
      simpl. rewrite Hname. simpl.
      set (q := Py.fadd _ (exploration_bonus _)).
      set (cs1 := <[i := PDict (ODict.set k_score (PFloat q) d)]> cs).
      assert (Hi1 : cs1 !! i = Some (PDict (ODict.set k_score (PFloat q) d))).
      { apply list_lookup_insert_eq. by eapply lookup_lt_Some. }
      destruct (IH (S i) cs1) as (cs' & Hrun & Hlen & Hout & Hin).
      { intros k c Hk Hc. apply (Hnamed k c); [lia|].
        unfold cs1 in Hc. rewrite list_lookup_insert_ne in Hc by lia. done. }
      { intros k c Hk Hc. destruct (decide (k = i)) as [->|Hne].
        - rewrite Hi1 in Hc. injection Hc as <-. eexists. split; [done|].
          unfold ODict.mem. by rewrite odict_get_set_eq.
        - apply (Hprev k c); [lia|].
          unfold cs1 in Hc. rewrite list_lookup_insert_ne in Hc by lia.
          done. }
      exists cs'. split; [exact Hrun|].
      assert (Hlen1 : length cs1 = length cs) by apply length_insert.
      split; [lia|]. split.
      * intros k Hk. rewrite Hout by lia.
        unfold cs1. apply list_lookup_insert_ne. lia.
      * intros k c [Hk1 Hk2] Hc. destruct (decide (k = i)) as [->|Hne].
        -- rewrite Hi in Hc. injection Hc as <-.
           exists d, name, (index_at i (PDict d) cs).
           split; [done|]. split; [done|].
           split; [apply index_at_le|].
           split; [intros Hd; by apply index_at_fresh|].
           rewrite Hout by lia. exact Hi1.
        -- destruct (Hin k c) as (d' & name' & j & -> & ? & ? & ? & Hk');
             [lia | | ].
           { unfold cs1. rewrite list_lookup_insert_ne by lia. done. }
           exists d', name', j. rewrite Hlen1 in Hk'. done.
    + exists cs. split; [done|]. split; [done|]. split; [done|].
      intros k c [Hk1 Hk2] Hc. apply lookup_ge_None_1 in Hi.
      apply lookup_lt_Some in Hc. lia.
Qed.

Lemma scored_spec st cands :
  (∀ c, c ∈ cands → named c) →
  ∃ cs,
    scored st cands = Ok cs
    ∧ length cs = length cands
    ∧ ∀ i c, cands !! i = Some c →
        ∃ d name j,
          c = PDict d
          ∧ ODict.get k_tool_name d = Some (PStr name)
          ∧ j ≤ i
          ∧ (ODict.mem k_score d = false → j = i)
          ∧ cs !! i
            = Some (PDict (ODict.set k_score
                             (PFloat (score_at st (length cands) j name))
                             d)).
Proof.
  intros Hnamed. unfold scored.
  destruct (score_loop_spec st (length cands) 0 cands)
    as (cs & Hrun & Hlen & _ & Hin).
  - intros k c _ Hc. apply Hnamed. by eapply list_elem_of_lookup_2.
  - intros k c Hk. lia.
  - exists cs. split; [done|]. split; [done|].
    intros i c Hc. apply (Hin i c); [|done].
    apply lookup_lt_Some in Hc. lia.
Qed.

End Candidates.

(** C4 (as stated, refuted): when one of the three replies survives the
    catalog check, the survivor at rank 0 with usage count 0 is scored
    1 + 2 = 3, not (3 - 0) + 2 / (0 + 1) = 5. *)
Lemma C4_single_survivor_scores_three :
  ∃ c,
    Planner.scored State.init
      (Planner._get_tool_candidates Samples.one_tool Samples.one_valid_reply 3)
    = Ok [c]
    ∧ (Planner.score_of c == 3)%Q
    ∧ ¬ (Planner.score_of c
         == inject_Z (3 - 0)
            + 2 / inject_Z (Z.of_nat
                  (State.get_tool_usage_count State.init
                     Samples.query_interface_info + 1)))%Q.
Proof.
  eexists. split; [vm_compute; reflexivity|].
  split; vm_compute; [reflexivity | discriminate].
Qed.

(** C4 (amended): the survivors of the three collaborator calls are always
    scored, and the survivor at 0-based position [i] of [n] survivors gets
    [(n - j) + 2.0 / (usageCount(name) + 1)] as the floats compute it
    (the quotient rounded, then the sum rounded), where [n] is the number
    of survivors (not the number of calls) and [j <= i] is the position
    [candidates.index] reports: [j = i] for every candidate that arrives
    without a ["score"] field of its own. *)
Theorem C4_score_of_survivors (tm : Tools.t) (llm : nat -> Planner.llm_reply)
    (st : State.t) :
  let candidates := Planner._get_tool_candidates tm llm 3 in
  let n := length candidates in
  ∃ cs,
    Planner.scored st candidates = Ok cs
    ∧ length cs = n
    ∧ ∀ i c, candidates !! i = Some c →
        ∃ d name j,
          c = PDict d
          ∧ ODict.get Planner.k_tool_name d = Some (PStr name)
          ∧ j ≤ i
          ∧ (ODict.mem Planner.k_score d = false → j = i)
          ∧ cs !! i
            = Some (PDict
                (ODict.set Planner.k_score
                   (PFloat
                      (Py.fadd
                         (Py.of_int (Z.of_nat n - Z.of_nat j))
                         (Py.fdiv 2
                            (Py.of_int
                               (Z.of_nat
                                  (State.get_tool_usage_count st name
                                   + 1))))))
                   d)).
Proof.
  intros candidates n. apply scored_spec.
  intros c Hc. apply get_tool_candidates_survivors in Hc.
  by eapply survivor_named.
Qed.

(* ===================================================================== *)
(** ** Parameter repair *)
(* ===================================================================== *)

Section Repair.
Import Planner Props.
Variable py_repr : pyval -> pystr.
Variable set_order : list pystr -> list pystr.
Hypothesis set_order_spec : Spec.set_order_ok set_order.

Lemma odict_get_In {V} k (v : V) (d : odict V) :
  ODict.get k d = Some v → (k, v) ∈ d.
Proof.
  induction d as [|[k0 v0] d IH]; simpl; [done|].
  destruct (PyStr.eqb k k0) eqn:E.
  - apply pystr_eqb_true in E. subst. intros [= ->]. left.
  - intros H. right. by apply IH.
Qed.

Lemma odict_merge_get_absent {V} k (a b : odict V) :
  ODict.mem k b = false → ODict.get k (ODict.merge a b) = ODict.get k a.
Proof.
  unfold ODict.merge, ODict.mem. revert a.
  induction b as [|[k0 v0] b IH]; intros a; simpl; [done|].
  destruct (PyStr.eqb k k0) eqn:E; [done|].
  intros Hb. rewrite IH by done.
  apply odict_get_set_ne. apply pystr_eqb_false in E. congruence.
Qed.

Lemma grows_refl kp : grows kp kp.
Proof. by intros v. Qed.

Lemma grows_trans a b c : grows a b → grows b c → grows a c.
Proof. intros H1 H2 v Hv. by apply H2, H1. Qed.

Lemma grows_add s v kp : grows kp (add_known s v kp).
Proof.
  intros x Hx. destruct s; simpl; [|done|done].
  apply elem_of_app. by left.
Qed.

Lemma grows_foldl {A} (f : known → A → known) (l : list A) :
  (∀ kp x, grows kp (f kp x)) → ∀ kp, grows kp (foldl f kp l).
Proof.
  intros Hf. induction l as [|x l IH]; intros kp; simpl.
  - apply grows_refl.
  - eapply grows_trans; [apply Hf | apply IH].
Qed.

Lemma grows_collect_named kp kv : grows kp (collect_named py_repr kp kv).
Proof.
  unfold collect_named. repeat case_match;
    (apply grows_refl || apply grows_add).
Qed.

Lemma grows_collect_response kp kv :
  grows kp (collect_response py_repr kp kv).
Proof.
  unfold collect_response. repeat case_match;
    (apply grows_refl || apply grows_add).
Qed.

Lemma grows_collect_item kp kv : grows kp (collect_item py_repr kp kv).
Proof.
  unfold collect_item. repeat case_match;
    (apply grows_refl || apply grows_add).
Qed.

Lemma grows_collect_execution kp e :
  grows kp (collect_execution py_repr kp e).
Proof.
  unfold collect_execution.
  apply (grows_trans _
           (foldl (collect_named py_repr) kp (State.ex_tool_request e))).
  { apply grows_foldl, grows_collect_named. }
  destruct (State.ex_tool_response e); try apply grows_refl.
  - apply grows_foldl. intros acc item. destruct item; try apply grows_refl.
    apply grows_foldl, grows_collect_item.
  - apply grows_foldl, grows_collect_response.
Qed.

(** A usable value under a device-like key of the merged goal parameters
    is among the gathered device names. *)
Lemma collect_named_gathers (l : pydict) k v : ∀ kp,
  (k, v) ∈ l →
  slot_of_name k = Some SDevice →
  usable py_repr v = true →
  py_str py_repr v ∈ device_name (foldl (collect_named py_repr) kp l).
Proof.
  induction l as [|kv l IH]; intros kp Hin Hslot Huse.
  - by apply elem_of_nil in Hin.
  - simpl. apply elem_of_cons in Hin as [<-|Hin].
    + apply (grows_foldl (collect_named py_repr) l grows_collect_named).
      unfold collect_named; simpl. rewrite Hslot, Huse. simpl.
      apply elem_of_app. right. left.
    + by apply IH.
Qed.

Lemma goal_device_gathered st g v :
  ODict.get (u "device") (entities g) = Some (PStr v) →
  ODict.mem (u "device") (context_params g) = false →
  valid_str v = true →
  v ∈ device_name (gather_known py_repr st g).
Proof.
  intros He Hc Hv. unfold gather_known.
  apply (grows_foldl _ _ grows_collect_execution).
  apply (collect_named_gathers _ (u "device") (PStr v)).
  - apply odict_get_In. by rewrite odict_merge_get_absent.
  - vm_compute. reflexivity.
  - unfold usable. simpl. rewrite Hv. by destruct v.
Qed.

Lemma find_device_name kp :
  _find_valid_parameter (u "device_name") kp
  = first_or_empty (device_name kp).
Proof.
  unfold _find_valid_parameter.
  replace (PyStr.contains (u "device") (PyStr.lower (u "device_name")))
    with true by (vm_compute; reflexivity).
  done.
Qed.

(** With a single known device value, that value is the first of the
    de-duplicated list, in whatever order the set came out. *)
Lemma single_known_device st g x :
  x ∈ device_name (gather_known py_repr st g) →
  (∀ v, v ∈ device_name (gather_known py_repr st g) → v = x) →
  _find_valid_parameter (u "device_name")
    (_extract_known_parameters py_repr set_order st g) = x.
Proof using set_order_spec.
  intros Hin Hall. rewrite find_device_name. simpl.
  apply set_order_spec in Hin.
  destruct (set_order (device_name (gather_known py_repr st g)))
    as [|y l] eqn:E.
  - by apply elem_of_nil in Hin.
  - simpl. apply Hall. apply set_order_spec. rewrite E. left.
Qed.

(** Once a key holds its repaired value, later repairs keep it. *)
Lemma fix_one_keeps kp k x (l : pydict) : ∀ d,
  _find_valid_parameter k kp = x →
  ODict.get k d = Some (PStr x) →
  ODict.get k (foldl (fix_one kp) d l) = Some (PStr x).
Proof.
  induction l as [|kv l IH]; intros d Hx Hd; simpl; [done|].
  apply IH; [done|]. unfold fix_one.
  destruct (_find_valid_parameter kv.1 kp) as [|c s] eqn:E; [done|].
  destruct (decide (kv.1 = k)) as [Heq|Hne].
  - rewrite Heq in *. rewrite odict_get_set_eq. congruence.
  - by rewrite odict_get_set_ne.
Qed.

Lemma fix_one_repairs kp k v x (l : pydict) : ∀ d,
  (k, v) ∈ l →
  _find_valid_parameter k kp = x → x ≠ [] →
  ODict.get k (foldl (fix_one kp) d l) = Some (PStr x).
Proof.
  induction l as [|kv l IH]; intros d Hin Hx Hne.
  - by apply elem_of_nil in Hin.
  - simpl. apply elem_of_cons in Hin as [<-|Hin]; [|by apply IH].
    apply fix_one_keeps; [done|]. unfold fix_one; simpl. rewrite Hx.
    destruct x; [done|]. apply odict_get_set_eq.
Qed.

Lemma repair_device_name plan st g req x :
  ODict.get k_tool_request plan = Some (PDict req) →
  ODict.get (u "device_name") req = Some (PStr Spec.placeholder) →
  x ≠ [] →
  x ∈ device_name (gather_known py_repr st g) →
  (∀ v, v ∈ device_name (gather_known py_repr st g) → v = x) →
  ∃ req',
    _validate_and_fix_parameters py_repr set_order plan st g
    = Ok (ODict.set k_tool_request (PDict req') plan)
    ∧ ODict.get (u "device_name") req' = Some (PStr x).
Proof using set_order_spec.
  intros Hplan Hreq Hne Hin Hall.
  unfold _validate_and_fix_parameters. rewrite Hplan. simpl.
  eexists. split; [reflexivity|].
  apply (fix_one_repairs _ _ (PStr Spec.placeholder)); [| |done].
  - apply list_elem_of_filter. split; [reflexivity|].
    by apply odict_get_In.
  - by apply single_known_device.
Qed.

End Repair.

(** C8 (as stated, refuted): with [entities.device = "X1"] declared, a
    context parameter under the same key takes its place in the merged
    dictionary, and the placeholder is replaced by that value ("Z9"), not
    by "X1".  A single value is known, so the order of the set plays no
    part. *)
Lemma C8_context_parameter_overrides_entity :
  ∃ req',
    ODict.get (u "device") (Planner.entities Samples.goal_x1_z9)
    = Some (PStr Spec.x1)
    ∧ Planner._validate_and_fix_parameters Samples.no_repr Samples.plain_order
        Samples.placeholder_plan State.init Samples.goal_x1_z9
      = Ok (ODict.set Planner.k_tool_request (PDict req')
              Samples.placeholder_plan)
    ∧ ODict.get (u "device_name") req' = Some (PStr (u "Z9")).
Proof.
  eexists. split; [reflexivity|]. split; vm_compute; reflexivity.
Qed.

(** C8 (amended): if the action carries [device_name = "设备"], the goal
    declares [entities.device = "X1"], no context parameter of the goal
    sits under the key "device", and neither the goal nor the history of
    the session yields a device value other than "X1", then the value
    "设备" is classified as invalid and the returned action carries exactly
    "X1" as [device_name]. *)
Theorem C8_placeholder_repaired_with_declared_device
    (py_repr : pyval -> pystr) (set_order : list pystr -> list pystr)
    (plan : pydict) (st : State.t) (g : Planner.goal) (req : pydict) :
  Spec.set_order_ok set_order →
  ODict.get Planner.k_tool_request plan = Some (PDict req) →
  ODict.get (u "device_name") req = Some (PStr Spec.placeholder) →
  ODict.get (u "device") (Planner.entities g) = Some (PStr Spec.x1) →
  ODict.mem (u "device") (Planner.context_params g) = false →
  (∀ v, v ∈ Planner.device_name (Planner.gather_known py_repr st g) →
        v = Spec.x1) →
  Planner._is_valid_parameter_value (PStr Spec.placeholder) = false
  ∧ ∃ req',
      Planner._validate_and_fix_parameters py_repr set_order plan st g
      = Ok (ODict.set Planner.k_tool_request (PDict req') plan)
      ∧ ODict.get (u "device_name") req' = Some (PStr Spec.x1).
Proof.
  intros Hso Hplan Hreq Hent Hctx Hall. split; [reflexivity|].
  apply (repair_device_name py_repr set_order Hso plan st g req Spec.x1);
    try done.
  apply goal_device_gathered; try done.
Qed.

Lemma plain_order_ok : Spec.set_order_ok Samples.plain_order.
Proof. intros l x. apply elem_of_remove_dups. Qed.

(** C8 on a fresh session whose goal declares only the device "X1". *)
Lemma C8_placeholder_repaired_witness :
  Planner._is_valid_parameter_value (PStr Spec.placeholder) = false
  ∧ ∃ req',
      Planner._validate_and_fix_parameters Samples.no_repr Samples.plain_order
        Samples.placeholder_plan State.init Samples.goal_x1
      = Ok (ODict.set Planner.k_tool_request (PDict req')
              Samples.placeholder_plan)
      ∧ ODict.get (u "device_name") req' = Some (PStr Spec.x1).
Proof.
  apply (C8_placeholder_repaired_with_declared_device Samples.no_repr
           Samples.plain_order Samples.placeholder_plan State.init
           Samples.goal_x1 [(u "device_name", PStr Spec.placeholder)]).
  - exact plain_order_ok.
  - reflexivity.
  - reflexivity.
  - reflexivity.
  - reflexivity.
  - intros v Hv. apply list_elem_of_In in Hv. vm_compute in Hv.
    destruct Hv as [<-|[]]. reflexivity.
Defined.

(* ===================================================================== *)
(** ** Selection never fails on a non-empty catalog *)
(* ===================================================================== *)

Section Selection.
Import Planner Props.
Variable py_repr : pyval -> pystr.
Variable set_order : list pystr -> list pystr.
Variable tm : Tools.t.
Variable st : State.t.
Variable g : goal.

Lemma keys_distinct :
  k_error ≠ k_tool_request ∧ k_error ≠ k_tool_name ∧ k_error ≠ k_score
  ∧ k_tool_request ≠ k_tool_name ∧ k_tool_request ≠ k_score
  ∧ k_tool_name ≠ k_score.
Proof. repeat split; intros H; vm_compute in H; discriminate H. Qed.

Lemma sound_set plan k v :
  k ≠ k_error → k ≠ k_tool_request → sound plan →
  sound (ODict.set k v plan).
Proof.
  intros H1 H2 [He Hr]. split.
  - rewrite odict_mem_set, He, orb_false_r.
    apply pystr_eqb_false. congruence.
  - intros r. rewrite odict_get_set_ne by done. apply Hr.
Qed.

Lemma validate_sound plan :
  sound plan →
  ∃ req',
    _validate_and_fix_parameters py_repr set_order plan st g
    = Ok (ODict.set k_tool_request (PDict req') plan).
Proof.
  intros [_ Hr]. unfold _validate_and_fix_parameters.
  destruct (ODict.get k_tool_request plan) as [r|] eqn:E; simpl.
  - destruct (Hr r eq_refl) as [req ->]. eauto.
  - eauto.
Qed.

(** What parameter repair returns for a sound plan is again free of the
    error marker and keeps the name. *)
Lemma validate_accepts plan name :
  sound plan → names plan name →
  ∃ plan',
    _validate_and_fix_parameters py_repr set_order plan st g = Ok plan'
    ∧ is_failure plan' = false
    ∧ names plan' name.
Proof.
  destruct keys_distinct as (K1 & K2 & K3 & K4 & K5 & K6).
  intros Hs Hn. destruct (validate_sound plan Hs) as [req' ->].
  eexists. split; [reflexivity|]. split.
  - unfold is_failure. rewrite odict_mem_set. destruct Hs as [-> _].
    rewrite orb_false_r. by apply pystr_eqb_false.
  - unfold names. by rewrite odict_get_set_ne.
Qed.

(** *** Sorting and drawing keep to the scored candidates *)

Lemma insert_desc_elem x y l : y ∈ insert_desc x l ↔ y = x ∨ y ∈ l.
Proof.
  induction l as [|z l IH]; simpl.
  - rewrite list_elem_of_singleton. rewrite elem_of_nil. tauto.
  - destruct (Qlt_bool (score_of z) (score_of x)).
    + rewrite !elem_of_cons. tauto.
    + rewrite !elem_of_cons, IH. tauto.
Qed.

Lemma sort_desc_elem l y : y ∈ sort_desc l ↔ y ∈ l.
Proof.
  unfold sort_desc.
  assert (H : ∀ acc, y ∈ foldl (fun acc x => insert_desc x acc) acc l
                     ↔ y ∈ acc ∨ y ∈ l).
  { induction l as [|x l IH]; intros acc; simpl.
    - rewrite elem_of_nil. tauto.
    - rewrite IH, insert_desc_elem, elem_of_cons. tauto. }
  rewrite H, elem_of_nil. tauto.
Qed.

Lemma pick_elem d (l : list pyval) :
  l ≠ [] → ∃ x, pick d l = Some x ∧ x ∈ l.
Proof.
  intros Hl. unfold pick.
  destruct (lookup_lt_is_Some_2 l (choice_index d mod length l)) as [x Hx].
  - apply Nat.mod_upper_bound. by destruct l.
  - exists x. split; [done|]. by eapply list_elem_of_lookup_2.
Qed.

Lemma select_by_mode_elem mode d (sorted : list pyval) :
  sorted ≠ [] → ∃ x, select_by_mode mode d sorted = Some x ∧ x ∈ sorted.
Proof.
  intros Hl. unfold select_by_mode.
  assert (Hhead : ∃ x, head sorted = Some x ∧ x ∈ sorted).
  { destruct sorted as [|x l]; [done|]. exists x. split; [done | left]. }
  destruct (PyStr.eqb mode greedy); [done|].
  destruct (PyStr.eqb mode balanced); [|by apply pick_elem].
  destruct (Qlt_bool _ _); [done|].
  destruct sorted as [|x [|y l]]; [done | done |].
  destruct (pick_elem d (y :: l)) as (z & Hz & Hin); [done|].
  exists z. split; [done | by right].
Qed.

(** The strategy returns one of the candidates, with its score set. *)
Lemma apply_exploration_selects mode d cands :
  cands ≠ [] →
  (∀ c, c ∈ cands → named c) →
  ∃ d0 q,
    _apply_exploration_strategy mode d cands st
    = Ok (PDict (ODict.set k_score (PFloat q) d0))
    ∧ PDict d0 ∈ cands.
Proof.
  intros Hne Hnamed. unfold _apply_exploration_strategy.
  destruct cands as [|c0 cands0] eqn:Ecands; [done|]. rewrite <- Ecands in *.
  destruct (scored_spec st cands Hnamed) as (cs & -> & Hlen & Hcs). simpl.
  destruct (select_by_mode_elem mode d (sort_desc cs)) as (x & -> & Hx).
  { intros Hnil. assert (Hin : c0 ∈ cands) by (rewrite Ecands; left).
    apply list_elem_of_lookup in Hin as [i Hi].
    destruct (Hcs i c0 Hi) as (? & ? & ? & _ & _ & _ & _ & Hci).
    apply list_elem_of_lookup_2, (proj2 (sort_desc_elem _ _)) in Hci.
    rewrite Hnil in Hci. by apply elem_of_nil in Hci. }
  apply (proj1 (sort_desc_elem _ _)), list_elem_of_lookup in Hx as [i Hi].
  destruct (lookup_lt_is_Some_2 cands i) as [c Hc].
  { rewrite <- Hlen. by eapply lookup_lt_Some. }
  destruct (Hcs i c Hc) as (d0 & name & j & -> & _ & _ & _ & Hci).
  rewrite Hci in Hi. injection Hi as <-.
  eexists _, _. split; [reflexivity|]. by eapply list_elem_of_lookup_2.
Qed.

(** *** The retry rounds *)

Lemma survivor_sound (llm : nat → llm_reply) top_k c :
  (∀ i v, llm i = LlmJson v → Spec.well_formed v) →
  survivor tm (map llm (seq 0 top_k)) c →
  ∃ d name,
    c = PDict d ∧ sound d ∧ names d name
    ∧ Tools.is_valid_tool tm (PStr name) = Ok true.
Proof.
  intros Hwf (Hin & d & name & -> & Hname & Hvalid).
  apply list_elem_of_fmap in Hin as (i & Hi & _).
  exists d, name. split; [done|]. split; [|done].
  destruct (Hwf i (PDict d) (eq_sym Hi) d eq_refl) as [He Hr]. by split.
Qed.

Lemma retry_loop_cons mode w retry rest :
  retry_loop py_repr set_order tm mode w st g (retry :: rest)
  = match _get_tool_candidates tm (llm w retry) 3 with
    | [] => retry_loop py_repr set_order tm mode w st g rest
    | candidates =>
        selected ←
          _apply_exploration_strategy mode (rand w retry) candidates st;
        has ← py_in k_tool_name selected;
        valid ← (if (has : bool)
                 then py_getitem selected k_tool_name
                        ≫= Tools.is_valid_tool tm
                 else Ok false);
        if (valid : bool) then
          plan ← as_dict selected;
          Some <$> _validate_and_fix_parameters py_repr set_order plan st g
        else retry_loop py_repr set_order tm mode w st g rest
    end.
Proof. reflexivity. Qed.

(** The first round with a surviving candidate supplies the plan; the
    rounds before it have none. *)
Lemma retry_loop_stage mode w rounds :
  (∀ retry i v, llm w retry i = LlmJson v → Spec.well_formed v) →
  (∃ pre retry post selected plan,
      rounds = pre ++ retry :: post
      ∧ (∀ r, r ∈ pre → _get_tool_candidates tm (llm w r) 3 = [])
      ∧ _get_tool_candidates tm (llm w retry) 3 ≠ []
      ∧ _apply_exploration_strategy mode (rand w retry)
          (_get_tool_candidates tm (llm w retry) 3) st
        = Ok (PDict selected)
      ∧ _validate_and_fix_parameters py_repr set_order selected st g
        = Ok plan
      ∧ retry_loop py_repr set_order tm mode w st g rounds = Ok (Some plan)
      ∧ accepted tm plan)
  ∨ ((∀ r, r ∈ rounds → _get_tool_candidates tm (llm w r) 3 = [])
     ∧ retry_loop py_repr set_order tm mode w st g rounds = Ok None).
Proof.
  destruct keys_distinct as (K1 & K2 & K3 & K4 & K5 & K6).
  intros Hwf. induction rounds as [|retry rounds IH].
  - right. split; [by intros r ?%elem_of_nil | done].
  - rewrite retry_loop_cons.
    destruct (_get_tool_candidates tm (llm w retry) 3) as [|c0 cands0] eqn:E.
    { destruct IH as [(pre & r0 & post & sel & plan & -> & Hpre & IH)|[Hall IH]].
      - left. exists (retry :: pre), r0, post, sel, plan.
        split; [done|]. split; [|done].
        intros r [->|Hr]%elem_of_cons; [done | by apply Hpre].
      - right. split; [|done].
        intros r [->|Hr]%elem_of_cons; [done | by apply Hall]. }
    left. exists [], retry, rounds.
    destruct (apply_exploration_selects mode (rand w retry)
                (c0 :: cands0)) as (d0 & q & Hsel & Hin); [done | |].
    { intros c Hc. rewrite <- E in Hc.
      apply get_tool_candidates_survivors in Hc. by eapply survivor_named. }
    rewrite Hsel.
    rewrite <- E in Hin. apply get_tool_candidates_survivors in Hin.
    destruct (survivor_sound (llm w retry) 3 _ (Hwf retry) Hin)
      as (d & name & [= <-] & Hsound & Hname & Hvalid).
    assert (Hname' : names (ODict.set k_score (PFloat q) d0) name).
    { unfold names. rewrite odict_get_set_ne by congruence. exact Hname. }
    cbn [mbind result_bind py_in py_getitem].
    rewrite odict_mem_set. unfold ODict.mem at 1.
    rewrite Hname, orb_true_r. rewrite Hname'.
    cbn [mbind result_bind]. rewrite Hvalid.
    cbn [mbind result_bind as_dict].
    destruct (validate_accepts (ODict.set k_score (PFloat q) d0) name)
      as (plan' & Hval & Hok & Hn'); [|done|].
    { apply sound_set; congruence || done. }
    rewrite Hval. cbn [fmap result_fmap].
    exists (ODict.set k_score (PFloat q) d0), plan'.
    rewrite !E. split; [done|]. split; [by intros r ?%elem_of_nil|].
    split; [done|]. split; [done|]. split; [done|]. split; [done|].
    split; [done|]. eauto.
Qed.

(** *** The strict re-query and the fuzzy correction *)

Lemma odict_keys_mem {V} k (d : odict V) :
  k ∈ ODict.keys d → ODict.mem k d = true.
Proof.
  unfold ODict.keys, ODict.mem.
  induction d as [|[k0 v0] d IH]; simpl.
  - by intros ?%elem_of_nil.
  - intros [->|Hin]%elem_of_cons.
    + by rewrite pystr_eqb_refl.
    + destruct (PyStr.eqb k k0); [done | by apply IH].
Qed.

Lemma catalog_name_valid t :
  t ∈ Tools.get_all_tool_names tm →
  Tools.is_valid_tool tm (PStr t) = Ok true.
Proof.
  intros Hin. unfold Tools.is_valid_tool.
  destruct (_ || _); [done|].
  by rewrite (odict_keys_mem t (Tools.tools tm)).
Qed.

Lemma best_similar_elem invalid_name valid_tools t :
  best_similar invalid_name valid_tools = Some t → t ∈ valid_tools.
Proof.
  unfold best_similar.
  assert (H : ∀ l acc,
             (∀ x, acc.1 = Some x → x ∈ valid_tools) →
             (∀ x, x ∈ l → x ∈ valid_tools) →
             ∀ x, (foldl (fun (best : option pystr * Q) tool =>
                             let score := simple_similarity invalid_name tool in
                             if Qlt_bool best.2 score
                                && Qlt_bool threshold score
                             then (Some tool, score) else best) acc l).1
                  = Some x → x ∈ valid_tools).
  { induction l as [|y l IH]; intros acc Hacc Hl x; simpl; [apply Hacc|].
    apply IH.
    - destruct (_ && _); simpl; [|apply Hacc].
      intros z [= <-]. apply Hl. left.
    - intros z Hz. apply Hl. by right. }
  apply H; [done | done].
Qed.

Lemma fuzzy_str_elem invalid_name valid_tools t :
  fuzzy_str invalid_name valid_tools = Some t → t ∈ valid_tools.
Proof.
  unfold fuzzy_str.
  destruct (list_find _ valid_tools) as [[i x]|] eqn:E1.
  - simpl. intros [= <-]. apply list_find_Some in E1 as (Hx & _).
    by eapply list_elem_of_lookup_2.
  - clear E1. destruct (list_find _ valid_tools) as [[i x]|] eqn:E2.
    + simpl. intros [= <-]. apply list_find_Some in E2 as (Hx & _).
      by eapply list_elem_of_lookup_2.
    + apply best_similar_elem.
Qed.

Lemma fuzzy_match_elem v valid_tools t :
  _fuzzy_match_tool_name v valid_tools = Ok (Some t) → t ∈ valid_tools.
Proof.
  unfold _fuzzy_match_tool_name.
  destruct (negb (Py.truthy v)); [done|].
  destruct valid_tools as [|t0 l]; [done|].
  destruct v; try done.
  intros [= H]. by apply fuzzy_str_elem in H.
Qed.

Lemma correction_accepts reply c :
  (∀ v, reply = LlmJson v → Spec.well_formed v) →
  _try_tool_name_correction tm reply = Some c →
  sound c ∧ ∃ name, names c name
                    ∧ Tools.is_valid_tool tm (PStr name) = Ok true.
Proof.
  destruct keys_distinct as (K1 & K2 & K3 & K4 & K5 & K6).
  intros Hwf. unfold _try_tool_name_correction, try_except, correction_body.
  destruct reply as [|v]; [done|].
  destruct (named_candidate v) as [[tool_name|]|] eqn:Hn;
    cbn [mbind result_bind]; [| done | done].
  apply named_candidate_some in Hn as (d & -> & Hname).
  destruct (Hwf (PDict d) eq_refl d eq_refl) as [He Hr].
  assert (Hsound : sound d) by (by split).
  destruct (Tools.is_valid_tool tm tool_name) as [[|]|] eqn:Hv;
    cbn [mbind result_bind]; [| | done].
  - cbn [fmap result_fmap as_dict]. intros [= <-]. split; [done|].
    destruct (is_valid_tool_true _ _ Hv) as [name ->]. eauto.
  - destruct (_fuzzy_match_tool_name tool_name _)
      as [[[|ch n]|]|] eqn:Hf; cbn [mbind result_bind as_dict];
      [done | | done | done].
    intros [= <-]. apply fuzzy_match_elem in Hf. split.
    + apply sound_set; congruence || done.
    + exists (ch :: n). split; [apply odict_get_set_eq|].
      by apply catalog_name_valid.
Qed.

(** *** The last resort *)

Lemma foldl_min_elem (r : list nat) : ∀ x, foldl Nat.min x r ∈ x :: r.
Proof.
  induction r as [|y r IH]; intros x; simpl; [left|].
  specialize (IH (x `min` y)). apply elem_of_cons in IH as [->|IH].
  - destruct (Nat.min_dec x y) as [->| ->]; [left | right; left].
  - right. by right.
Qed.

Lemma fallback_choice_ok all_tools :
  all_tools ≠ [] →
  ∃ name,
    fallback_choice all_tools st = Ok name
    ∧ (name ∈ all_tools ∨ name ∈ ODict.keys (State.tool_usage_count st)).
Proof.
  intros Hne. unfold fallback_choice.
  destruct (State.step_count st =? 0).
  - destruct (filter _ all_tools) as [|q l] eqn:E.
    + destruct all_tools as [|t l]; [done|]. exists t. split; [done|].
      left. left.
    + exists q. split; [done|]. left.
      assert (Hq : q ∈ filter (fun t => is_query_tool t = true) all_tools)
        by (rewrite E; left).
      by apply list_elem_of_filter in Hq as [_ ?].
  - destruct (filter _ all_tools) as [|t l] eqn:E.
    + destruct all_tools as [|t0 l0] eqn:Etools; [done|].
      assert (Hused : ODict.mem t0 (State.tool_usage_count st) = true).
      { destruct (ODict.mem t0 (State.tool_usage_count st)) eqn:Hm; [done|].
        assert (Hin : t0 ∈ filter
                        (fun t => ODict.mem t (State.tool_usage_count st)
                                  = false) (t0 :: l0)).
        { apply list_elem_of_filter. split; [done | left]. }
        rewrite E in Hin. by apply elem_of_nil in Hin. }
      destruct (State.tool_usage_count st) as [|kv0 usage] eqn:Eu;
        [done|].
      cbn [ODict.values map min_list].
      pose proof (foldl_min_elem (map snd usage) kv0.2) as Hmin.
      set (m := foldl Nat.min kv0.2 (map snd usage)) in *.
      assert (Hex : ∃ kv, kv ∈ kv0 :: usage ∧ kv.2 = m).
      { change (kv0.2 :: map snd usage) with (map snd (kv0 :: usage)) in Hmin.
        apply list_elem_of_fmap in Hmin as (kv & ? & ?). eauto. }
      destruct Hex as (kv & Hkv & Hm).
      destruct (filter _ (kv0 :: usage)) as [|kv1 l1] eqn:Ef.
      * assert (Hin : kv ∈ filter (fun kv : pystr * nat => kv.2 = m)
                                  (kv0 :: usage)).
        { apply list_elem_of_filter. by split. }
        rewrite Ef in Hin. by apply elem_of_nil in Hin.
      * exists kv1.1. split; [done|]. right.
        assert (Hin : kv1 ∈ filter (fun kv : pystr * nat => kv.2 = m)
                                   (kv0 :: usage)) by (rewrite Ef; left).
        apply list_elem_of_filter in Hin as [_ Hin].
        unfold ODict.keys. apply list_elem_of_fmap. eauto.
    + exists t. split; [done|]. left.
      assert (Ht : t ∈ filter
                     (fun t => ODict.mem t (State.tool_usage_count st) = false)
                     all_tools) by (rewrite E; left).
      by apply list_elem_of_filter in Ht as [_ ?].
Qed.

(** *** Which stage supplied the plan *)

Lemma correction_origin reply c :
  _try_tool_name_correction tm reply = Some c →
  ∃ d, reply = LlmJson (PDict d) ∧ requeried tm d c.
Proof.
  unfold _try_tool_name_correction, try_except, correction_body.
  destruct reply as [|v]; [done|].
  destruct (named_candidate v) as [[tool_name|]|] eqn:Hn;
    cbn [mbind result_bind]; [| done | done].
  apply named_candidate_some in Hn as (d & -> & Hname).
  destruct (Tools.is_valid_tool tm tool_name) as [[|]|] eqn:Hv;
    cbn [mbind result_bind]; [| | done].
  - cbn [fmap result_fmap as_dict]. intros [= <-].
    exists d. split; [done|]. exists tool_name. split; [done|]. by left.
  - destruct (_fuzzy_match_tool_name tool_name _)
      as [[[|ch n]|]|] eqn:Hf; cbn [mbind result_bind as_dict];
      [done | | done | done].
    intros [= <-].
    exists d. split; [done|]. exists tool_name. split; [done|].
    right. split; [done|]. eauto.
Qed.

Lemma foldl_min_le (r : list nat) : ∀ x y,
  y ∈ x :: r → foldl Nat.min x r ≤ y.
Proof.
  induction r as [|z r IH]; intros x y; simpl.
  - by intros ->%list_elem_of_singleton.
  - intros Hy.
    assert (Hm : foldl Nat.min (x `min` z) r ≤ x `min` z)
      by (apply IH; left).
    apply elem_of_cons in Hy as [Hy|Hy]; [lia|].
    apply elem_of_cons in Hy as [Hy|Hy]; [lia|].
    apply IH. by right.
Qed.

Lemma fallback_choice_last_resort all_tools name :
  fallback_choice all_tools st = Ok name → last_resort all_tools st name.
Proof.
  unfold fallback_choice, last_resort. cbv zeta.
  destruct (Nat.eqb_spec (State.step_count st) 0) as [E|E].
  - rewrite decide_True by done.
    destruct (filter _ all_tools) as [|q l]; [|by intros [= ->]].
    destruct all_tools as [|t l]; [done | by intros [= ->]].
  - rewrite decide_False by done.
    destruct (filter _ all_tools) as [|t l]; [|by intros [= ->]].
    destruct (min_list (ODict.values (State.tool_usage_count st)))
      as [m|] eqn:Em; [|done].
    destruct (filter _ (State.tool_usage_count st)) as [|kv l] eqn:Ef;
      [done|]. intros [= <-]. exists m. split.
    + intros kv0 Hkv0. unfold min_list, ODict.values in Em.
      destruct (State.tool_usage_count st) as [|kv1 usage]; [done|].
      simpl in Em. injection Em as <-. apply foldl_min_le.
      change (kv1.2 :: map snd usage) with (map snd (kv1 :: usage)).
      apply list_elem_of_fmap. by exists kv0.
    + assert (Hkv : kv ∈ filter (fun kv : pystr * nat => kv.2 = m)
                           (State.tool_usage_count st))
        by (rewrite Ef; left).
      apply list_elem_of_filter in Hkv as [Hm _].
      rewrite Ef. simpl. destruct kv as [k v]. simpl in Hm. by subst v.
Qed.

End Selection.

(** C3 (as stated, refuted): with a non-empty catalog, a candidate that
    names a catalog tool but carries [null] as its arguments is selected in
    the first round, and parameter repair raises AttributeError on
    [tool_request.items()]; the exception leaves [select_next_tool]. *)
Lemma C3_null_arguments_abort_selection :
  Tools.tools Samples.one_tool ≠ []
  ∧ Planner.select_next_tool Samples.no_repr Samples.plain_order
      Samples.one_tool Planner.greedy Samples.null_request_world State.init
      Samples.goal_x1
    = Raise AttributeError.
Proof. split; [discriminate | vm_compute; reflexivity]. Qed.

(** C3 (amended): for every non-empty catalog, if the planning prompt was
    assembled and every JSON object the collaborator returns carries no
    error marker and has an object as its arguments (when it has any),
    [select_next_tool] returns a plan without error marker that names a
    tool.  The plan comes from the first retry round that has a surviving
    candidate; when no round has one, from the strict re-query, its name
    corrected by the fuzzy match when the catalog does not accept it; when
    that gives no plan either, from the last resort, which names the
    first query-like tool of the catalog at step 0 (its first tool when
    none is query-like) and afterwards the first tool the usage counter
    lacks, or the first entry of the usage counter with the minimum
    count.  (The stage is stated for ASCII names, on which [PyStr.lower]
    is [str.lower()].)  The name is one the catalog accepts provided the
    names already counted in the session are. *)
Theorem C3_selection_succeeds_on_nonempty_catalog
    (py_repr : pyval -> pystr) (set_order : list pystr -> list pystr)
    (tm : Tools.t) (mode : pystr) (w : Planner.world) (st : State.t)
    (g : Planner.goal) :
  Tools.tools tm ≠ [] →
  Spec.prompt_built w →
  Spec.replies_well_formed w →
  ∃ plan name origin,
    Planner.select_next_tool py_repr set_order tm mode w st g = Ok plan
    ∧ Planner.is_failure plan = false
    ∧ ODict.get Planner.k_tool_name plan = Some (PStr name)
    ∧ (Props.names_ascii tm w →
       Props.supplied py_repr set_order tm mode w st g plan name origin)
    ∧ (Spec.usage_names_valid tm st →
       Tools.is_valid_tool tm (PStr name) = Ok true).
Proof.
  intros Hcat [prompt Hprompt] [Hllm Hstrict].
  unfold Planner.select_next_tool. rewrite Hprompt. cbn [mbind result_bind].
  destruct (retry_loop_stage py_repr set_order tm st g mode w (seq 0 3) Hllm)
    as [(pre & retry & post & sel & plan & Hseq & Hpre & Hne & Hsel & Hval
         & -> & Hok & name & Hname & Hvalid) | [Hnone ->]].
  { cbn [mbind result_bind]. exists plan, name, (Props.FromRound retry).
    split; [done|]. split; [done|]. split; [done|]. split; [|done].
    intros _.
    assert (Hretry : retry ∈ seq 0 3)
      by (rewrite Hseq; apply elem_of_app; right; left).
    apply elem_of_seq in Hretry.
    split; [lia|]. split; [|by eauto].
    intros r Hr. apply Hpre.
    assert (Hlen : length pre = retry).
    { assert (H : seq 0 3 !! length pre = Some retry).
      { rewrite Hseq. by rewrite list_lookup_middle. }
      apply lookup_seq in H. lia. }
    assert (H : seq 0 3 !! r = Some r) by (apply lookup_seq; lia).
    rewrite Hseq, lookup_app_l in H by lia.
    by eapply list_elem_of_lookup_2. }
  cbn [mbind result_bind].
  assert (Hrounds : ∀ r, r < 3 →
            Planner._get_tool_candidates tm (Planner.llm w r) 3 = []).
  { intros r Hr. apply Hnone, elem_of_seq. lia. }
  assert (Hfallback :
    (∀ kv c, Planner._try_tool_name_correction tm (Planner.strict_reply w)
             ≠ Some (kv :: c)) →
    ∃ plan name origin,
      (Planner._select_fallback_tool tm st g
       ≫= fun fallback =>
            Planner._validate_and_fix_parameters py_repr set_order fallback
              st g) = Ok plan
      ∧ Planner.is_failure plan = false
      ∧ ODict.get Planner.k_tool_name plan = Some (PStr name)
      ∧ (Props.names_ascii tm w →
         Props.supplied py_repr set_order tm mode w st g plan name origin)
      ∧ (Spec.usage_names_valid tm st →
         Tools.is_valid_tool tm (PStr name) = Ok true)).
  { intros Hcorr. unfold Planner._select_fallback_tool.
    destruct (Tools.get_all_tool_names tm) as [|t0 l0] eqn:Etools.
    { unfold Tools.get_all_tool_names, ODict.keys in Etools.
      by destruct (Tools.tools tm). }
    destruct (fallback_choice_ok st (t0 :: l0)) as (name & Hfb & Hin); [done|].
    rewrite Hfb. cbn [mbind result_bind].
    match goal with
    | |- ∃ _ _ _, Planner._validate_and_fix_parameters _ _ ?fb _ _ = _ ∧ _ =>
        destruct (validate_accepts py_repr set_order st g fb name)
          as (plan' & -> & Hok & Hn)
    end.
    - split; [reflexivity|]. intros r [= <-]. eauto.
    - reflexivity.
    - exists plan', name, Props.LastResort. split; [done|]. split; [done|].
      split; [done|]. split.
      + intros _. split; [done|]. split; [done|]. rewrite Etools.
        by apply fallback_choice_last_resort.
      + intros Husage. destruct Hin as [Hin|Hin].
        * apply catalog_name_valid. by rewrite Etools.
        * by apply Husage. }
  destruct (Planner._try_tool_name_correction tm (Planner.strict_reply w))
    as [[|kv c]|] eqn:Hcorr; [by apply Hfallback | | by apply Hfallback].
  destruct (correction_accepts tm _ _ Hstrict Hcorr)
    as (Hsound & name & Hname & Hvalid).
  destruct (correction_origin tm _ _ Hcorr) as (reply & Hreply & Hreq).
  destruct (validate_accepts py_repr set_order st g (kv :: c) name)
    as (plan' & Hval & Hok & Hn); [done | done |].
  rewrite Hval. exists plan', name, Props.FromRequery.
  split; [done|]. split; [done|]. split; [done|]. split; [|done].
  intros _. split; [done|]. exists reply, (kv :: c). done.
Qed.

(** C3 on a one-tool catalog with an unreachable collaborator: the last
    resort supplies the plan. *)
Lemma C3_selection_succeeds_witness :
  ∃ plan name origin,
    Planner.select_next_tool Samples.no_repr Samples.plain_order
      Samples.one_tool Planner.balanced Samples.silent_world State.init
      Samples.goal_x1 = Ok plan
    ∧ Planner.is_failure plan = false
    ∧ ODict.get Planner.k_tool_name plan = Some (PStr name)
    ∧ (Props.names_ascii Samples.one_tool Samples.silent_world →
       Props.supplied Samples.no_repr Samples.plain_order Samples.one_tool
         Planner.balanced Samples.silent_world State.init Samples.goal_x1
         plan name origin)
    ∧ (Spec.usage_names_valid Samples.one_tool State.init →
       Tools.is_valid_tool Samples.one_tool (PStr name) = Ok true).
Proof.
  apply (C3_selection_succeeds_on_nonempty_catalog Samples.no_repr
           Samples.plain_order Samples.one_tool Planner.balanced
           Samples.silent_world State.init Samples.goal_x1).
  - discriminate.
  - eexists. reflexivity.
  - split; intros; discriminate.
Defined.

(** With an empty catalog and no usable reply the selection does return the
    failure the orchestrator stops on. *)
Lemma empty_catalog_fails :
  ∃ plan,
    Planner.select_next_tool Samples.no_repr Samples.plain_order
      Samples.empty_catalog Planner.balanced Samples.silent_world State.init
      Samples.goal_x1 = Ok plan
    ∧ Planner.is_failure plan = true.
Proof. eexists. split; vm_compute; reflexivity. Qed.

(* ===================================================================== *)
(** ** Session state: invariants of the class *)
(* ===================================================================== *)

Lemma odict_keys_set {V} k (v : V) (d : odict V) :
  ODict.keys (ODict.set k v d)
  = if ODict.mem k d then ODict.keys d else ODict.keys d ++ [k].
Proof.
  unfold ODict.mem, ODict.keys.
  induction d as [|[k0 v0] d IH]; simpl; [done|].
  destruct (PyStr.eqb k k0) eqn:E; simpl; [done|].
  rewrite IH. by destruct (ODict.get k d).
Qed.

Lemma odict_mem_keys {V} k (d : odict V) :
  ODict.mem k d = true ↔ k ∈ ODict.keys d.
Proof.
  unfold ODict.mem, ODict.keys.
  induction d as [|[k0 v0] d IH]; simpl.
  - split; [done | by intros ?%elem_of_nil].
  - rewrite elem_of_cons. destruct (PyStr.eqb k k0) eqn:E.
    + apply pystr_eqb_true in E. tauto.
    + apply pystr_eqb_false in E. rewrite IH. tauto.
Qed.

Section Consistency.
Import State Props.

Lemma count_name_snoc name l e :
  count_name name (l ++ [e])
  = count_name name l + (if decide (ex_tool_name e = name) then 1 else 0).
Proof.
  unfold count_name. rewrite filter_app, length_app, filter_cons, filter_nil.
  by destruct (decide (ex_tool_name e = name)).
Qed.

Lemma consistent_init : consistent init.
Proof.
  repeat split; simpl; try done; try apply NoDup_nil_2.
  by intros f ?%elem_of_nil.
Qed.

Lemma consistent_add_execution st n rq rs r :
  consistent st → consistent (add_execution st n rq rs r).1.
Proof.
  intros (Hlen & Huse & Hsteps & Hnd & Hf & Hex).
  unfold add_execution.
  match goal with
  | |- consistent (_extract_observations ?s ?a ?b).1 =>
      destruct (extract_observations_frame s a b)
        as (E1 & E2 & E3 & E4 & E5 & E6 & E7)
  end.
  unfold consistent. rewrite E1, E2, E3, E4, E7.
  cbn [step_count executed_tools tool_usage_count findings excluded_causes].
  split; [rewrite length_app; simpl; lia|].
  split.
  { intros name. rewrite count_name_snoc. simpl.
    unfold get_tool_usage_count. rewrite (Huse n).
    destruct (decide (n = name)) as [->|Hne].
    - rewrite odict_get_set_eq.
      destruct (count_name name (executed_tools st)); simpl; f_equal; lia.
    - rewrite odict_get_set_ne by done. rewrite Huse, Nat.add_0_r. done. }
  split.
  { rewrite map_app, Hsteps, seq_S. simpl. done. }
  split.
  { rewrite odict_keys_set.
    destruct (ODict.mem n (tool_usage_count st)) eqn:Hm; [done|].
    apply NoDup_app. split; [done|]. split; [|apply NoDup_singleton].
    intros x Hx ->%list_elem_of_singleton.
    apply odict_mem_keys in Hx. congruence. }
  split; [|done].
  intros f Hin. specialize (Hf f Hin). lia.
Qed.

Lemma consistent_run_op st o : consistent st → consistent (run_op st o).
Proof.
  destruct o as [n rq rs r | f s | a r c f | c | f]; simpl.
  - apply consistent_add_execution.
  - intros (Hlen & Huse & Hsteps & Hnd & Hf & Hex).
    repeat split; simpl; try done.
    intros x [Hx| ->%list_elem_of_singleton]%elem_of_app; [by apply Hf|].
    simpl. lia.
  - intros (Hlen & Huse & Hsteps & Hnd & Hf & Hex). by repeat split.
  - intros (Hlen & Huse & Hsteps & Hnd & Hf & Hex).
    unfold add_excluded_cause. case_bool_decide; [by repeat split|].
    repeat split; simpl; try done.
    apply NoDup_app. split; [done|]. split; [|apply NoDup_singleton].
    by intros x Hx ->%list_elem_of_singleton.
  - intros (Hlen & Huse & Hsteps & Hnd & Hf & Hex). by repeat split.
Qed.

Lemma consistent_run_ops os : ∀ st, consistent st → consistent (run_ops st os).
Proof.
  unfold run_ops. induction os as [|o os IH]; intros st H; simpl; [done|].
  by apply IH, consistent_run_op.
Qed.

End Consistency.

(** X1: in every session built from a fresh one by the methods of the
    class, the usage counter of a tool name equals the number of recorded
    executions of that name (0 for a name never used), and [has_used_tool]
    answers True exactly for the names that occur in the log. *)
Theorem usage_count_matches_log (os : list State.op) (name : pystr) :
  let st := State.run_ops State.init os in
  State.get_tool_usage_count st name
  = Props.count_name name (State.executed_tools st)
  ∧ (State.has_used_tool st name = true
     ↔ ∃ e, e ∈ State.executed_tools st ∧ State.ex_tool_name e = name).
Proof.
  intros st.
  destruct (consistent_run_ops os State.init consistent_init)
    as (_ & Huse & _).
  fold st in Huse. specialize (Huse name).
  unfold State.get_tool_usage_count, State.has_used_tool, ODict.mem.
  rewrite Huse. unfold Props.count_name.
  destruct (filter _ _) as [|e l] eqn:E; simpl.
  - split; [done|]. split; [done|]. intros (e & Hin & He).
    assert (H : e ∈ filter (fun e => State.ex_tool_name e = name)
                  (State.executed_tools st))
      by (apply list_elem_of_filter; done).
    rewrite E in H. by apply elem_of_nil in H.
  - split; [done|]. split; [|done]. intros _.
    assert (H : e ∈ filter (fun e => State.ex_tool_name e = name)
                  (State.executed_tools st)) by (rewrite E; left).
    apply list_elem_of_filter in H as [? ?]. eauto.
Qed.

(** X2: the records of the action log carry the step numbers 1, 2, ..., n
    in order, n being the step counter, and every finding is tagged with a
    step number no larger than the step counter. *)
Theorem steps_are_numbered (os : list State.op) :
  let st := State.run_ops State.init os in
  map State.ex_step (State.executed_tools st) = seq 1 (State.step_count st)
  ∧ ∀ f, f ∈ State.findings st → State.f_step f ≤ State.step_count st.
Proof.
  intros st.
  destruct (consistent_run_ops os State.init consistent_init)
    as (_ & _ & Hsteps & _ & Hf & _).
  by split.
Qed.

(** X3: the number of entries of the usage counter, which [get_summary]
    reports as [unique_tools_used] and [_sufficient_coverage] compares
    with 8, is the number of distinct tool names in the action log. *)
Theorem unique_tools_counts_distinct_names (os : list State.op) :
  let st := State.run_ops State.init os in
  State.unique_tools_used (State.get_summary st)
  = length (remove_dups (map State.ex_tool_name (State.executed_tools st)))
  ∧ State._sufficient_coverage st
    = (8 <=? length (remove_dups
                       (map State.ex_tool_name (State.executed_tools st)))).
Proof.
  intros st.
  destruct (consistent_run_ops os State.init consistent_init)
    as (_ & Huse & _ & Hnd & _).
  fold st in Huse, Hnd.
  assert (Hlen : length (State.tool_usage_count st)
                 = length (remove_dups
                     (map State.ex_tool_name (State.executed_tools st)))).
  { transitivity (length (ODict.keys (State.tool_usage_count st))).
    { unfold ODict.keys. by rewrite length_map. }
    apply Permutation_length, NoDup_Permutation;
      [done | apply NoDup_remove_dups |].
    intros name. rewrite elem_of_remove_dups, <- odict_mem_keys.
    unfold ODict.mem. rewrite Huse. unfold Props.count_name.
    rewrite list_elem_of_fmap.
    destruct (filter _ _) as [|e l] eqn:E; simpl.
    - split; [done|]. intros (e & -> & Hin).
      assert (H : e ∈ filter (fun e0 => State.ex_tool_name e0
                                        = State.ex_tool_name e)
                    (State.executed_tools st))
        by (apply list_elem_of_filter; done).
      rewrite E in H. by apply elem_of_nil in H.
    - split; [|done]. intros _.
      assert (H : e ∈ filter (fun e => State.ex_tool_name e = name)
                    (State.executed_tools st)) by (rewrite E; left).
      apply list_elem_of_filter in H as [? ?]. eauto. }
  unfold State._sufficient_coverage. simpl. by rewrite Hlen.
Qed.

(* ===================================================================== *)
(** ** Termination policy *)
(* ===================================================================== *)

Lemma filter_none {A} (P : A → Prop) `{∀ x, Decision (P x)} (l : list A) :
  (∀ x, x ∈ l → ¬ P x) → filter P l = [].
Proof.
  induction l as [|x l IH]; intros Hall; [done|].
  rewrite filter_cons. destruct (decide (P x)) as [Hp|_].
  - destruct (Hall x); [left | done].
  - apply IH. intros y Hy. apply Hall. by right.
Qed.

Section Policy.
Import State Props.

Lemma has_critical_iff st :
  _has_critical_finding st = true
  ↔ ∃ f, f ∈ findings st ∧ f_severity f = u "high".
Proof.
  unfold _has_critical_finding. rewrite existsb_exists.
  split; intros (f & Hin & Hf); exists f.
  - split; [by apply list_elem_of_In | by apply pystr_eqb_true].
  - split; [by apply list_elem_of_In | by apply pystr_eqb_true].
Qed.

Lemma no_new_findings_iff st :
  3 ≤ step_count st →
  (_no_new_findings_recently st 3 = true
   ↔ ∀ f, f ∈ findings st → ¬ in_window st f).
Proof.
  intros Hsc. unfold _no_new_findings_recently, in_window.
  rewrite (proj2 (Nat.ltb_ge _ _) Hsc), Nat.eqb_eq, length_zero_iff_nil.
  split.
  - intros Hnil f Hin Hw.
    assert (H : f ∈ filter
                  (fun f => in_range (Z.of_nat (step_count st) - Z.of_nat 3 + 1)
                              (Z.of_nat (step_count st) + 1)
                              (Z.of_nat (f_step f)) = true) (findings st)).
    { apply list_elem_of_filter. split; [|done].
      unfold in_range. apply andb_true_iff. split; [apply Z.leb_le | apply Z.ltb_lt]; lia. }
    rewrite Hnil in H. by apply elem_of_nil in H.
  - intros Hall. apply filter_none. intros f Hin Hr. apply (Hall f Hin).
    unfold in_range in Hr. apply andb_true_iff in Hr as [H1 H2].
    apply Z.leb_le in H1. apply Z.ltb_lt in H2. lia.
Qed.

Lemma step_count_run_op st o : step_count st ≤ step_count (run_op st o).
Proof.
  destruct o as [n rq rs r | f s | a r c f | c | f]; simpl; try lia.
  - unfold add_execution.
    match goal with
    | |- _ ≤ step_count (_extract_observations ?s ?a ?b).1 =>
        destruct (extract_observations_frame s a b) as (-> & _)
    end.
    simpl. lia.
  - unfold add_excluded_cause. case_bool_decide; simpl; lia.
Qed.

Lemma findings_run_op st o f :
  f ∈ findings st → f ∈ findings (run_op st o).
Proof.
  destruct o as [n rq rs r | x s | a r c x | c | x]; simpl; try done.
  - unfold add_execution.
    match goal with
    | |- _ → _ ∈ findings (_extract_observations ?s ?a ?b).1 =>
        destruct (extract_observations_frame s a b)
          as (_ & _ & _ & -> & _)
    end.
    done.
  - intros H. apply elem_of_app. by left.
  - unfold add_excluded_cause. by case_bool_decide.
Qed.

End Policy.

(** X4: below the step limit, a finding of severity "high" makes
    [should_continue] answer (False, "找到关键问题"), whatever else the
    session holds. *)
Theorem critical_finding_stops (st : State.t) (max_steps : Z) :
  (Z.of_nat (State.step_count st) < max_steps)%Z →
  (∃ f, f ∈ State.findings st ∧ State.f_severity f = u "high") →
  State.should_continue st max_steps = (false, State.reason_critical).
Proof.
  intros Hlt Hhigh. unfold State.should_continue.
  rewrite (proj2 (Z.leb_gt _ _) Hlt).
  by rewrite (proj2 (has_critical_iff st) Hhigh).
Qed.

(** X4 on a session at step 1 that recorded a high-severity finding, with
    the default limit of 20 steps. *)
Lemma critical_finding_stops_witness :
  State.should_continue Samples.one_step_high 20
  = (false, State.reason_critical).
Proof.
  apply critical_finding_stops.
  - vm_compute. reflexivity.
  - exists {| State.f_finding := u "CRC错包数异常偏高";
              State.f_severity := u "high";
              State.f_step := 1 |}.
    split; [|reflexivity]. apply list_elem_of_In. vm_compute. by left.
Defined.

(** X5: below the step limit and without a high-severity finding, a
    session of at least 3 steps in which no finding carries one of the
    last three step numbers stops with "连续多步无新发现"; this comes
    before the coverage test, however many tools were used. *)
Theorem stagnation_stops (st : State.t) (max_steps : Z) :
  (Z.of_nat (State.step_count st) < max_steps)%Z →
  (∀ f, f ∈ State.findings st → State.f_severity f ≠ u "high") →
  3 ≤ State.step_count st →
  (∀ f, f ∈ State.findings st →
        ¬ (State.step_count st - 2 ≤ State.f_step f ≤ State.step_count st)) →
  State.should_continue st max_steps = (false, State.reason_stagnation).
Proof.
  intros Hlt Hno Hsc Hwin. unfold State.should_continue.
  rewrite (proj2 (Z.leb_gt _ _) Hlt).
  destruct (State._has_critical_finding st) eqn:Hc.
  { apply has_critical_iff in Hc as (f & Hin & Hf). by destruct (Hno f Hin). }
  rewrite (proj2 (no_new_findings_iff st Hsc) Hwin).
  by rewrite (proj2 (Nat.leb_le _ _) Hsc).
Qed.

(** X5 on a session of three recorded actions and no finding. *)
Lemma stagnation_stops_witness :
  State.should_continue Samples.three_quiet_steps 20
  = (false, State.reason_stagnation).
Proof.
  apply stagnation_stops.
  - vm_compute. reflexivity.
  - intros f Hf. vm_compute in Hf. by apply elem_of_nil in Hf.
  - vm_compute. lia.
  - intros f Hf. vm_compute in Hf. by apply elem_of_nil in Hf.
Defined.

(** X6: [should_continue] answers True, and then with the reason
    "继续诊断", exactly when the step counter is below the limit, no
    finding has severity "high", fewer than 8 distinct usage entries
    exist, and either fewer than 3 steps were taken or some finding
    carries one of the last three step numbers. *)
Theorem continues_exactly_when (st : State.t) (max_steps : Z) :
  ((State.should_continue st max_steps).1 = true
   ↔ (Z.of_nat (State.step_count st) < max_steps)%Z
     ∧ (∀ f, f ∈ State.findings st → State.f_severity f ≠ u "high")
     ∧ length (State.tool_usage_count st) < 8
     ∧ (State.step_count st < 3
        ∨ ∃ f, f ∈ State.findings st
               ∧ State.step_count st - 2 ≤ State.f_step f
                 ≤ State.step_count st))
  ∧ ((State.should_continue st max_steps).1 = true →
     (State.should_continue st max_steps).2 = State.reason_in_progress).
Proof.
  unfold State.should_continue.
  destruct (max_steps <=? Z.of_nat (State.step_count st))%Z eqn:E1.
  { apply Z.leb_le in E1. split; [|done]. split; [done|]. lia. }
  apply Z.leb_gt in E1.
  destruct (State._has_critical_finding st) eqn:E2.
  { apply has_critical_iff in E2 as (f & Hin & Hf). split; [|done].
    split; [done|]. intros (_ & Hno & _). by destruct (Hno f Hin). }
  assert (Hno : ∀ f, f ∈ State.findings st → State.f_severity f ≠ u "high").
  { intros f Hin Hf.
    assert (State._has_critical_finding st = true)
      by (apply has_critical_iff; eauto).
    congruence. }
  destruct (3 <=? State.step_count st) eqn:E3.
  - apply Nat.leb_le in E3.
    destruct (State._no_new_findings_recently st 3) eqn:E4; simpl.
    + split; [|done]. split; [done|]. intros (_ & _ & _ & [Hlt|(f & Hin & Hw)]).
      * lia.
      * destruct (proj1 (no_new_findings_iff st E3) E4 f Hin Hw).
    + assert (Hex : ∃ f, f ∈ State.findings st
                         ∧ State.step_count st - 2 ≤ State.f_step f
                           ≤ State.step_count st).
      { destruct (decide (Exists (fun f => State.step_count st - 2
                                           ≤ State.f_step f
                                           ≤ State.step_count st)
                                 (State.findings st))) as [Hx|Hx].
        - apply Exists_exists in Hx as (f & Hin & Hw). by exists f.
        - assert (State._no_new_findings_recently st 3 = true).
          { apply no_new_findings_iff; [done|]. intros f Hin Hw.
            apply Hx, Exists_exists. by exists f. }
          congruence. }
      unfold State._sufficient_coverage.
      destruct (8 <=? length (State.tool_usage_count st)) eqn:E5; simpl.
      * apply Nat.leb_le in E5. split; [|done]. split; [done|]. lia.
      * apply Nat.leb_gt in E5. split; [|done]. split; [|done].
        intros _. repeat split; try done. by right.
  - apply Nat.leb_gt in E3. rewrite andb_false_r.
    unfold State._sufficient_coverage.
    destruct (8 <=? length (State.tool_usage_count st)) eqn:E5; simpl.
    + apply Nat.leb_le in E5. split; [|done]. split; [done|]. lia.
    + apply Nat.leb_gt in E5. split; [|done]. split; [|done].
      intros _. repeat split; try done. by left.
Qed.

(** X7: a stop for the step limit or for a high-severity finding is
    final: whatever methods are called on the session afterwards (the step
    counter never decreases, findings are never removed),
    [should_continue] keeps answering False. *)
Theorem stop_is_final (st : State.t) (max_steps : Z) (os : list State.op) :
  (max_steps <= Z.of_nat (State.step_count st))%Z
  ∨ State._has_critical_finding st = true →
  (State.should_continue (State.run_ops st os) max_steps).1 = false.
Proof.
  revert st. unfold State.run_ops.
  induction os as [|o os IH]; intros st H; simpl.
  - unfold State.should_continue. destruct H as [H|H].
    + by rewrite (proj2 (Z.leb_le _ _) H).
    + rewrite H. by destruct (_ <=? _)%Z.
  - apply IH. destruct H as [H|H].
    + left. pose proof (step_count_run_op st o). lia.
    + right. apply has_critical_iff in H as (f & Hin & Hf).
      apply has_critical_iff. exists f. split; [|done].
      by apply findings_run_op.
Qed.

(** X7 on the session with a high-severity finding, followed by two more
    executions. *)
Lemma stop_is_final_witness :
  (State.should_continue
     (State.run_ops Samples.one_step_high
        [State.Execution Samples.query_interface_info Samples.eth0_request
           Samples.up_response [];
         State.Focus (u "光模块")])
     20).1 = false.
Proof.
  apply stop_is_final. right. vm_compute. reflexivity.
Defined.

(* ===================================================================== *)
(** ** Session state: history, excluded causes, context text *)
(* ===================================================================== *)

Lemma slice_last_zero {A} (l : list A) : PyStr.slice_last 0 l = l.
Proof. reflexivity. Qed.

Lemma slice_last_pos {A} (n : Z) (l : list A) :
  (0 < n)%Z →
  PyStr.slice_last n l = drop (length l - Z.to_nat n) l.
Proof. intros H. unfold PyStr.slice_last. by rewrite (proj2 (Z.ltb_lt _ _) H). Qed.

(** X8: [get_recent_tools(n)] returns the names of the last [n] recorded
    actions, all of them when fewer than [n] were recorded; for [n = 0] it
    does not return the empty list but the names of all recorded actions
    ([executed_tools[-0:]] is the whole list). *)
Theorem recent_tools_slice (st : State.t) (n : Z) :
  let names := map State.ex_tool_name (State.executed_tools st) in
  (n = 0%Z → State.get_recent_tools st n = names)
  ∧ ((0 < n)%Z →
     State.get_recent_tools st n = drop (length names - Z.to_nat n) names
     ∧ length (State.get_recent_tools st n)
       = Nat.min (Z.to_nat n) (length names)).
Proof.
  intros names. unfold State.get_recent_tools. split.
  - intros ->. by rewrite slice_last_zero.
  - intros Hn. rewrite slice_last_pos by done. unfold names.
    rewrite !length_map. split.
    + apply (fmap_drop State.ex_tool_name).
    + rewrite length_drop. lia.
Qed.

(** X9: the list of excluded causes never holds a cause twice; a cause is
    in the list after [add_excluded_cause], and adding it again changes
    nothing. *)
Theorem excluded_causes_no_duplicates (os : list State.op) (cause : pystr) :
  let st := State.run_ops State.init os in
  NoDup (State.excluded_causes st)
  ∧ cause ∈ State.excluded_causes (State.add_excluded_cause st cause)
  ∧ State.add_excluded_cause (State.add_excluded_cause st cause) cause
    = State.add_excluded_cause st cause.
Proof.
  intros st.
  destruct (consistent_run_ops os State.init consistent_init)
    as (_ & _ & _ & _ & _ & Hnd).
  split; [done|].
  assert (Hin : cause ∈ State.excluded_causes
                          (State.add_excluded_cause st cause)).
  { unfold State.add_excluded_cause. case_bool_decide; [done|].
    simpl. apply elem_of_app. right. left. }
  split; [done|].
  unfold State.add_excluded_cause at 1.
  by rewrite bool_decide_eq_true_2.
Qed.

Lemma join_prefix (sep p : pystr) (r : list pystr) :
  ∃ rest, PyStr.join sep (p :: r) = p ++ rest.
Proof.
  simpl. revert p. induction r as [|x r IH]; intros p; simpl.
  - exists []. by rewrite app_nil_r.
  - destruct (IH (p ++ sep ++ x)) as [rest ->].
    exists (sep ++ x ++ rest). by rewrite <- !app_assoc.
Qed.

Lemma startswith_app (p s : pystr) : PyStr.startswith p (p ++ s) = true.
Proof.
  induction p as [|c p IH]; simpl; [done|]. by rewrite N.eqb_refl, IH.
Qed.

(** X10: [format_diagnostic_chain] returns the text "暂无诊断逻辑链"
    exactly when the diagnostic chain is empty: no chain with entries
    renders as that text. *)
Theorem chain_text_sentinel (st : State.t) :
  State.format_diagnostic_chain st = State.no_chain
  ↔ State.diagnostic_chain st = [].
Proof.
  unfold State.format_diagnostic_chain.
  destruct (State.diagnostic_chain st) as [|item chain]; [done|].
  split; [|done]. intros H. exfalso.
  cbn [concat map State.chain_lines app] in H.
  match type of H with
  | PyStr.join ?sep (?p :: ?r) = _ =>
      destruct (join_prefix sep p r) as [rest Hj]; rewrite Hj in H
  end.
  apply (f_equal head) in H. vm_compute in H. discriminate H.
Qed.

(** X11: the context text handed to the planner always begins with the
    focus line "当前焦点: " (with "初步诊断" when no focus is set); the
    fallback text "初始状态" of [get_diagnostic_context] is never
    returned. *)
Theorem context_starts_with_focus (st : State.t) :
  PyStr.startswith (u "当前焦点: ") (State.get_diagnostic_context st) = true
  ∧ State.get_diagnostic_context st ≠ State.initial_state_text.
Proof.
  assert (H : PyStr.startswith (u "当前焦点: ")
                (State.get_diagnostic_context st) = true).
  { unfold State.get_diagnostic_context, State.context_lines.
    cbn [app].
    match goal with
    | |- PyStr.startswith _ (PyStr.join ?sep (?p :: ?r)) = true =>
        destruct (join_prefix sep p r) as [rest ->]
    end.
    destruct (State.current_focus st) as [[|c f]|].
    - change (u "当前焦点: 初步诊断") with (u "当前焦点: " ++ u "初步诊断").
      rewrite <- app_assoc. apply startswith_app.
    - rewrite <- app_assoc. apply startswith_app.
    - change (u "当前焦点: 初步诊断") with (u "当前焦点: " ++ u "初步诊断").
      rewrite <- app_assoc. apply startswith_app. }
  split; [done|]. intros E. rewrite E in H. vm_compute in H. discriminate H.
Qed.

(* ===================================================================== *)
(** ** Output generator *)
(* ===================================================================== *)

Section OutputFacts.
Import Output Props.

Lemma well_keyed_length g : well_keyed g → length (steps g) = current_step g.
Proof.
  intros H. apply (f_equal length) in H. by rewrite !length_map, length_seq in H.
Qed.

Lemma well_keyed_last g :
  well_keyed g → 0 < current_step g →
  ∃ done_steps cur,
    steps g = done_steps ++ [cur] ∧ sd_key cur = step_key (current_step g).
Proof.
  intros H Hpos. pose proof (well_keyed_length g H) as Hlen.
  destruct (steps g) as [|s l] eqn:E using rev_ind; [simpl in Hlen; lia|].
  clear IHl. exists l, s. split; [done|].
  unfold well_keyed in H. rewrite E in H.
  destruct (current_step g) as [|n]; [lia|].
  rewrite seq_S, !map_app in H. simpl in H.
  apply app_inj_tail in H as [_ H]. done.
Qed.

Lemma add_action_observation_reachable g name args obs :
  well_keyed g →
  match add_action_observation g name args obs with
  | Ok g' =>
      0 < current_step g ∧ well_keyed g'
      ∧ current_step g' = current_step g
      ∧ known_entities g' = known_entities g
      ∧ ∃ done_steps cur,
          steps g = done_steps ++ [cur]
          ∧ steps g'
            = done_steps
              ++ [{| sd_key := sd_key cur; sd_cot := sd_cot cur;
                     sd_coa := sd_coa cur
                               ++ [{| ao_name := name; ao_args := args;
                                      ao_observation := obs |}] |}]
  | Raise e => e = ValueError ∧ current_step g = 0
  end.
Proof.
  intros Hk. destruct (decide (current_step g = 0)) as [Hz|Hnz].
  - pose proof (well_keyed_length g Hk) as Hlen. rewrite Hz in Hlen.
    apply length_zero_iff_nil in Hlen.
    unfold add_action_observation. by rewrite Hlen.
  - destruct (well_keyed_last g Hk) as (done_steps & cur & Hs & Hkey); [lia|].
    rewrite (add_action_observation_snoc g cur done_steps name args obs Hs Hkey).
    split; [lia|]. split.
    { unfold well_keyed in *. simpl. rewrite Hs in Hk.
      rewrite <- Hk, !map_app. done. }
    split; [done|]. split; [done|]. by exists done_steps, cur.
Qed.

Lemma well_keyed_run_op g o : well_keyed g → well_keyed (run_op g o).
Proof.
  intros Hk. destruct o as [r | n a ob | ty es]; simpl.
  - unfold well_keyed in *. cbn [start_step steps current_step].
    rewrite seq_S, !map_app, Hk. done.
  - pose proof (add_action_observation_reachable g n a ob Hk) as H.
    destruct (add_action_observation g n a ob); [by destruct H as (_ & ? & _) | done].
  - done.
Qed.

Lemma well_keyed_run_ops os : ∀ g, well_keyed g → well_keyed (run_ops g os).
Proof.
  unfold run_ops. induction os as [|o os IH]; intros g H; simpl; [done|].
  by apply IH, well_keyed_run_op.
Qed.

End OutputFacts.

(** X12: in a generator built from a fresh one by its methods,
    [add_action_observation] raises (ValueError) exactly when no step was
    started; otherwise it appends the action-observation pair to the
    newest step and leaves the earlier steps, the step counter and the
    known entities unchanged.  The trace always holds one step per
    [start_step], keyed step1, step2, ... in order. *)
Theorem observation_goes_to_newest_step (os : list Output.op)
    (name : pystr) (args : pydict) (obs : pyval) :
  let g := Output.run_ops Output.init os in
  map Output.sd_key (Output.response (Output.generate_output g []))
  = map Output.step_key (seq 1 (Output.current_step g))
  ∧ match Output.add_action_observation g name args obs with
    | Ok g' =>
        0 < Output.current_step g
        ∧ Output.current_step g' = Output.current_step g
        ∧ Output.known_entities g' = Output.known_entities g
        ∧ ∃ done_steps cur,
            Output.steps g = done_steps ++ [cur]
            ∧ Output.steps g'
              = done_steps
                ++ [{| Output.sd_key := Output.sd_key cur;
                       Output.sd_cot := Output.sd_cot cur;
                       Output.sd_coa :=
                         Output.sd_coa cur
                         ++ [{| Output.ao_name := name;
                                Output.ao_args := args;
                                Output.ao_observation := obs |}] |}]
    | Raise e => e = ValueError ∧ Output.current_step g = 0
    end.
Proof.
  intros g.
  assert (Hk : Props.well_keyed g).
  { apply well_keyed_run_ops. reflexivity. }
  split; [exact Hk|].
  pose proof (add_action_observation_reachable g name args obs Hk) as H.
  destruct (Output.add_action_observation g name args obs);
    [|done]. destruct H as (? & _ & ? & ? & ?). done.
Qed.

(** X13: [extract_entities_from_observation] does not look at its
    [entity_type] argument: whichever type is asked for, the identifiers
    returned are the same. *)
Theorem extraction_ignores_entity_type (observation : pyval)
    (type1 type2 : pystr) :
  Output.extract_entities_from_observation observation type1
  = Output.extract_entities_from_observation observation type2.
Proof. by destruct observation. Qed.

(** X14: in the loop, whenever a single execution yields identifiers, the
    interfaces and the devices known afterwards are the same list: both
    registries are overwritten with the identifiers extracted from that
    observation. *)
Theorem single_execution_fills_both_registries
    (execute_tool : nat -> pystr -> pydict -> pyval)
    (p : Agent.plan) (o o' : Agent.outcome) (response : pyval) :
  Agent.single execute_tool p o = Ok (o', response) →
  Output.extract_entities_from_observation response (u "interface") ≠ [] →
  Output.get_known_entities (Agent.o_output o') Agent.interfaces
  = Output.extract_entities_from_observation response (u "interface")
  ∧ Output.get_known_entities (Agent.o_output o') Agent.devices
    = Output.get_known_entities (Agent.o_output o') Agent.interfaces.
Proof.
  intros Hrun Hne.
  pose proof (single_replaces_known_interfaces _ _ _ _ _ Hrun) as Hi.
  destruct (Output.extract_entities_from_observation response (u "interface"))
    as [|e l] eqn:E; [done|].
  split; [done|]. rewrite Hi.
  assert (Hsame :
    Output.extract_entities_from_observation response (u "device")
    = Output.extract_entities_from_observation response (u "interface"))
    by (by destruct response).
  unfold Agent.single in Hrun.
  destruct (Output.add_action_observation _ _ _ _) as [g|];
    cbn [mbind result_bind] in Hrun; [|done].
  destruct (State.add_execution _ _ _ _ _).2;
    cbn [mbind result_bind] in Hrun; [|done].
  injection Hrun as <- <-. cbn [Agent.o_output].
  rewrite Hsame, E.
  unfold Output.get_known_entities, Output.update_known_entities; simpl.
  by rewrite lookup_insert_eq.
Qed.

(** X14 on the observation [{"status": "down", "interface": "eth0"}]. *)
Lemma single_execution_fills_both_registries_witness :
  ∃ o' response,
    Agent.single Samples.reports Samples.check_interface Samples.started
    = Ok (o', response)
    ∧ Output.get_known_entities (Agent.o_output o') Agent.interfaces
      = Output.extract_entities_from_observation response (u "interface")
    ∧ Output.get_known_entities (Agent.o_output o') Agent.devices
      = Output.get_known_entities (Agent.o_output o') Agent.interfaces.
Proof.
  destruct (Agent.single Samples.reports Samples.check_interface
              Samples.started) as [[o' response]|] eqn:Hrun;
    [|vm_compute in Hrun; discriminate Hrun].
  exists o', response. split; [reflexivity|].
  apply (single_execution_fills_both_registries _ _ _ _ _ Hrun).
  vm_compute in Hrun. injection Hrun as <- <-. vm_compute. discriminate.
Defined.

(* ===================================================================== *)
(** ** One iteration of the loop *)
(* ===================================================================== *)

Section Iteration.
Variable py_repr : pyval -> pystr.
Variable execute_tool : nat -> pystr -> pydict -> pyval.

Lemma add_execution_dict st name req d reasoning :
  State.add_execution st name req (PDict d) reasoning
  = ((State.add_execution st name req (PDict d) reasoning).1, Ok tt).
Proof. reflexivity. Qed.

Lemma add_execution_lengths st name req resp reasoning :
  let st' := (State.add_execution st name req resp reasoning).1 in
  State.step_count st' = S (State.step_count st)
  ∧ State.executed_tools st'
    = State.executed_tools st
      ++ [{| State.ex_step := S (State.step_count st);
             State.ex_tool_name := name;
             State.ex_tool_request := req;
             State.ex_tool_response := resp;
             State.ex_reasoning := reasoning |}]
  ∧ State.findings st' = State.findings st
  ∧ State.diagnostic_chain st' = State.diagnostic_chain st.
Proof.
  unfold State.add_execution. cbv zeta.
  match goal with
  | |- context [State._extract_observations ?s ?a ?b] =>
      destruct (extract_observations_frame s a b)
        as (E1 & E2 & _ & E4 & E5 & _)
  end.
  by rewrite E1, E2, E4, E5.
Qed.

End Iteration.

Lemma single_on_started (execute_tool : nat -> pystr -> pydict -> pyval)
    (p : Agent.plan) (st : State.t) (g : Output.t) (d : pydict) :
  execute_tool 0 (Agent.tool_name p) (Agent.tool_request p) = PDict d →
  ∃ g',
    Agent.single execute_tool p
      {| Agent.o_state := st;
         Agent.o_output := Output.start_step g (Agent.reasoning p);
         Agent.o_executed := [] |}
    = Ok ({| Agent.o_state :=
               (State.add_execution st (Agent.tool_name p)
                  (Agent.tool_request p) (PDict d) (Agent.reasoning p)).1;
             Agent.o_output := g';
             Agent.o_executed :=
               [(Agent.tool_name p, Agent.tool_request p)] |}, PDict d)
    ∧ Output.steps g'
      = Output.steps g
        ++ [{| Output.sd_key := Output.step_key (S (Output.current_step g));
               Output.sd_cot := Agent.reasoning p;
               Output.sd_coa :=
                 [{| Output.ao_name := Agent.tool_name p;
                     Output.ao_args := Agent.tool_request p;
                     Output.ao_observation := PDict d |}] |}].
Proof.
  intros Hd. unfold Agent.single.
  cbn [Agent.o_executed Agent.o_output Agent.o_state length]. rewrite Hd.
  erewrite add_action_observation_snoc by (simpl; reflexivity).
  cbn [mbind result_bind]. rewrite add_execution_dict.
  cbn [fst snd mbind result_bind app].
  eexists. split; [reflexivity|].
  destruct (Output.extract_entities_from_observation (PDict d) (u "device"));
    destruct (Output.extract_entities_from_observation (PDict d)
                (u "interface")); reflexivity.
Qed.

Lemma run_plan_single_dict (py_repr : pyval -> pystr)
    (execute_tool : nat -> pystr -> pydict -> pyval)
    (p : Agent.plan) (st : State.t) (g : Output.t) (d : pydict) :
  Output.should_batch_execute (Agent.reasoning p)
    (Agent._get_relevant_entities g (Agent.tool_name p)) = false →
  execute_tool 0 (Agent.tool_name p) (Agent.tool_request p) = PDict d →
  ∃ o,
    Agent.run_plan py_repr execute_tool p st g = Ok o
    ∧ Agent.o_executed o = [(Agent.tool_name p, Agent.tool_request p)]
    ∧ State.step_count (Agent.o_state o) = S (State.step_count st)
    ∧ State.executed_tools (Agent.o_state o)
      = State.executed_tools st
        ++ [{| State.ex_step := S (State.step_count st);
               State.ex_tool_name := Agent.tool_name p;
               State.ex_tool_request := Agent.tool_request p;
               State.ex_tool_response := PDict d;
               State.ex_reasoning := Agent.reasoning p |}]
    ∧ length (State.diagnostic_chain (Agent.o_state o))
      = S (length (State.diagnostic_chain st))
    ∧ (State.findings (Agent.o_state o) = State.findings st
       ∨ ∃ f, State.findings (Agent.o_state o) = State.findings st ++ [f]
              ∧ State.f_step f = S (State.step_count st))
    ∧ Output.steps (Agent.o_output o)
      = Output.steps g
        ++ [{| Output.sd_key := Output.step_key (S (Output.current_step g));
               Output.sd_cot := Agent.reasoning p;
               Output.sd_coa :=
                 [{| Output.ao_name := Agent.tool_name p;
                     Output.ao_args := Agent.tool_request p;
                     Output.ao_observation := PDict d |}] |}].
Proof.
  intros Hb Hd. unfold Agent.run_plan.
  change (Agent._get_relevant_entities
            (Output.start_step g (Agent.reasoning p)) (Agent.tool_name p))
    with (Agent._get_relevant_entities g (Agent.tool_name p)).
  destruct (single_on_started execute_tool p st g d Hd) as (g' & Hsingle & Hg').
  destruct (add_execution_lengths st (Agent.tool_name p)
              (Agent.tool_request p) (PDict d) (Agent.reasoning p))
    as (E1 & E2 & E3 & E4).
  assert (Hrun :
    (match Agent._get_relevant_entities g (Agent.tool_name p) with
     | [] => Agent.single execute_tool p
               {| Agent.o_state := st;
                  Agent.o_output := Output.start_step g (Agent.reasoning p);
                  Agent.o_executed := [] |}
     | first :: _ =>
         if (1 <? length (Agent._get_relevant_entities g (Agent.tool_name p)))
            && Output.should_batch_execute (Agent.reasoning p)
                 (Agent._get_relevant_entities g (Agent.tool_name p))
         then Agent.batch_loop execute_tool p first
                (Agent._get_relevant_entities g (Agent.tool_name p))
                {| Agent.o_state := st;
                   Agent.o_output := Output.start_step g (Agent.reasoning p);
                   Agent.o_executed := [] |} PNone
         else Agent.single execute_tool p
                {| Agent.o_state := st;
                   Agent.o_output := Output.start_step g (Agent.reasoning p);
                   Agent.o_executed := [] |}
     end)
    = Agent.single execute_tool p
        {| Agent.o_state := st;
           Agent.o_output := Output.start_step g (Agent.reasoning p);
           Agent.o_executed := [] |}).
  { rewrite Hb, andb_false_r.
    by destruct (Agent._get_relevant_entities g (Agent.tool_name p)). }
  rewrite Hrun, Hsingle. cbn [mbind result_bind fst snd].
  eexists. split; [reflexivity|].
  cbn [Agent.o_executed Agent.o_state Agent.o_output].
  split; [reflexivity|].
  destruct (Agent._analyze_tool_response py_repr (Agent.tool_name p)
              (PDict d)) as [f|];
    cbn [State.update_diagnostic_chain State.add_finding State.step_count
         State.executed_tools State.diagnostic_chain State.findings];
    rewrite ?E1, ?E2, ?E3, ?E4, ?length_app;
    (split; [reflexivity|]); (split; [reflexivity|]);
    (split; [simpl; lia|]);
    (split; [first [by left | right; eexists; split; reflexivity]|]);
    exact Hg'.
Qed.




(* ===================================================================== *)
(** ** The batch branch in a run *)
(* ===================================================================== *)

Section Runs.
Import Props.

Lemma at_most_one_init : at_most_one Output.init.
Proof.
  intros k. unfold Output.get_known_entities. simpl.
  rewrite lookup_empty. simpl. lia.
Qed.

Lemma at_most_one_known g g' :
  Output.known_entities g' = Output.known_entities g →
  at_most_one g → at_most_one g'.
Proof.
  intros E H k. unfold Output.get_known_entities. rewrite E. apply H.
Qed.

Lemma at_most_one_update g entity_type entities :
  at_most_one g → length entities ≤ 1 →
  at_most_one (Output.update_known_entities g entity_type entities).
Proof.
  intros H Hl k. unfold Output.get_known_entities. simpl.
  destruct (decide (entity_type = k)) as [->|Hne].
  - by rewrite lookup_insert_eq.
  - rewrite lookup_insert_ne by done. apply H.
Qed.

Lemma extract_from_dict d entity_type :
  length (Output.extract_entities_from_observation (PDict d) entity_type) ≤ 1.
Proof. simpl. destruct (Output.first_entity d); simpl; lia. Qed.

Lemma relevant_at_most_one g name :
  at_most_one g → length (Agent._get_relevant_entities g name) ≤ 1.
Proof.
  intros H. unfold Agent._get_relevant_entities.
  repeat case_match; try apply H. simpl. lia.
Qed.

(** The single branch on a step that was just started. *)
Lemma single_once (execute_tool : nat -> pystr -> pydict -> pyval)
    (p : Agent.plan) (st : State.t) (g : Output.t) o r :
  at_most_one g →
  Agent.single execute_tool p
    {| Agent.o_state := st;
       Agent.o_output := Output.start_step g (Agent.reasoning p);
       Agent.o_executed := [] |} = Ok (o, r) →
  Agent.o_executed o = [(Agent.tool_name p, Agent.tool_request p)]
  ∧ length (State.executed_tools (Agent.o_state o))
    = S (length (State.executed_tools st))
  ∧ at_most_one (Agent.o_output o)
  ∧ ∃ sd, last (Output.steps (Agent.o_output o)) = Some sd
          ∧ length (Output.sd_coa sd) = 1.
Proof.
  intros Hg. unfold Agent.single.
  cbn [Agent.o_executed Agent.o_output Agent.o_state length].
  set (resp := execute_tool 0 (Agent.tool_name p) (Agent.tool_request p)).
  erewrite add_action_observation_snoc by (simpl; reflexivity).
  cbn [mbind result_bind].
  destruct (add_execution_lengths st (Agent.tool_name p)
              (Agent.tool_request p) resp (Agent.reasoning p))
    as (_ & E2 & _ & _).
  assert (Hresp : (State.add_execution st (Agent.tool_name p)
                     (Agent.tool_request p) resp (Agent.reasoning p)).2
                  = Ok tt → ∃ d, resp = PDict d).
  { unfold State.add_execution, State._extract_observations. cbv zeta.
    destruct resp; simpl; try done. eauto. }
  destruct (State.add_execution st (Agent.tool_name p)
              (Agent.tool_request p) resp (Agent.reasoning p))
    as [st' [[]|e]]; cbn [fst snd mbind result_bind] in *; [|done].
  destruct (Hresp eq_refl) as [d Hd]. rewrite Hd.
  pose proof (extract_from_dict d (u "interface")) as Hi.
  pose proof (extract_from_dict d (u "device")) as Hdv.
  set (g1 := {| Output.current_step := _; Output.steps := _;
                Output.known_entities := _ |}).
  assert (Hg1 : at_most_one g1)
    by (apply (at_most_one_known g); [reflexivity | exact Hg]).
  intros [= <- _]. cbn [Agent.o_executed Agent.o_state Agent.o_output app].
  split; [done|]. split; [rewrite E2, length_app; simpl; lia|].
  match goal with
  | |- at_most_one ?g2 ∧ _ =>
      assert (H2 : at_most_one g2 ∧ Output.steps g2 = Output.steps g1)
  end.
  { unfold Output.extract_entities_from_observation in *.
    destruct (Output.first_entity d); (split; [|reflexivity]);
      repeat apply at_most_one_update; assumption. }
  destruct H2 as [H2 H3]. split; [exact H2|]. rewrite H3.
  unfold g1. cbn [Output.steps]. rewrite last_snoc.
  eexists. split; reflexivity.
Qed.

Lemma run_plan_once (py_repr : pyval -> pystr)
    (execute_tool : nat -> pystr -> pydict -> pyval)
    (p : Agent.plan) (st : State.t) (g : Output.t) (o : Agent.outcome) :
  at_most_one g →
  Agent.run_plan py_repr execute_tool p st g = Ok o →
  Agent.o_executed o = [(Agent.tool_name p, Agent.tool_request p)]
  ∧ length (State.executed_tools (Agent.o_state o))
    = S (length (State.executed_tools st))
  ∧ at_most_one (Agent.o_output o)
  ∧ ∃ sd, last (Output.steps (Agent.o_output o)) = Some sd
          ∧ length (Output.sd_coa sd) = 1.
Proof.
  intros Hg. unfold Agent.run_plan. cbv zeta.
  pose proof (relevant_at_most_one
                (Output.start_step g (Agent.reasoning p)) (Agent.tool_name p)
                (at_most_one_known g _ eq_refl Hg)) as Hrel.
  match goal with
  | |- context [mbind _ ?c] =>
      assert (Hc : c = Agent.single execute_tool p
                         {| Agent.o_state := st;
                            Agent.o_output :=
                              Output.start_step g (Agent.reasoning p);
                            Agent.o_executed := [] |})
  end.
  { destruct (Agent._get_relevant_entities _ _) as [|first rest]; [done|].
    destruct rest as [|second rest]; [done|]. simpl in Hrel. lia. }
  rewrite Hc.
  destruct (Agent.single _ _ _) as [[o' r]|e] eqn:E; [|done].
  cbn [mbind result_bind fst snd]. intros [= <-].
  destruct (single_once execute_tool p st g o' r Hg E)
    as (H1 & H2 & H4 & H5).
  cbn [Agent.o_executed Agent.o_state Agent.o_output].
  split; [done|]. split; [|done].
  destruct (Agent._analyze_tool_response _ _ _); exact H2.
Qed.

Lemma read_plan_fields plan p :
  Agent.read_plan plan = Agent.Read p →
  ODict.get Planner.k_tool_name plan = Some (PStr (Agent.tool_name p))
  ∧ ODict.get Planner.k_tool_request plan
    = Some (PDict (Agent.tool_request p)).
Proof.
  unfold Agent.read_plan. repeat case_match; try done.
  by intros [= <-].
Qed.

Lemma run_at_most_one (py_repr : pyval -> pystr) (turns : list Agent.turn) :
  ∀ st g st' g',
    at_most_one g →
    Agent.run py_repr turns st g = Some (Ok (st', g')) →
    at_most_one g'.
Proof.
  induction turns as [|t turns IH]; intros st g st' g' Hg; simpl.
  - by intros [= _ <-].
  - destruct (Agent.iteration py_repr (Agent.t_execute t) (Agent.t_plan t)
                st g) as [[o|e]|] eqn:E; [|done|done].
    apply IH. unfold Agent.iteration in E.
    destruct (Agent.read_plan (Agent.t_plan t)) as [p| | |];
      [|done|done|done].
    injection E as E. by apply run_plan_once in E as (_ & _ & ? & _).
Qed.

End Runs.






(* ===================================================================== *)
(** ** Candidate rounds and scores *)
(* ===================================================================== *)

Section Rounds.
Import Planner Props.

Lemma candidates_loop_fails tm replies :
  LlmFails ∈ replies →
  ∀ acc, ∃ e, candidates_loop tm replies acc = Raise e.
Proof.
  induction replies as [|r replies IH]; intros Hin acc.
  - by apply elem_of_nil in Hin.
  - simpl. destruct r as [|v]; [eauto|].
    apply elem_of_cons in Hin as [Hin|Hin]; [done|].
    destruct (named_candidate v) as [[tool_name|]|]; simpl; [| |eauto].
    + destruct (Tools.is_valid_tool tm tool_name); simpl; [|eauto].
      apply IH, Hin.
    + apply IH, Hin.
Qed.

Lemma candidates_loop_length tm replies : ∀ acc cs,
  candidates_loop tm replies acc = Ok cs →
  length cs ≤ length acc + length replies.
Proof.
  induction replies as [|r replies IH]; intros acc cs; simpl.
  - intros [= <-]. lia.
  - destruct r as [|v]; [done|].
    destruct (named_candidate v) as [[tool_name|]|]; simpl; [| |done].
    + destruct (Tools.is_valid_tool tm tool_name) as [[|]|]; simpl; [| |done];
        intros H%IH; rewrite ?length_app in H; simpl in H; lia.
    + intros H%IH. lia.
Qed.

Lemma candidates_loop_order tm replies : ∀ acc cs,
  candidates_loop tm replies acc = Ok cs →
  ∃ new, cs = acc ++ new ∧ new `sublist_of` omap reply_value replies.
Proof.
  induction replies as [|r replies IH]; intros acc cs; simpl.
  - intros [= <-]. exists []. by rewrite app_nil_r.
  - destruct r as [|v]; [done|]. cbn [reply_value].
    destruct (named_candidate v) as [[tool_name|]|]; simpl; [| |done].
    + destruct (Tools.is_valid_tool tm tool_name) as [[|]|]; simpl;
        [| |done]; intros (new & -> & Hsub)%IH.
      * exists (v :: new). rewrite <- app_assoc. split; [done|].
        by apply sublist_skip.
      * exists new. split; [done|]. by apply sublist_cons.
    + intros (new & -> & Hsub)%IH. exists new. split; [done|].
      by apply sublist_cons.
Qed.

End Rounds.

(** X17: one failing request discards the whole round: if any of the
    [top_k] requests of a round raises, [_get_tool_candidates] returns the
    empty list, the valid candidates obtained before it included. *)
Theorem failed_request_discards_round (tm : Tools.t)
    (llm : nat -> Planner.llm_reply) (top_k i : nat) :
  i < top_k →
  llm i = Planner.LlmFails →
  Planner._get_tool_candidates tm llm top_k = [].
Proof.
  intros Hi Hfail. unfold Planner._get_tool_candidates, try_except.
  destruct (candidates_loop_fails tm (map llm (seq 0 top_k))) with (acc := @nil pyval)
    as [e ->]; [|done].
  rewrite <- Hfail. apply list_elem_of_fmap. exists i. split; [done|].
  apply elem_of_seq. lia.
Qed.

(** X17 on a round whose first reply is a valid candidate and whose second
    request fails. *)
Lemma failed_request_discards_round_witness :
  Planner._get_tool_candidates Samples.one_tool Samples.second_request_fails 3
  = [].
Proof.
  apply (failed_request_discards_round Samples.one_tool
           Samples.second_request_fails 3 1); [lia | reflexivity].
Defined.

(** X18: a round yields at most [top_k] candidates; they are replies of
    that round, in the order of the requests (a subsequence of the
    values the requests returned), and each is a JSON object whose
    ["tool_name"] is a string accepted by [is_valid_tool]. *)
Theorem round_candidates_are_valid_replies (tm : Tools.t)
    (llm : nat -> Planner.llm_reply) (top_k : nat) :
  length (Planner._get_tool_candidates tm llm top_k) ≤ top_k
  ∧ Planner._get_tool_candidates tm llm top_k
    `sublist_of` omap Props.reply_value (map llm (seq 0 top_k))
  ∧ ∀ c, c ∈ Planner._get_tool_candidates tm llm top_k →
      (∃ i, i < top_k ∧ llm i = Planner.LlmJson c)
      ∧ ∃ d name,
          c = PDict d
          ∧ ODict.get Planner.k_tool_name d = Some (PStr name)
          ∧ Tools.is_valid_tool tm (PStr name) = Ok true.
Proof.
  split; [|split].
  - unfold Planner._get_tool_candidates, try_except.
    destruct (Planner.candidates_loop tm _ []) as [cs|] eqn:E; [|simpl; lia].
    apply candidates_loop_length in E.
    rewrite length_map, length_seq in E. simpl in E. lia.
  - unfold Planner._get_tool_candidates, try_except.
    destruct (Planner.candidates_loop tm _ []) as [cs|] eqn:E;
      [|apply sublist_nil_l].
    by apply candidates_loop_order in E as (new & -> & Hsub).
  - intros c Hc. apply get_tool_candidates_survivors in Hc as [Hin Hc].
    split; [|done].
    apply list_elem_of_fmap in Hin as (i & Hi & Hseq).
    apply elem_of_seq in Hseq. exists i. split; [lia | done].
Qed.

(* ===================================================================== *)
(** ** Rounding to the nearest float *)
(* ===================================================================== *)

Section FloatFacts.

Lemma pow2_pos e : (0 < Py.pow2 e)%Q.
Proof. by apply Qpower_0_lt. Qed.

Lemma pow2_add a b : (Py.pow2 (a + b) == Py.pow2 a * Py.pow2 b)%Q.
Proof. unfold Py.pow2. by apply Qpower_plus. Qed.

Lemma pow2_Z n : (0 <= n)%Z → (inject_Z (2 ^ n) == Py.pow2 n)%Q.
Proof. intros H. unfold Py.pow2. by rewrite Zpower_Qpower. Qed.

Lemma pow2_le a b : (a <= b)%Z → (Py.pow2 a <= Py.pow2 b)%Q.
Proof. intros H. by apply Qpower_le_compat_l. Qed.

Lemma pow2_lt_inv a b : (Py.pow2 a < Py.pow2 b)%Q → (a < b)%Z.
Proof. intros H. by apply (Qpower_lt_compat_l_inv 2). Qed.

Lemma ilog2_spec q :
  (0 < q)%Q → (Py.pow2 (Py.ilog2 q) <= q)%Q ∧ (q < Py.pow2 (Py.ilog2 q + 1))%Q.
Proof.
  destruct q as [a b]. intros Hq.
  assert (Ha : (0 < a)%Z) by (unfold Qlt in Hq; simpl in Hq; lia).
  pose proof (Z.log2_spec a Ha) as [Ha1 Ha2].
  pose proof (Z.log2_spec (Zpos b) (Pos2Z.is_pos b)) as [Hb1 Hb2].
  pose proof (Z.log2_nonneg a) as Hla.
  pose proof (Z.log2_nonneg (Zpos b)) as Hlb.
  set (la := Z.log2 a) in *. set (lb := Z.log2 (Zpos b)) in *.
  rewrite Zle_Qle in Ha1, Hb1. rewrite Zlt_Qlt in Ha2, Hb2.
  rewrite pow2_Z in Ha1, Hb1, Ha2, Hb2 by lia.
  assert (Hab : (a # b == inject_Z a / inject_Z (Zpos b))%Q)
    by apply Qmake_Qdiv.
  assert (Hbpos : (0 < inject_Z (Zpos b))%Q)
    by (change 0%Q with (inject_Z 0); rewrite <- Zlt_Qlt; lia).
  unfold Py.ilog2. cbn [Qnum Qden]. fold la lb.
  destruct (Qle_bool (Py.pow2 (la - lb)) (a # b)) eqn:E.
  - apply Qle_bool_iff in E. split; [done|].
    rewrite Hab. apply Qlt_shift_div_r; [done|].
    assert (H1 : (Py.pow2 (Z.succ la) == Py.pow2 (la - lb + 1) * Py.pow2 lb)%Q).
    { rewrite <- pow2_add. by replace (la - lb + 1 + lb)%Z with (Z.succ la) by lia. }
    pose proof (pow2_pos (la - lb + 1)) as Hp.
    eapply Qlt_le_trans; [exact Ha2|]. rewrite H1.
    by apply Qmult_le_l.
  - split.
    + rewrite Hab. apply Qle_shift_div_l; [done|].
      assert (H1 : (Py.pow2 la == Py.pow2 (la - lb - 1) * Py.pow2 (Z.succ lb))%Q).
      { rewrite <- pow2_add. by replace (la - lb - 1 + Z.succ lb)%Z with la by lia. }
      pose proof (pow2_pos (la - lb - 1)) as Hp.
      eapply Qle_trans; [|exact Ha1]. rewrite H1.
      apply Qmult_le_l; [done|]. by apply Qlt_le_weak.
    + replace (la - lb - 1 + 1)%Z with (la - lb)%Z by lia.
      apply Qnot_le_lt. intros H%Qle_bool_iff. congruence.
Qed.

Lemma rne_bounds x :
  (x - (1 # 2) <= inject_Z (Py.rne x))%Q ∧ (inject_Z (Py.rne x) <= x + (1 # 2))%Q.
Proof.
  unfold Py.rne. pose proof (Qfloor_le x) as H1. pose proof (Qlt_floor x) as H2.
  rewrite inject_Z_plus in H2. change (inject_Z 1) with 1%Q in H2.
  destruct (Qcompare_spec (x - inject_Z (Qfloor x)) (1 # 2)) as [E|E|E].
  - destruct (Z.even (Qfloor x)); rewrite ?inject_Z_plus;
      change (inject_Z 1) with 1%Q; split; lra.
  - split; lra.
  - rewrite inject_Z_plus. change (inject_Z 1) with 1%Q. split; lra.
Qed.

Lemma rne_comp x y : (x == y)%Q → Py.rne x = Py.rne y.
Proof.
  intros H. unfold Py.rne. rewrite <- (Qfloor_comp x y H).
  replace (y - inject_Z (Qfloor x) ?= 1 # 2)%Q
    with (x - inject_Z (Qfloor x) ?= 1 # 2)%Q; [done|].
  apply Qcompare_comp; [lra | reflexivity].
Qed.

Lemma rne_mono x y : (x <= y)%Q → (Py.rne x <= Py.rne y)%Z.
Proof.
  intros H. destruct (Z.le_gt_cases (Py.rne x) (Py.rne y)) as [|Hgt]; [done|].
  exfalso.
  assert (H1 : (Py.rne y + 1 <= Py.rne x)%Z) by lia.
  rewrite Zle_Qle in H1. rewrite inject_Z_plus in H1.
  change (inject_Z 1) with 1%Q in H1.
  destruct (rne_bounds x) as [_ Hx]. destruct (rne_bounds y) as [Hy _].
  assert (E : (x == y)%Q) by lra.
  apply rne_comp in E. lia.
Qed.

Lemma rne_Z k : Py.rne (inject_Z k) = k.
Proof.
  unfold Py.rne. rewrite Qfloor_Z.
  replace (inject_Z k - inject_Z k ?= 1 # 2)%Q with Lt; [done|].
  symmetry. apply Qlt_alt. ring_simplify (inject_Z k - inject_Z k)%Q. reflexivity.
Qed.

Lemma scaled_bounds q :
  (0 < q)%Q →
  (Py.pow2 52 <= q / Py.pow2 (Py.ilog2 q - 52))%Q
  ∧ (q / Py.pow2 (Py.ilog2 q - 52) <= Py.pow2 53)%Q.
Proof.
  intros Hq. destruct (ilog2_spec q Hq) as [H1 H2].
  pose proof (pow2_pos (Py.ilog2 q - 52)) as Hp. split.
  - apply Qle_shift_div_l; [done|]. rewrite <- pow2_add.
    by replace (52 + (Py.ilog2 q - 52))%Z with (Py.ilog2 q) by lia.
  - apply Qle_shift_div_r; [done|]. rewrite <- pow2_add.
    replace (53 + (Py.ilog2 q - 52))%Z with (Py.ilog2 q + 1)%Z by lia.
    by apply Qlt_le_weak.
Qed.

Lemma round_pos_bounds q :
  (0 < q)%Q →
  (Py.pow2 (Py.ilog2 q) <= Py.round_pos q)%Q ∧ (Py.round_pos q <= Py.pow2 (Py.ilog2 q + 1))%Q.
Proof.
  intros Hq. destruct (scaled_bounds q Hq) as [H1 H2].
  pose proof (pow2_pos (Py.ilog2 q - 52)) as Hp.
  unfold Py.round_pos. cbv zeta.
  apply rne_mono in H1, H2.
  assert (E : ∀ n, (0 <= n)%Z → Py.rne (Py.pow2 n) = (2 ^ n)%Z).
  { intros n Hn. rewrite <- (rne_comp (inject_Z (2 ^ n)) (Py.pow2 n));
      [apply rne_Z | by apply pow2_Z]. }
  rewrite E in H1, H2 by lia.
  rewrite Zle_Qle in H1, H2. rewrite pow2_Z in H1, H2 by lia. split.
  - replace (Py.ilog2 q) with (52 + (Py.ilog2 q - 52))%Z at 1 by lia.
    rewrite pow2_add. apply Qmult_le_compat_r; [done | by apply Qlt_le_weak].
  - replace (Py.ilog2 q + 1)%Z with (53 + (Py.ilog2 q - 52))%Z by lia.
    rewrite pow2_add. apply Qmult_le_compat_r; [done | by apply Qlt_le_weak].
Qed.

Lemma round_pos_mono x y :
  (0 < x)%Q → (x <= y)%Q → (Py.round_pos x <= Py.round_pos y)%Q.
Proof.
  intros Hx Hxy. assert (Hy : (0 < y)%Q) by lra.
  destruct (ilog2_spec x Hx) as [Hx1 Hx2].
  destruct (ilog2_spec y Hy) as [Hy1 Hy2].
  assert (Hle : (Py.ilog2 x < Py.ilog2 y + 1)%Z).
  { apply pow2_lt_inv. lra. }
  destruct (Z.eq_dec (Py.ilog2 x) (Py.ilog2 y)) as [Heq|Hne].
  - unfold Py.round_pos. cbv zeta. rewrite Heq.
    pose proof (pow2_pos (Py.ilog2 y - 52)) as Hp.
    apply Qmult_le_compat_r; [|by apply Qlt_le_weak].
    rewrite <- Zle_Qle. apply rne_mono.
    apply Qmult_le_compat_r; [done|].
    apply Qlt_le_weak. by apply Qinv_lt_0_compat.
  - destruct (round_pos_bounds x Hx) as [_ H1].
    destruct (round_pos_bounds y Hy) as [H2 _].
    assert (H3 : (Py.pow2 (Py.ilog2 x + 1) <= Py.pow2 (Py.ilog2 y))%Q)
      by (apply pow2_le; lia).
    lra.
Qed.

Lemma fl_pos q : (0 < q)%Q → Py.fl q = Py.round_pos q.
Proof. intros H. unfold Py.fl. apply Qgt_alt in H. by rewrite H. Qed.

Lemma fl_zero q : (q == 0)%Q → Py.fl q = 0%Q.
Proof. intros H. unfold Py.fl. apply Qeq_alt in H. by rewrite H. Qed.

(** Rounding is monotone on the non-negative numbers. *)
Lemma fl_mono x y : (0 <= x)%Q → (x <= y)%Q → (Py.fl x <= Py.fl y)%Q.
Proof.
  intros Hx Hxy.
  destruct (Qlt_le_dec 0 x) as [Hpos|H0].
  - rewrite !fl_pos by lra. by apply round_pos_mono.
  - rewrite (fl_zero x) by lra.
    destruct (Qlt_le_dec 0 y) as [Hy|Hy].
    + rewrite fl_pos by done.
      destruct (round_pos_bounds y Hy) as [H _].
      pose proof (pow2_pos (Py.ilog2 y)). lra.
    + rewrite (fl_zero y) by lra. lra.
Qed.

End FloatFacts.

Section Scores.
Import Planner Props.

Lemma score_of_set (q : Q) (d : pydict) :
  score_of (PDict (ODict.set k_score (PFloat q) d)) = q.
Proof. unfold score_of. by rewrite odict_get_set_eq. Qed.

(** The floats the bounds below meet are floats: rounding leaves them
    alone. *)
Lemma fl_fixes :
  (Py.fl 0 == 0 ∧ Py.fl 1 == 1 ∧ Py.fl 2 == 2 ∧ Py.fl 3 == 3
   ∧ Py.fl 4 == 4 ∧ Py.fl 5 == 5
   ∧ Py.fl (inject_Z (2 ^ 53)) == inject_Z (2 ^ 53)
   ∧ Py.fl (1 # 2 ^ 52) == 1 # 2 ^ 52
   ∧ Py.fl (1 + (1 # 2 ^ 52)) == 1 + (1 # 2 ^ 52))%Q.
Proof. repeat split; vm_compute; reflexivity. Qed.

(** The bonus lies between 0 and 2, and is at least 2^-52 as long as the
    usage counter is below 2^53. *)
Lemma bonus_bounds (usage_count : nat) :
  (0 <= exploration_bonus usage_count)%Q
  ∧ (exploration_bonus usage_count <= 2)%Q
  ∧ ((Z.of_nat usage_count < 2 ^ 53)%Z →
     (1 # 2 ^ 52 <= exploration_bonus usage_count)%Q).
Proof.
  destruct fl_fixes as (F0 & F1 & F2 & _ & _ & _ & F53 & Fe & _).
  unfold exploration_bonus, Py.fdiv, Py.of_int.
  set (k := inject_Z (Z.of_nat (usage_count + 1))).
  assert (Hk : (1 <= k)%Q).
  { unfold k. change 1%Q with (inject_Z 1). rewrite <- Zle_Qle. lia. }
  assert (HA : (1 <= Py.fl k)%Q).
  { pose proof (fl_mono 1 k). lra. }
  assert (Hq1 : (0 <= 2 / Py.fl k)%Q) by (apply Qle_shift_div_l; lra).
  assert (Hq2 : (2 / Py.fl k <= 2)%Q) by (apply Qle_shift_div_r; lra).
  split; [|split].
  - pose proof (fl_mono 0 (2 / Py.fl k)). lra.
  - pose proof (fl_mono (2 / Py.fl k) 2). lra.
  - intros Hu.
    assert (Hk53 : (k <= inject_Z (2 ^ 53))%Q).
    { unfold k. rewrite <- Zle_Qle. lia. }
    assert (HA53 : (Py.fl k <= inject_Z (2 ^ 53))%Q).
    { pose proof (fl_mono k (inject_Z (2 ^ 53))). lra. }
    assert (Hq3 : (1 # 2 ^ 52 <= 2 / Py.fl k)%Q).
    { apply Qle_shift_div_l; [lra|].
      change (inject_Z (2 ^ 53)) with (9007199254740992 # 1)%Q in HA53.
      change (1 # 2 ^ 52)%Q with (1 # 4503599627370496)%Q. lra. }
    pose proof (fl_mono (1 # 2 ^ 52) (2 / Py.fl k)) as H.
    assert (H0 : (0 <= 1 # 2 ^ 52)%Q) by done.
    specialize (H H0 Hq3). lra.
Qed.

Lemma score_at_bounds st (n j : nat) name :
  j < n → n ≤ 3 →
  (1 <= score_at st n j name)%Q
  ∧ (score_at st n j name <= inject_Z (Z.of_nat n) + 2)%Q
  ∧ ((Z.of_nat (State.get_tool_usage_count st name) < 2 ^ 53)%Z →
     (1 < score_at st n j name)%Q).
Proof.
  intros Hj Hn.
  destruct fl_fixes as (_ & F1 & F2 & F3 & F4 & F5 & _ & _ & Fs).
  destruct (bonus_bounds (State.get_tool_usage_count st name))
    as (Hb0 & Hb2 & Hbe).
  unfold score_at, Py.fadd, Py.of_int.
  set (bonus := exploration_bonus _) in *.
  assert (Hbase : ∃ b : Z,
            (Z.of_nat n - Z.of_nat j = b)%Z ∧ (1 <= b <= Z.of_nat n)%Z
            ∧ (Py.fl (inject_Z b) == inject_Z b)%Q).
  { exists (Z.of_nat n - Z.of_nat j)%Z. split; [done|]. split; [lia|].
    assert (H : (Z.of_nat n - Z.of_nat j = 1 ∨ Z.of_nat n - Z.of_nat j = 2
                 ∨ Z.of_nat n - Z.of_nat j = 3)%Z) by lia.
    destruct H as [-> | [-> | ->]]; assumption. }
  destruct Hbase as (b & -> & [Hb1 Hbn] & Fb).
  rewrite Zle_Qle in Hb1, Hbn. change (inject_Z 1) with 1%Q in Hb1.
  set (s := (Py.fl (inject_Z b) + bonus)%Q).
  assert (Hs1 : (1 <= s)%Q) by (unfold s; lra).
  assert (Hs2 : (s <= inject_Z (Z.of_nat n) + 2)%Q) by (unfold s; lra).
  split; [|split].
  - pose proof (fl_mono 1 s). lra.
  - assert (Htop : (Py.fl (inject_Z (Z.of_nat n) + 2)
                    == inject_Z (Z.of_nat n) + 2)%Q).
    { destruct n as [|[|[|[|n]]]]; [lia | | | | lia];
        vm_compute; reflexivity. }
    pose proof (fl_mono s (inject_Z (Z.of_nat n) + 2)). lra.
  - intros Hu. specialize (Hbe Hu).
    change (1 # 2 ^ 52)%Q with (1 # 4503599627370496)%Q in *.
    assert (Hs3 : (1 + (1 # 4503599627370496) <= s)%Q) by (unfold s; lra).
    pose proof (fl_mono (1 + (1 # 4503599627370496)) s) as H.
    assert (H0 : (0 <= 1 + (1 # 4503599627370496))%Q) by done.
    specialize (H H0 Hs3). lra.
Qed.

(** Beyond that bound the bonus is lost in the sum: with a usage count of
    2^54 the score of the last candidate is the float 1.0. *)
Lemma bonus_absorbed :
  (Py.fadd (Py.of_int 1) (exploration_bonus (2 ^ 54)) == 1)%Q.
Proof.
  unfold exploration_bonus.
  rewrite Nat2Z.inj_add, Nat2Z.inj_pow. vm_compute. reflexivity.
Qed.

Lemma insert_desc_mem x y l : y ∈ insert_desc x l ↔ y = x ∨ y ∈ l.
Proof. exact (insert_desc_elem (fun _ => []) x y l). Qed.

Lemma sort_desc_mem l y : y ∈ sort_desc l ↔ y ∈ l.
Proof. exact (sort_desc_elem (fun _ => []) l y). Qed.

Lemma insert_desc_descending x l :
  descending l → descending (insert_desc x l).
Proof.
  induction l as [|y l IH]; simpl.
  - intros _. split; [by intros c ?%elem_of_nil | done].
  - intros [Hy Hl]. unfold Qlt_bool.
    destruct (Qle_bool (score_of x) (score_of y)) eqn:E; simpl.
    + apply Qle_bool_iff in E. split; [|by apply IH].
      intros c Hc.
      destruct (proj1 (insert_desc_mem _ _ _) Hc) as [->|Hc'].
      * done.
      * by apply Hy.
    + assert (Hlt : (score_of y < score_of x)%Q).
      { apply Qnot_le_lt. intros H%Qle_bool_iff. congruence. }
      split; [|done].
      intros c [->|Hc]%elem_of_cons; [by apply Qlt_le_weak|].
      eapply Qle_trans; [by apply Hy | by apply Qlt_le_weak].
Qed.

Lemma sort_desc_descending l : descending (sort_desc l).
Proof.
  unfold sort_desc.
  assert (H : ∀ acc, descending acc →
                     descending (foldl (fun acc x => insert_desc x acc) acc l)).
  { induction l as [|x l IH]; intros acc Hacc; simpl; [done|].
    by apply IH, insert_desc_descending. }
  by apply H.
Qed.

Lemma head_of_sorted_is_highest l h :
  head (sort_desc l) = Some h →
  h ∈ l ∧ ∀ c, c ∈ l → (score_of c <= score_of h)%Q.
Proof.
  intros Hh. pose proof (sort_desc_descending l) as Hd.
  destruct (sort_desc l) as [|h' t] eqn:E; [done|].
  injection Hh as ->. destruct Hd as [Hmax _]. split.
  - apply sort_desc_mem. rewrite E. left.
  - intros c Hc. apply sort_desc_mem in Hc. rewrite E in Hc.
    apply elem_of_cons in Hc as [->|Hc]; [apply Qle_refl | by apply Hmax].
Qed.

End Scores.

(** X19: every score the strategy assigns to a surviving candidate is at
    least 1 and at most the number of survivors plus 2, so the weights
    handed to [random.choices] are always positive; it is greater than 1
    as long as no usage counter has reached 2^53 (beyond that the float
    sum of 1 and the bonus is 1.0). *)
Theorem scores_are_positive (tm : Tools.t) (llm : nat -> Planner.llm_reply)
    (st : State.t) :
  let candidates := Planner._get_tool_candidates tm llm 3 in
  ∃ cs,
    Planner.scored st candidates = Ok cs
    ∧ (∀ c, c ∈ cs →
         (1 <= Planner.score_of c)%Q
         ∧ (Planner.score_of c
            <= inject_Z (Z.of_nat (length candidates)) + 2)%Q)
    ∧ ((∀ name,
          (Z.of_nat (State.get_tool_usage_count st name) < 2 ^ 53)%Z) →
       ∀ c, c ∈ cs → (1 < Planner.score_of c)%Q).
Proof.
  intros candidates.
  destruct (scored_spec st candidates) as (cs & Hrun & Hlen & Hcs).
  { intros c Hc. apply get_tool_candidates_survivors in Hc.
    by eapply survivor_named. }
  assert (Hn : length candidates ≤ 3).
  { unfold candidates, Planner._get_tool_candidates, try_except.
    destruct (Planner.candidates_loop tm _ []) as [cs0|] eqn:E;
      [|simpl; lia].
    apply candidates_loop_length in E.
    rewrite length_map, length_seq in E. simpl in E. lia. }
  assert (Hall : ∀ c, c ∈ cs →
            ∃ name j, j < length candidates
                      ∧ Planner.score_of c
                        = Props.score_at st (length candidates) j name).
  { intros c Hc. apply list_elem_of_lookup in Hc as [i Hi].
    destruct (lookup_lt_is_Some_2 candidates i) as [c0 Hc0].
    { rewrite <- Hlen. by eapply lookup_lt_Some. }
    destruct (Hcs i c0 Hc0) as (d & name & j & -> & _ & Hj & _ & Hci).
    rewrite Hci in Hi. injection Hi as <-. rewrite score_of_set.
    exists name, j. split; [|done]. apply lookup_lt_Some in Hc0. lia. }
  exists cs. split; [done|]. split.
  - intros c Hc. destruct (Hall c Hc) as (name & j & Hj & ->).
    destruct (score_at_bounds st _ _ name Hj Hn) as (H1 & H2 & _). done.
  - intros Hu c Hc. destruct (Hall c Hc) as (name & j & Hj & ->).
    destruct (score_at_bounds st _ _ name Hj Hn) as (_ & _ & H3).
    apply H3, Hu.
Qed.

(** X20: in greedy mode the strategy returns a scored candidate whose
    score no other candidate of the round exceeds; balanced mode returns
    the same candidate whenever its random draw is below the float 0.7. *)
Theorem greedy_selects_highest_score (tm : Tools.t)
    (llm : nat -> Planner.llm_reply) (st : State.t) (d : Planner.draws) :
  let candidates := Planner._get_tool_candidates tm llm 3 in
  candidates ≠ [] →
  ∃ cs selected,
    Planner.scored st candidates = Ok cs
    ∧ Planner._apply_exploration_strategy Planner.greedy d candidates st
      = Ok selected
    ∧ selected ∈ cs
    ∧ (∀ c, c ∈ cs → (Planner.score_of c <= Planner.score_of selected)%Q)
    ∧ (Planner.Qlt_bool (Planner.random_unit d) (Py.fl (7 # 10)) = true →
       Planner._apply_exploration_strategy Planner.balanced d candidates st
       = Ok selected).
Proof.
  intros candidates Hne.
  destruct (scored_spec st candidates) as (cs & Hrun & Hlen & Hcs).
  { intros c Hc. apply get_tool_candidates_survivors in Hc.
    by eapply survivor_named. }
  assert (Hcs_ne : cs ≠ []).
  { destruct candidates as [|c0 l]; [done|]. by destruct cs. }
  destruct (head (Planner.sort_desc cs)) as [h|] eqn:Hh.
  2:{ exfalso. destruct cs as [|c cs']; [by apply Hcs_ne|].
      assert (Hin : c ∈ Planner.sort_desc (c :: cs'))
        by (apply sort_desc_mem; left).
      destruct (Planner.sort_desc (c :: cs')); [by apply elem_of_nil in Hin|].
      done. }
  destruct (head_of_sorted_is_highest cs h Hh) as [Hin Hmax].
  exists cs, h.
  assert (Hg : Planner._apply_exploration_strategy Planner.greedy d
                 candidates st = Ok h).
  { unfold Planner._apply_exploration_strategy.
    destruct candidates as [|c0 l] eqn:E; [done|]. rewrite Hrun.
    cbn [mbind result_bind]. unfold Planner.select_by_mode.
    rewrite pystr_eqb_refl, Hh. done. }
  repeat split; try done.
  intros Hdraw. unfold Planner._apply_exploration_strategy.
  destruct candidates as [|c0 l] eqn:E; [done|]. rewrite Hrun.
  cbn [mbind result_bind]. unfold Planner.select_by_mode.
  replace (PyStr.eqb Planner.balanced Planner.greedy) with false
    by (vm_compute; reflexivity).
  rewrite pystr_eqb_refl, Hdraw, Hh. done.
Qed.

(** X20 on a round of three valid replies. *)
Lemma greedy_selects_highest_score_witness :
  ∃ cs selected,
    Planner.scored State.init
      (Planner._get_tool_candidates Samples.three_tools Samples.three_replies 3)
    = Ok cs
    ∧ Planner._apply_exploration_strategy Planner.greedy (Samples.fixed_draws 0)
        (Planner._get_tool_candidates Samples.three_tools
           Samples.three_replies 3) State.init
      = Ok selected
    ∧ selected ∈ cs
    ∧ (∀ c, c ∈ cs → (Planner.score_of c <= Planner.score_of selected)%Q).
Proof.
  destruct (greedy_selects_highest_score Samples.three_tools
              Samples.three_replies State.init (Samples.fixed_draws 0))
    as (cs & selected & H1 & H2 & H3 & H4 & _).
  - vm_compute. discriminate.
  - exists cs, selected. repeat split; assumption.
Defined.

Section RepairFacts.
Import Planner Props.

Variable py_repr : pyval -> pystr.
Variable set_order : list pystr -> list pystr.

Lemma odict_In_get {V} k (v : V) (d : odict V) :
  NoDup (ODict.keys d) → (k, v) ∈ d → ODict.get k d = Some v.
Proof.
  unfold ODict.keys.
  induction d as [|[k0 v0] d IH]; simpl; intros Hnd Hin.
  - by apply elem_of_nil in Hin.
  - apply NoDup_cons in Hnd as [Hk0 Hnd].
    apply elem_of_cons in Hin as [Heq|Hin].
    + injection Heq as -> ->. by rewrite pystr_eqb_refl.
    + destruct (PyStr.eqb k k0) eqn:E; [|by apply IH].
      apply pystr_eqb_true in E. subst k0. exfalso. apply Hk0.
      apply list_elem_of_fmap. by exists (k, v).
Qed.

Lemma fix_one_keys kp (d : pydict) kv :
  ODict.mem kv.1 d = true →
  ODict.keys (fix_one kp d kv) = ODict.keys d.
Proof.
  intros Hmem. unfold fix_one.
  destruct (_find_valid_parameter kv.1 kp); [done|].
  by rewrite odict_keys_set, Hmem.
Qed.

Lemma fix_all_keys kp (l : pydict) : ∀ d : pydict,
  (∀ kv, kv ∈ l → ODict.mem kv.1 d = true) →
  ODict.keys (foldl (fix_one kp) d l) = ODict.keys d.
Proof.
  induction l as [|kv l IH]; intros d Hl; simpl; [done|].
  assert (Hk : ODict.keys (fix_one kp d kv) = ODict.keys d).
  { apply fix_one_keys, Hl. left. }
  rewrite IH; [done|]. intros kv' Hin.
  apply odict_keys_mem. rewrite Hk. apply odict_mem_keys, Hl. by right.
Qed.

Lemma fix_all_frame kp k (l : pydict) : ∀ d : pydict,
  (∀ kv, kv ∈ l → kv.1 = k → _find_valid_parameter k kp = []) →
  ODict.get k (foldl (fix_one kp) d l) = ODict.get k d.
Proof.
  induction l as [|kv l IH]; intros d Hl; simpl; [done|].
  rewrite IH by (intros kv' Hin; apply Hl; by right).
  unfold fix_one.
  destruct (_find_valid_parameter kv.1 kp) as [|c s] eqn:E; [done|].
  destruct (decide (kv.1 = k)) as [Heq|Hne].
  - rewrite Heq in E. rewrite (Hl kv) in E; [done | left | done].
  - by rewrite odict_get_set_ne.
Qed.

Lemma find_valid_is_tidy kp k c s :
  tidy kp → _find_valid_parameter k kp = c :: s →
  valid_str (c :: s) = true.
Proof.
  intros (Hv & Hvlan & Hhost). unfold _find_valid_parameter.
  rewrite Hvlan, Hhost. unfold first_or_empty.
  assert (Hhead : ∀ l : list pystr,
            (∀ v, v ∈ l → valid_str v = true) →
            default [] (head l) = c :: s → valid_str (c :: s) = true).
  { intros [|x l] Hl; cbn [head default]; [done|].
    intros <-. apply Hl. left. }
  repeat case_match; try done; apply Hhead; intros v Hin; apply Hv;
    rewrite !elem_of_app; tauto.
Qed.

Lemma fix_all_values kp k v' (l : pydict) : tidy kp → ∀ d : pydict,
  ODict.get k (foldl (fix_one kp) d l) = Some v' →
  ODict.get k d = Some v' ∨ _is_valid_parameter_value v' = true.
Proof.
  intros Hkp. induction l as [|kv l IH]; intros d; simpl; [by left|].
  intros H. apply IH in H as [H|H]; [|by right].
  unfold fix_one in H.
  destruct (_find_valid_parameter kv.1 kp) as [|c s] eqn:E; [by left|].
  destruct (decide (kv.1 = k)) as [Heq|Hne].
  - rewrite Heq in H. rewrite odict_get_set_eq in H. injection H as <-.
    right. simpl. by eapply find_valid_is_tidy.
  - rewrite odict_get_set_ne in H by done. by left.
Qed.

Lemma unclassified_finds_nothing kp k :
  tidy kp → unclassified k → _find_valid_parameter k kp = [].
Proof.
  intros (_ & Hvlan & Hhost) (H1 & H2 & H3). unfold _find_valid_parameter.
  rewrite H1, H2, H3, Hvlan, Hhost. by repeat case_match.
Qed.

(** *** What is gathered is tidy *)

Lemma usable_valid value :
  usable py_repr value = true → valid_str (py_str py_repr value) = true.
Proof. unfold usable. by intros [_ ?]%andb_true_iff. Qed.

Lemma tidy_add s v kp :
  tidy kp → valid_str v = true → tidy (add_known s v kp).
Proof.
  intros (Hv & Hvlan & Hhost) Hval.
  destruct s; (split; [|done]); simpl; intros x;
    rewrite !elem_of_app, ?list_elem_of_singleton;
    intros Hx; (destruct Hx as [Hx|Hx]; [|try destruct Hx as [Hx|Hx]]);
    repeat match goal with
           | H : _ ∨ _ |- _ => destruct H
           end; subst; try done; apply Hv; rewrite !elem_of_app; tauto.
Qed.

Lemma tidy_foldl {A} (f : known → A → known) (l : list A) :
  (∀ kp x, tidy kp → tidy (f kp x)) → ∀ kp, tidy kp → tidy (foldl f kp l).
Proof.
  intros Hf. induction l as [|x l IH]; intros kp Hkp; simpl; [done|].
  by apply IH, Hf.
Qed.

Lemma tidy_collect_named kp kv :
  tidy kp → tidy (collect_named py_repr kp kv).
Proof.
  intros Hkp. unfold collect_named.
  destruct (slot_of_name kv.1); [|done].
  destruct (usable py_repr kv.2) eqn:E; [|done].
  by apply tidy_add, usable_valid.
Qed.

Lemma tidy_collect_response kp kv :
  tidy kp → tidy (collect_response py_repr kp kv).
Proof.
  intros Hkp. unfold collect_response.
  destruct (usable py_repr kv.2) eqn:E; [|done].
  destruct (slot_of_response_key kv.1); [|done].
  by apply tidy_add, usable_valid.
Qed.

Lemma tidy_collect_item kp kv :
  tidy kp → tidy (collect_item py_repr kp kv).
Proof.
  intros Hkp. unfold collect_item.
  destruct (usable py_repr kv.2) eqn:E; [|done].
  repeat case_match; try done; apply tidy_add; try done;
    by apply usable_valid.
Qed.

Lemma tidy_collect_execution kp e :
  tidy kp → tidy (collect_execution py_repr kp e).
Proof.
  intros Hkp. unfold collect_execution.
  assert (H1 : tidy (foldl (collect_named py_repr) kp
                       (State.ex_tool_request e))).
  { apply tidy_foldl; [|done]. intros. by apply tidy_collect_named. }
  destruct (State.ex_tool_response e); try done.
  - apply tidy_foldl; [|done]. intros kp' item Hkp'.
    destruct item; try done.
    apply tidy_foldl; [|done]. intros. by apply tidy_collect_item.
  - apply tidy_foldl; [|done]. intros. by apply tidy_collect_response.
Qed.

Lemma tidy_gather st g : tidy (gather_known py_repr st g).
Proof.
  unfold gather_known. apply tidy_foldl.
  - intros. by apply tidy_collect_execution.
  - apply tidy_foldl; [intros; by apply tidy_collect_named|].
    split; [|done]. simpl. by intros v ?%elem_of_nil.
Qed.

Hypothesis set_order_spec : Spec.set_order_ok set_order.

Lemma set_order_nil : set_order [] = [].
Proof using set_order_spec.
  destruct (set_order []) as [|x l] eqn:E; [done|].
  pose proof (proj1 (set_order_spec [] x)) as H. rewrite E in H.
  exfalso. eapply elem_of_nil, H. left.
Qed.

Lemma tidy_extract st g :
  tidy (_extract_known_parameters py_repr set_order st g).
Proof using set_order_spec.
  destruct (tidy_gather st g) as (Hv & Hvlan & Hhost).
  unfold _extract_known_parameters. split; [|split]; simpl.
  - intros v. rewrite !elem_of_app, !(set_order_spec _ v).
    intros H. apply Hv. rewrite !elem_of_app. tauto.
  - rewrite Hvlan. apply set_order_nil.
  - rewrite Hhost. apply set_order_nil.
Qed.

End RepairFacts.

(** X21: parameter repair keeps the argument names and their order, and
    leaves every argument alone whose value is an ASCII string that
    passes the placeholder check. *)
Theorem repair_keeps_names_and_valid_values (py_repr : pyval -> pystr)
    (set_order : list pystr -> list pystr) (plan : pydict) (st : State.t)
    (g : Planner.goal) (d : pydict) :
  ODict.get Planner.k_tool_request plan = Some (PDict d) →
  NoDup (ODict.keys d) →
  ∃ d',
    Planner._validate_and_fix_parameters py_repr set_order plan st g
    = Ok (ODict.set Planner.k_tool_request (PDict d') plan)
    ∧ ODict.keys d' = ODict.keys d
    ∧ ∀ k s, ODict.get k d = Some (PStr s) →
             PyStr.isascii s = true →
             Planner._is_valid_parameter_value (PStr s) = true →
             ODict.get k d' = Some (PStr s).
Proof.
  intros Hplan Hnd. unfold Planner._validate_and_fix_parameters.
  rewrite Hplan. simpl. eexists. split; [reflexivity|]. split.
  - apply fix_all_keys. intros kv [_ Hin]%list_elem_of_filter.
    apply odict_keys_mem. apply list_elem_of_fmap. by exists kv.
  - intros k s Hget _ Hvalid. rewrite fix_all_frame; [done|].
    intros [k' v'] [Hinv Hin]%list_elem_of_filter Heq.
    cbn [fst snd] in Hinv, Heq. subst k'.
    apply (odict_In_get _ _ _ Hnd) in Hin.
    assert (v' = PStr s) as -> by congruence.
    simpl in Hinv, Hvalid. congruence.
Qed.

(** X21 on a request with a placeholder, an interface name and a VLAN
    argument. *)
Lemma repair_keeps_names_and_valid_values_witness :
  ∃ d',
    Planner._validate_and_fix_parameters Samples.no_repr Samples.plain_order
      Samples.mixed_plan State.init Samples.goal_x1
    = Ok (ODict.set Planner.k_tool_request (PDict d') Samples.mixed_plan)
    ∧ ODict.keys d' = ODict.keys Samples.mixed_request
    ∧ ∀ k s, ODict.get k Samples.mixed_request = Some (PStr s) →
             PyStr.isascii s = true →
             Planner._is_valid_parameter_value (PStr s) = true →
             ODict.get k d' = Some (PStr s).
Proof.
  apply (repair_keeps_names_and_valid_values Samples.no_repr
           Samples.plain_order Samples.mixed_plan State.init Samples.goal_x1
           Samples.mixed_request).
  - reflexivity.
  - apply (bool_decide_unpack _). vm_compute. exact I.
Defined.

(** X22: whatever value parameter repair writes into the request passes
    the placeholder check itself; every other value is the one the
    request already had. *)
Theorem repair_writes_only_valid_values (py_repr : pyval -> pystr)
    (set_order : list pystr -> list pystr) (plan : pydict) (st : State.t)
    (g : Planner.goal) (d : pydict) :
  Spec.set_order_ok set_order →
  ODict.get Planner.k_tool_request plan = Some (PDict d) →
  ∃ d',
    Planner._validate_and_fix_parameters py_repr set_order plan st g
    = Ok (ODict.set Planner.k_tool_request (PDict d') plan)
    ∧ ∀ k v', ODict.get k d' = Some v' →
              ODict.get k d = Some v'
              ∨ Planner._is_valid_parameter_value v' = true.
Proof.
  intros Hset Hplan. unfold Planner._validate_and_fix_parameters.
  rewrite Hplan. simpl. eexists. split; [reflexivity|].
  intros k v'. apply fix_all_values. by apply tidy_extract.
Qed.

Lemma repair_writes_only_valid_values_witness :
  ∃ d',
    Planner._validate_and_fix_parameters Samples.no_repr Samples.plain_order
      Samples.mixed_plan State.init Samples.goal_x1
    = Ok (ODict.set Planner.k_tool_request (PDict d') Samples.mixed_plan)
    ∧ ∀ k v', ODict.get k d' = Some v' →
              ODict.get k Samples.mixed_request = Some v'
              ∨ Planner._is_valid_parameter_value v' = true.
Proof.
  apply (repair_writes_only_valid_values Samples.no_repr Samples.plain_order
           Samples.mixed_plan State.init Samples.goal_x1
           Samples.mixed_request).
  - apply plain_order_ok.
  - reflexivity.
Defined.

(** X23: no value is ever gathered for VLANs or host names, so an
    argument whose name mentions none of device, interface and ip keeps
    its value, placeholder or not. *)
Theorem unclassified_argument_never_repaired (py_repr : pyval -> pystr)
    (set_order : list pystr -> list pystr) (plan : pydict) (st : State.t)
    (g : Planner.goal) (d : pydict) :
  Spec.set_order_ok set_order →
  ODict.get Planner.k_tool_request plan = Some (PDict d) →
  ∃ d',
    Planner._validate_and_fix_parameters py_repr set_order plan st g
    = Ok (ODict.set Planner.k_tool_request (PDict d') plan)
    ∧ ∀ k, Props.unclassified k → ODict.get k d' = ODict.get k d.
Proof.
  intros Hset Hplan. unfold Planner._validate_and_fix_parameters.
  rewrite Hplan. simpl. eexists. split; [reflexivity|].
  intros k Hk. apply fix_all_frame. intros _ _ _.
  apply unclassified_finds_nothing; [|done]. by apply tidy_extract.
Qed.

Lemma unclassified_argument_never_repaired_witness :
  Props.unclassified (u "vlan_id")
  ∧ ∃ d',
      Planner._validate_and_fix_parameters Samples.no_repr
        Samples.plain_order Samples.mixed_plan State.init Samples.goal_x1
      = Ok (ODict.set Planner.k_tool_request (PDict d') Samples.mixed_plan)
      ∧ ∀ k, Props.unclassified k →
             ODict.get k d' = ODict.get k Samples.mixed_request.
Proof.
  split.
  - repeat split; vm_compute; reflexivity.
  - apply (unclassified_argument_never_repaired Samples.no_repr
             Samples.plain_order Samples.mixed_plan State.init
             Samples.goal_x1 Samples.mixed_request).
    + apply plain_order_ok.
    + reflexivity.
Defined.

Section Names.
Import Planner Props.

Lemma has_char_lower c s :
  PyStr.lower_cp c = c →
  PyStr.has_char c s = true → PyStr.has_char c (PyStr.lower s) = true.
Proof.
  intros Hc. unfold PyStr.has_char, PyStr.lower.
  induction s as [|a s IH]; simpl; [done|].
  intros [Ha|Hs]%orb_true_iff.
  - apply N.eqb_eq in Ha. subst a. rewrite Hc, N.eqb_refl. done.
  - rewrite (IH Hs). apply orb_true_r.
Qed.

Lemma has_char_lstrip c s :
  PyStr.is_space c = false →
  PyStr.has_char c s = true → PyStr.has_char c (PyStr.lstrip s) = true.
Proof.
  intros Hc. unfold PyStr.has_char.
  induction s as [|a s IH]; [done|].
  cbn [PyStr.lstrip]. destruct (PyStr.is_space a) eqn:Ea; [|done].
  cbn [existsb]. intros [Ha|Hs]%orb_true_iff; [|by apply IH].
  apply N.eqb_eq in Ha. congruence.
Qed.

Lemma has_char_rev c s : PyStr.has_char c (rev s) = PyStr.has_char c s.
Proof.
  unfold PyStr.has_char. induction s as [|a s IH]; [done|].
  cbn [rev existsb]. rewrite existsb_app, IH. cbn [existsb].
  rewrite orb_false_r. apply orb_comm.
Qed.

Lemma has_char_strip c s :
  PyStr.is_space c = false →
  PyStr.has_char c s = true → PyStr.has_char c (PyStr.strip s) = true.
Proof.
  intros Hc Hs. unfold PyStr.strip. rewrite has_char_rev.
  apply has_char_lstrip; [done|]. rewrite has_char_rev.
  by apply has_char_lstrip.
Qed.

Lemma has_char_normalised c s :
  PyStr.lower_cp c = c → PyStr.is_space c = false →
  PyStr.has_char c s = true →
  PyStr.has_char c (PyStr.strip (PyStr.lower s)) = true.
Proof. intros. by apply has_char_strip, has_char_lower. Qed.

Lemma patterns_are_plain pattern :
  In pattern invalid_patterns →
  pattern = u "..."
  ∨ (PyStr.has_char slash pattern = false
     ∧ PyStr.has_char dot pattern = false).
Proof.
  intros Hin.
  assert (H : forallb (fun p => PyStr.eqb p (u "...")
                         || (negb (PyStr.has_char slash p)
                             && negb (PyStr.has_char dot p)))
                invalid_patterns = true) by (vm_compute; reflexivity).
  rewrite forallb_forall in H. specialize (H _ Hin).
  apply orb_true_iff in H as [H|H]; [left; by apply pystr_eqb_true|].
  apply andb_true_iff in H as [H1 H2].
  right. by rewrite !negb_true_iff in H1, H2.
Qed.

Lemma Qlt_bool_iff (x y : Q) : Qlt_bool x y = true ↔ (x < y)%Q.
Proof.
  unfold Qlt_bool. rewrite negb_true_iff. split.
  - intros H. apply Qnot_le_lt. intros Hle%Qle_bool_iff. congruence.
  - intros H. destruct (Qle_bool y x) eqn:E; [|done].
    apply Qle_bool_iff in E. by apply Qlt_not_le in H.
Qed.

Lemma contains_nil hay : PyStr.contains [] hay = true.
Proof. by destruct hay. Qed.

Lemma best_similar_spec name tools t :
  best_similar name tools = Some t →
  (threshold < simple_similarity name t)%Q
  ∧ ∀ t', t' ∈ tools →
      (simple_similarity name t' <= simple_similarity name t)%Q.
Proof.
  unfold best_similar.
  set (f := fun (best : option pystr * Q) tool =>
              let score := simple_similarity name tool in
              if Qlt_bool best.2 score && Qlt_bool threshold score
              then (Some tool, score) else best).
  assert (H : ∀ l,
    let r := foldl f (None, 0%Q) l in
    (∀ x, r.1 = Some x →
          r.2 = simple_similarity name x
          ∧ (threshold < simple_similarity name x)%Q)
    ∧ (∀ t', t' ∈ l →
         (simple_similarity name t' <= r.2)%Q
         ∨ (simple_similarity name t' <= threshold)%Q)).
  { induction l as [|y l IH] using rev_ind; [by split; [|intros ? ?%elem_of_nil]|].
    cbv zeta in *. rewrite foldl_app. cbn [foldl].
    destruct IH as [IH1 IH2]. set (r := foldl f (None, 0%Q) l) in *.
    change (f r y)
      with (if Qlt_bool r.2 (simple_similarity name y)
               && Qlt_bool threshold (simple_similarity name y)
            then (Some y, simple_similarity name y) else r).
    destruct (Qlt_bool r.2 (simple_similarity name y)) eqn:E1;
      [destruct (Qlt_bool threshold (simple_similarity name y)) eqn:E2|];
      cbn [andb fst snd].
    - apply Qlt_bool_iff in E1, E2. split.
      + intros x [= <-]. done.
      + intros t' [Hin| ->%list_elem_of_singleton]%elem_of_app.
        * destruct (IH2 _ Hin) as [H|H]; [left | by right].
          eapply Qle_trans; [exact H | by apply Qlt_le_weak].
        * left. apply Qle_refl.
    - split; [done|].
      intros t' [Hin| ->%list_elem_of_singleton]%elem_of_app; [by apply IH2|].
      right. apply Qnot_lt_le. intros Hlt%Qlt_bool_iff. congruence.
    - split; [done|].
      intros t' [Hin| ->%list_elem_of_singleton]%elem_of_app; [by apply IH2|].
      left. apply Qnot_lt_le. intros Hlt%Qlt_bool_iff. congruence. }
  intros Ht. destruct (H tools) as [H1 H2]. cbv zeta in *.
  destruct (H1 t Ht) as [Hr Hthr]. split; [done|].
  intros t' Hin. destruct (H2 t' Hin) as [Hle|Hle].
  - by rewrite Hr in Hle.
  - eapply Qle_trans; [exact Hle | by apply Qlt_le_weak].
Qed.

End Names.

(** X24: a value that contains a slash or a dot passes the placeholder
    check, whatever words it contains, unless it is ["..."] up to
    surrounding blanks. *)
Theorem value_with_slash_or_dot_is_valid (s : pystr) :
  PyStr.has_char Planner.slash s = true
  ∨ PyStr.has_char Planner.dot s = true →
  PyStr.strip (PyStr.lower s) ≠ u "..." →
  Planner._is_valid_parameter_value (PStr s) = true.
Proof.
  intros Hchar Hdots. cbn [Planner._is_valid_parameter_value].
  unfold Planner.valid_str.
  destruct s as [|c s]; [by destruct Hchar|].
  apply negb_true_iff, not_true_iff_false.
  intros (pattern & Hin & Hrej)%existsb_exists.
  unfold Planner.pattern_rejects in Hrej.
  apply orb_true_iff in Hrej as [Heq|Hshort].
  - apply pystr_eqb_true in Heq.
    destruct (patterns_are_plain _ Hin) as [->|[Hs Hd]]; [done|].
    rewrite <- Heq in Hs, Hd. destruct Hchar as [H|H].
    + apply (has_char_normalised Planner.slash) in H; [congruence|done|done].
    + apply (has_char_normalised Planner.dot) in H; [congruence|done|done].
  - rewrite !andb_true_iff, !negb_true_iff in Hshort.
    destruct Hshort as [[_ Hs] Hd]. destruct Hchar; congruence.
Qed.

(** X24 on an interface name. *)
Lemma value_with_slash_or_dot_is_valid_witness :
  Planner._is_valid_parameter_value (PStr (u "interface1/0/24")) = true.
Proof.
  apply value_with_slash_or_dot_is_valid.
  - left. vm_compute. reflexivity.
  - vm_compute. discriminate.
Defined.

(** X25: among ASCII names, a name that differs from a tool of the list
    only in letter case or surrounding blanks is corrected to a tool of
    the list with that spelling. *)
Theorem case_insensitive_name_is_corrected (name : pystr)
    (tools : list pystr) (t : pystr) :
  PyStr.isascii name = true →
  (∀ x, x ∈ tools → PyStr.isascii x = true) →
  name ≠ [] →
  t ∈ tools →
  PyStr.lower t = PyStr.strip (PyStr.lower name) →
  ∃ t',
    Planner._fuzzy_match_tool_name (PStr name) tools = Ok (Some t')
    ∧ t' ∈ tools
    ∧ PyStr.lower t' = PyStr.lower t.
Proof.
  intros _ _ Hname Hin Hlow. unfold Planner._fuzzy_match_tool_name.
  destruct name as [|c name]; [done|]. cbn [Py.truthy negb].
  destruct tools as [|t0 tools]; [by apply elem_of_nil in Hin|].
  unfold Planner.fuzzy_str.
  destruct (list_find_elem_of
              (fun tool => PyStr.lower tool
                           = PyStr.strip (PyStr.lower (c :: name)))
              (t0 :: tools) t Hin Hlow) as [[i t'] Hfind].
  rewrite Hfind. exists t'. split; [done|].
  apply list_find_Some in Hfind as (Hi & Ht' & _).
  split; [by eapply list_elem_of_lookup_2 | congruence].
Qed.

Lemma case_insensitive_name_is_corrected_witness :
  ∃ t',
    Planner._fuzzy_match_tool_name (PStr (u " Query_Interface_Info "))
      [u "query_device_logs"; u "query_interface_info"]
    = Ok (Some t')
    ∧ t' ∈ [u "query_device_logs"; u "query_interface_info"]
    ∧ PyStr.lower t' = PyStr.lower (u "query_interface_info").
Proof.
  apply (case_insensitive_name_is_corrected (u " Query_Interface_Info ")
           [u "query_device_logs"; u "query_interface_info"]
           (u "query_interface_info")).
  - vm_compute. reflexivity.
  - intros x Hx. apply elem_of_cons in Hx as [->|Hx];
      [vm_compute; reflexivity|].
    apply list_elem_of_singleton in Hx as ->. vm_compute. reflexivity.
  - vm_compute. discriminate.
  - right. left.
  - vm_compute. reflexivity.
Defined.

(** X26: among ASCII names every correction is justified: the tool
    returned equals the name up to letter case, or one of the two
    contains the other, or its similarity to the name is above 0.6 and
    no tool of the list is more similar. *)
Theorem correction_is_justified (name : pystr) (tools : list pystr)
    (t : pystr) :
  PyStr.isascii name = true →
  (∀ x, x ∈ tools → PyStr.isascii x = true) →
  Planner._fuzzy_match_tool_name (PStr name) tools = Ok (Some t) →
  t ∈ tools ∧ Props.justified name tools t.
Proof.
  intros _ _.
  unfold Planner._fuzzy_match_tool_name, Props.justified.
  destruct name as [|c name]; [done|]. cbn [Py.truthy negb].
  destruct tools as [|t0 tools]; [done|]. cbv zeta.
  intros [= H]. split; [by eapply fuzzy_str_elem|].
  unfold Planner.fuzzy_str in H.
  destruct (list_find _ (t0 :: tools)) as [[i x]|] eqn:E1.
  { injection H as <-. apply list_find_Some in E1 as (_ & Hx & _).
    by left. }
  clear E1.
  destruct (list_find _ (t0 :: tools)) as [[i x]|] eqn:E2.
  { injection H as <-. apply list_find_Some in E2 as (_ & Hx & _).
    apply orb_true_iff in Hx. tauto. }
  right. right. right. by apply best_similar_spec.
Qed.

Lemma correction_is_justified_witness :
  u "query_interface_info" ∈ [u "query_device_logs"; u "query_interface_info"]
  ∧ Props.justified (u "query_interface")
      [u "query_device_logs"; u "query_interface_info"]
      (u "query_interface_info").
Proof.
  apply correction_is_justified.
  - vm_compute. reflexivity.
  - intros x Hx. apply elem_of_cons in Hx as [->|Hx];
      [vm_compute; reflexivity|].
    apply list_elem_of_singleton in Hx as ->. vm_compute. reflexivity.
  - vm_compute. reflexivity.
Defined.

(** X27: a name that is blank after stripping is contained in every tool
    name, so it is corrected to the first tool of the list. *)
Theorem blank_name_matches_first_tool (name t : pystr)
    (rest : list pystr) :
  name ≠ [] →
  PyStr.strip (PyStr.lower name) = [] →
  (∀ x, x ∈ t :: rest → x ≠ []) →
  Planner._fuzzy_match_tool_name (PStr name) (t :: rest) = Ok (Some t).
Proof.
  intros Hname Hblank Hne. unfold Planner._fuzzy_match_tool_name.
  destruct name as [|c name]; [done|]. cbn [Py.truthy negb].
  unfold Planner.fuzzy_str. rewrite Hblank.
  destruct (list_find _ (t :: rest)) as [[i x]|] eqn:E1.
  { apply list_find_Some in E1 as (Hi & Hx & _).
    apply list_elem_of_lookup_2 in Hi. apply Hne in Hi.
    destruct x; [done | discriminate Hx]. }
  clear E1.
  assert (E2 : list_find
                 (fun tool => PyStr.contains [] (PyStr.lower tool)
                              || PyStr.contains (PyStr.lower tool) []
                              = true) (t :: rest) = Some (0, t)).
  { apply list_find_Some. split; [done|]. split.
    - by rewrite contains_nil.
    - intros j y _ Hj. lia. }
  by rewrite E2.
Qed.

Lemma blank_name_matches_first_tool_witness :
  Planner._fuzzy_match_tool_name (PStr (u " "))
    [u "query_device_logs"; u "query_interface_info"]
  = Ok (Some (u "query_device_logs")).
Proof.
  apply blank_name_matches_first_tool.
  - vm_compute. discriminate.
  - vm_compute. reflexivity.
  - intros x Hx. apply elem_of_cons in Hx as [->|Hx];
      [vm_compute; discriminate|].
    apply list_elem_of_singleton in Hx as ->. vm_compute. discriminate.
Defined.

(* ===================================================================== *)
(** ** The iteration and the stop rules; history and findings texts *)
(* ===================================================================== *)

Section LoopFacts.
Variable py_repr : pyval -> pystr.
Variable execute_tool : nat -> pystr -> pydict -> pyval.

Lemma batch_loop_findings (p : Agent.plan) (first : pyval) :
  ∀ todo o last_response o' r',
    Agent.batch_loop execute_tool p first todo o last_response
    = Ok (o', r') →
    State.findings (Agent.o_state o') = State.findings (Agent.o_state o).
Proof.
  induction todo as [|entity rest IH]; intros o last o' r'.
  - by intros [= <- _].
  - rewrite batch_loop_cons. cbv zeta.
    destruct (Output.add_action_observation _ _ _ _) as [g|e]; [|done].
    cbn [mbind result_bind].
    destruct (Py.eq entity first).
    + match goal with
      | |- context [State.add_execution ?s ?n ?rq ?rs ?r] =>
          destruct (add_execution_lengths s n rq rs r) as (_ & _ & Hf & _);
          destruct (State.add_execution s n rq rs r) as [st' [[]|e]]
      end; [|done].
      cbn [mbind result_bind fst snd] in *. intros H%IH.
      cbn [Agent.o_state] in H. congruence.
    + cbn [mbind result_bind]. intros H%IH. by cbn [Agent.o_state] in H.
Qed.

Lemma single_findings (p : Agent.plan) o o' r' :
  Agent.single execute_tool p o = Ok (o', r') →
  State.findings (Agent.o_state o') = State.findings (Agent.o_state o).
Proof.
  unfold Agent.single. cbv zeta.
  destruct (Output.add_action_observation _ _ _ _) as [g|e]; [|done].
  cbn [mbind result_bind].
  match goal with
  | |- context [State.add_execution ?s ?n ?rq ?rs ?r] =>
      destruct (add_execution_lengths s n rq rs r) as (_ & _ & Hf & _);
      destruct (State.add_execution s n rq rs r) as [st' [[]|e]]
  end; [|done].
  cbn [mbind result_bind fst snd] in *. by intros [= <- _].
Qed.

Lemma content_is_not_high name response f :
  Agent._analyze_tool_response py_repr name response = Some f →
  PyStr.eqb (Agent.a_content f) (u "high") = false.
Proof.
  intros H%analysis_content_not_a_severity.
  apply pystr_eqb_false. intros E. apply H. rewrite E.
  unfold Spec.severities. right. right. left.
Qed.

End LoopFacts.

(** X28: an iteration of the loop never records a finding of severity
    high: whether the session holds a critical finding is the same
    before and after it, so the critical-finding stop rule is never
    triggered by what the loop itself records. *)
Theorem loop_never_records_critical_finding (py_repr : pyval -> pystr)
    (execute_tool : nat -> pystr -> pydict -> pyval)
    (p : Agent.plan) (st : State.t) (g : Output.t) (o : Agent.outcome) :
  Agent.run_plan py_repr execute_tool p st g = Ok o →
  State._has_critical_finding (Agent.o_state o)
  = State._has_critical_finding st.
Proof.
  unfold Agent.run_plan. cbv zeta.
  match goal with
  | |- context [mbind _ ?c] => destruct c as [[o' r']|e] eqn:E
  end; [|done].
  cbn [mbind result_bind fst snd]. intros [= <-].
  cbn [Agent.o_state].
  assert (Hf : State.findings (Agent.o_state o') = State.findings st).
  { destruct (Agent._get_relevant_entities _ _) as [|first rest];
      [by apply single_findings in E|].
    destruct (_ && _).
    - by apply batch_loop_findings in E.
    - by apply single_findings in E. }
  unfold State._has_critical_finding.
  cbn [State.update_diagnostic_chain State.findings].
  destruct (Agent._analyze_tool_response py_repr (Agent.tool_name p) r')
    as [f|] eqn:Ef.
  - cbn [State.add_finding State.findings]. rewrite existsb_app, Hf.
    cbn [existsb State.f_severity].
    rewrite (content_is_not_high _ _ _ _ Ef). by rewrite !orb_false_r.
  - by rewrite Hf.
Qed.

(** X28 on the iteration whose observation reports the interface as
    down. *)
Lemma loop_never_records_critical_finding_witness :
  ∃ o,
    Agent.run_plan Samples.no_repr Samples.always_down
      Samples.check_interface State.init Output.init = Ok o
    ∧ State._has_critical_finding (Agent.o_state o)
      = State._has_critical_finding State.init.
Proof.
  eexists. split; [vm_compute; reflexivity|].
  apply (loop_never_records_critical_finding Samples.no_repr
           Samples.always_down Samples.check_interface State.init
           Output.init).
  vm_compute. reflexivity.
Defined.

Lemma slice_last_empty {A} (n : Z) (l : list A) :
  (0 <= n)%Z → PyStr.slice_last n l = [] ↔ l = [].
Proof.
  intros Hn. split.
  2:{ intros ->. unfold PyStr.slice_last.
      destruct (0 <? n)%Z; apply drop_nil. }
  destruct (decide (n = 0%Z)) as [->|Hne]; [by rewrite slice_last_zero|].
  rewrite slice_last_pos by lia. intros H.
  apply (f_equal length) in H. rewrite length_drop in H. simpl in H.
  destruct l; [done|]. simpl in H. lia.
Qed.

(** X29: for a window [n >= 0] the history text is "无执行历史" exactly
    when no action was recorded, and the findings text is "暂无发现"
    exactly when there is no finding. *)
Theorem history_and_findings_sentinels (st : State.t) (n : Z) :
  (0 <= n)%Z →
  (State.format_recent_history st n = State.no_history
   ↔ State.executed_tools st = [])
  ∧ (State.format_findings st = State.no_findings
     ↔ State.findings st = []).
Proof.
  intros Hn. split.
  - rewrite <- (slice_last_empty n (State.executed_tools st) Hn).
    unfold State.format_recent_history.
    destruct (PyStr.slice_last n (State.executed_tools st))
      as [|record recent]; [done|].
    split; [|done]. intros H. exfalso.
    cbn [concat map State.history_lines app] in H.
    match type of H with
    | PyStr.join ?sep (?p :: ?r) = _ =>
        destruct (join_prefix sep p r) as [rest Hj]; rewrite Hj in H
    end.
    apply (f_equal head) in H. vm_compute in H. discriminate H.
  - unfold State.format_findings.
    destruct (State.findings st) as [|f fs]; [done|].
    split; [|done]. intros H. exfalso.
    cbn [imap] in H.
    match type of H with
    | PyStr.join ?sep (?p :: ?r) = _ =>
        destruct (join_prefix sep p r) as [rest Hj]; rewrite Hj in H
    end.
    apply (f_equal head) in H.
    unfold State.finding_line, State.severity_symbol in H.
    repeat case_match; vm_compute in H; discriminate H.
Qed.

Lemma history_and_findings_sentinels_witness :
  (State.format_recent_history Samples.one_step_high 5 = State.no_history
   ↔ State.executed_tools Samples.one_step_high = [])
  ∧ (State.format_findings Samples.one_step_high = State.no_findings
     ↔ State.findings Samples.one_step_high = []).
Proof.
  apply (history_and_findings_sentinels Samples.one_step_high 5). lia.
Defined.
